(** * portfolio_insights: the transaction-processing pipeline

    A shallow embedding of [src/transaction_processor.py]
    (class [TransactionProcessor]: [load_data], [clean_data],
    [calculate_analytics] and the retrieval calls) and the properties
    stated of it.

    Layout:
    - text, cells, frames, exceptions and the state of the program: frames
      are objects in a store, the processor holds references to them;
    - the pandas calls whose outcome the library decides, as a class;
    - the pandas calls the pipeline makes, on cells, frames and labelled
      series, and the store and exception monad;
    - the methods of [TransactionProcessor], written in that monad;
    - the cleaning steps row by row, the notions the statements use and a
      small program logic;
    - [get_summary_stats] and the callers in [api.py] and [run_insights.py]
      that run the three stages on a file;
    - reference instances of the classes and sample tables;
    - the proofs, the theorems, and the theorems on the sample tables;
    - further properties of the code, and these on the sample tables. *)

From Stdlib Require Import QArith Lqa ZArith Ascii String List Permutation Sorted.
From stdpp Require Import base option list gmap strings sorting pretty.

Local Open Scope Z_scope.

(** ** Text *)

(** [str.strip()] removes the characters for which [str.isspace] holds; on
    single-byte text these are TAB..CR, FS..US and the space. *)
Definition isspace (a : ascii) : bool :=
  let n := N_of_ascii a in
  ((9 <=? n)%N && (n <=? 13)%N) || ((28 <=? n)%N && (n <=? 32)%N).

Fixpoint dropwhile {A} (p : A → bool) (l : list A) : list A :=
  match l with
  | [] => []
  | a :: l' => if p a then dropwhile p l' else l
  end.

Definition strip_chars (l : list ascii) : list ascii :=
  rev (dropwhile isspace (rev (dropwhile isspace l))).

Definition strip (s : string) : string :=
  string_of_list_ascii (strip_chars (list_ascii_of_string s)).

(** [str.upper()] on single-byte text: a..z go to A..Z, every other byte is
    kept. *)
Definition upper_char (a : ascii) : ascii :=
  let n := N_of_ascii a in
  if ((97 <=? n)%N && (n <=? 122)%N) then ascii_of_N (n - 32) else a.

Definition upper (s : string) : string :=
  string_of_list_ascii (map upper_char (list_ascii_of_string s)).

(** ** Cells *)

(** A pandas [Timestamp] of a [datetime64[ns]] column is a count of
    nanoseconds since 1970-01-01 00:00:00; a [datetime.date] is kept as its
    day number since 1970-01-01. *)
Abbreviation Timestamp := Z.

Definition ns_per_day : Z := 86400 * 1000000000.

(** [Timestamp.date()]: the calendar date of a timestamp. *)
Definition date_of (t : Timestamp) : Z := t `div` ns_per_day.

(** What a column can hold at one row.  [NaN] stands for every missing
    marker pandas has ([NaN], [NaT], [None]): [isna] is true of it and of
    nothing else.  Numbers are exact rationals. *)
Inductive cell : Type :=
  | NaN
  | Str (s : string)
  | Num (q : Q)
  | Datetime (t : Timestamp)
  | Date (d : Z).

#[global] Instance Q_eq_dec : EqDecision Q.
Proof. solve_decision. Defined.

#[global] Instance cell_eq_dec : EqDecision cell.
Proof. solve_decision. Defined.

#[global] Instance cell_inhabited : Inhabited cell := populate NaN.

Definition isna (c : cell) : bool :=
  match c with NaN => true | _ => false end.

(** ** Frames, exceptions, and the state of the program

    A [DataFrame] is a mutable object: [self.df] and [self.cleaned_df] are
    references, [df[c] = ...] changes the object a reference points to, and
    [copy], [dropna], [df[mask]], [sort_values] and [reset_index] build a
    new object.  The store ([heap]) is a list of frames; a reference is a
    position in it, and a new object goes at the end. *)

(** A [DataFrame]: the column names and the rows, each row carrying its
    index label and a finite map from column name to cell. *)
Abbreviation Row := (gmap string cell).

Record DataFrame : Type := mkDataFrame {
  columns : list string;
  rows : list (nat * Row)
}.

(** A column, or a mask, is read and written by position. *)
Abbreviation Series := (list cell).

(** The exceptions the program raises.  The two kinds of [ValueError] are
    told apart by their message: the missing columns of [load_data], and
    the stage called before the one it needs. *)
Inductive message : Type :=
  | DataNotLoaded              (* "Data not loaded. Call load_data() first." *)
  | DataNotCleaned             (* "Data not cleaned. Call clean_data() first." *)
  | MissingRequiredColumns (missing_cols : list string).

Inductive exn : Type :=
  | ValueError (m : message)
  | KeyError (column : string)
  | DateParseError (text : string)
  | FileNotFoundError (path : string).

Inductive result (A : Type) : Type :=
  | Ok (a : A)
  | Raise (e : exn).
#[global] Arguments Ok {A} a.
#[global] Arguments Raise {A} e.

#[global] Instance result_ret : MRet result := λ A a, Ok a.
#[global] Instance result_bind : MBind result := λ A B f m,
  match m with Ok a => f a | Raise e => Raise e end.

(** The dictionary built by [calculate_analytics]. *)
Record Analytics : Type := mkAnalytics {
  total_transactions : nat;
  total_volume : Q;
  unique_tickers : nat;
  unique_traders : nat;
  date_range : cell * cell;
  volume_by_ticker : list (cell * Q);
  net_position : list (cell * Q);
  trader_activity : list (cell * (nat * Q));
  daily_volume : list (cell * Q);
  action_counts : list (cell * nat)
}.

Abbreviation loc := nat.

Inductive log_level : Type := INFO | WARNING | ERROR.

Inductive log_text : Type :=
  | LoadedTransactions (n : nat)       (* "Loaded %d transactions" *)
  | ErrorLoadingData (e : exn)         (* "Error loading data: %s" *)
  | DroppedMissing (n : nat)           (* "Dropped %d rows with missing critical values" *)
  | RemovedInvalidActions (n : nat)    (* "Removed %d rows with invalid actions" *)
  | RemovedNonPositive (n : nat)       (* "Removed %d rows with non-positive quantity/price" *)
  | DataCleaned (n : nat)              (* "Data cleaned. Final count: %d transactions" *)
  | AnalyticsCalculated.               (* "Analytics calculated successfully" *)

(** The attributes of a [TransactionProcessor].  [analytics] is [None]
    for the empty dictionary it starts with. *)
Record TransactionProcessor : Type := mkProcessor {
  csv_path : string;
  df : option loc;
  cleaned_df : option loc;
  analytics : option Analytics
}.

(** [files] gives, for a path, the table [pd.read_csv] reads from it. *)
Record World : Type := mkWorld {
  files : gmap string DataFrame;
  heap : list DataFrame;
  self : TransactionProcessor;
  logged : list (log_level * log_text)
}.

(** Computations that read and change the world and may raise; what was
    changed before an exception stays changed. *)
Definition M (A : Type) : Type := World → result A * World.

#[global] Instance M_ret : MRet M := λ A a w, (Ok a, w).
#[global] Instance M_bind : MBind M := λ A B f m w,
  match m w with
  | (Ok a, w') => f a w'
  | (Raise e, w') => (Raise e, w')
  end.

(** ** The pandas calls whose code is outside the repository

    The pipeline calls four conversions of pandas on single values and
    sorts with pandas' default (unstable) sort.  What they do on a given
    text is fixed by the library, not by this program; the development is
    parametric in them.  A reference instance, used to run the pipeline on
    concrete tables, is given further down. *)

Class Pandas := {
  (** [pd.to_datetime(s, format="%Y-%m-%d %H:%M:%S")] on one text: the
      timestamp, or [None] where the text does not match the format. *)
  strptime : string → option Timestamp;
  (** [pd.to_datetime(s, errors="raise")] on one text, without a format:
      the timestamp, or [None] where pandas raises. *)
  parse_datetime : string → option Timestamp;
  (** [pd.to_numeric] on one text: the number, or [None]. *)
  parse_number : string → option Q;
  (** [str(x)] of a number, used by [astype(str)]. *)
  repr_number : Q → string;
  (** [sort_values]: some comparison sort. *)
  sort_by : ∀ {A : Type}, (A → A → bool) → list A → list A
}.

(** What is known of the sort: it permutes, and it orders by a total
    preorder.  Nothing is assumed of how it breaks ties. *)
Class PandasLaws `{Pandas} : Prop := {
  sort_by_perm : ∀ {A} (leb : A → A → bool) l, sort_by leb l ≡ₚ l;
  sort_by_sorted : ∀ {A} (leb : A → A → bool) l,
    (∀ x y, leb x y = true ∨ leb y x = true) →
    (∀ x y z, leb x y = true → leb y z = true → leb x z = true) →
    StronglySorted (λ x y, leb x y = true) (sort_by leb l)
}.

Section Pipeline.
Context `{Pandas}.

(** ** Operations on columns, one cell at a time *)

(** [pd.to_datetime(col, format=..., errors="coerce")].  A number never
    matches the format (its text has no colon). *)
Definition to_datetime_format (c : cell) : cell :=
  match c with
  | Str s => match strptime s with Some t => Datetime t | None => NaN end
  | Datetime t => Datetime t
  | _ => NaN
  end.

(** [col.astype(str)]: a missing value becomes the text "nan".  (A column
    read from a file holds texts, numbers and missing values only.) *)
Definition astype_str (c : cell) : cell :=
  match c with
  | NaN => Str "nan"
  | Str s => Str s
  | Num q => Str (repr_number q)
  | Datetime t => Str (pretty t)
  | Date d => Str (pretty d)
  end.

(** [col.str.strip()] and [col.str.upper()]: defined on text, missing on
    anything else. *)
Definition str_strip (c : cell) : cell :=
  match c with Str s => Str (strip s) | _ => NaN end.

Definition str_upper (c : cell) : cell :=
  match c with Str s => Str (upper s) | _ => NaN end.

(** [pd.to_numeric(col, errors="coerce")]. *)
Definition to_numeric (c : cell) : cell :=
  match c with
  | Num q => Num q
  | Str s => match parse_number s with Some q => Num q | None => NaN end
  | _ => NaN
  end.

(** [col.isin(values)]. *)
Definition isin (values : list string) (c : cell) : bool :=
  match c with Str s => bool_decide (s ∈ values) | _ => false end.

(** [col <= 0]: false on a missing value. *)
Definition le_zero (c : cell) : bool :=
  match c with Num q => Qle_bool q 0 | _ => false end.

(** [a * b] on numeric columns. *)
Definition cell_mul (a b : cell) : cell :=
  match a, b with Num x, Num y => Num (x * y) | _, _ => NaN end.

(** [col.dt.date]. *)
Definition dt_date (c : cell) : cell :=
  match c with Datetime t => Date (date_of t) | _ => NaN end.

(** [col >= bound] and [col <= bound] on a datetime column. *)
Definition time_ge (bound : Timestamp) (c : cell) : bool :=
  match c with Datetime t => bound <=? t | _ => false end.

Definition time_le (bound : Timestamp) (c : cell) : bool :=
  match c with Datetime t => t <=? bound | _ => false end.

(** Order used by [sort_values] on a column: values of one kind by their
    own order, missing values last ([na_position="last"]). *)
Definition cell_rank (c : cell) : Z :=
  match c with
  | Str _ => 0 | Num _ => 1 | Datetime _ => 2 | Date _ => 3 | NaN => 4
  end.

Definition cell_leb (a b : cell) : bool :=
  match a, b with
  | Str x, Str y => String.leb x y
  | Num x, Num y => Qle_bool x y
  | Datetime x, Datetime y => x <=? y
  | Date x, Date y => x <=? y
  | _, _ => cell_rank a <=? cell_rank b
  end.

(** ** Operations on frames *)

Definition cell_at (c : string) (r : Row) : cell := default NaN (r !! c).

Definition len (d : DataFrame) : nat := length (rows d).

(** [df[c]] *)
Definition getitem (c : string) (d : DataFrame) : result Series :=
  if bool_decide (c ∈ columns d)
  then Ok (map (λ ir, cell_at c ir.2) (rows d))
  else Raise (KeyError c).

(** The columns after an assignment to column [c]: [c] is appended when it
    is new. *)
Definition add_col (c : string) (cols : list string) : list string :=
  if bool_decide (c ∈ cols) then cols else cols ++ [c].

(** [df[c] = s], for a series [s] computed from [df] itself (same index,
    same length): the column is replaced, or appended when it is new. *)
Definition setitem (c : string) (s : Series) (d : DataFrame) : DataFrame :=
  {| columns := add_col c (columns d);
     rows := zip_with (λ ir v, (ir.1, <[c := v]> ir.2)) (rows d) s |}.

(** [df[mask]] *)
Definition boolean_index (mask : list bool) (d : DataFrame) : DataFrame :=
  {| columns := columns d;
     rows := map fst (List.filter snd (zip (rows d) mask)) |}.

(** [df.dropna(subset=cols)] *)
Definition dropna (subset : list string) (d : DataFrame) : result DataFrame :=
  match List.filter (λ c, negb (bool_decide (c ∈ columns d))) subset with
  | c :: _ => Raise (KeyError c)
  | [] =>
    Ok {| columns := columns d;
          rows := List.filter
                    (λ ir, forallb (λ c, negb (isna (cell_at c ir.2))) subset)
                    (rows d) |}
  end.

(** [df.sort_values(c)] *)
Definition sort_values (c : string) (d : DataFrame) : result DataFrame :=
  if bool_decide (c ∈ columns d)
  then Ok {| columns := columns d;
             rows := sort_by (λ x y, cell_leb (cell_at c x.2) (cell_at c y.2))
                             (rows d) |}
  else Raise (KeyError c).

(** [df.reset_index(drop=True)] *)
Definition reset_index (d : DataFrame) : DataFrame :=
  {| columns := columns d;
     rows := zip (seq 0 (length (rows d))) (map snd (rows d)) |}.

(** [mask.sum()] and [(~mask)] *)
Definition mask_sum (mask : list bool) : nat := length (List.filter id mask).
Definition mask_not (mask : list bool) : list bool := map negb mask.
Definition mask_or (a b : list bool) : list bool := zip_with orb a b.
Definition mask_and (a b : list bool) : list bool := zip_with andb a b.

(** ** Labelled series: the results of [groupby] *)

Definition num_of (c : cell) : Q :=
  match c with Num q => q | _ => 0%Q end.

Definition Qsum (l : list Q) : Q := fold_right Qplus 0%Q l.

(** [Series.sum()]: missing values are skipped. *)
Definition series_sum (s : Series) : Q := Qsum (map num_of s).

(** The group labels of [groupby(key)]: the distinct keys that are not
    missing, sorted. *)
Definition group_keys (keys : Series) : list cell :=
  sort_by cell_leb (remove_dups (List.filter (λ c, negb (isna c)) keys)).

(** The values of one group. *)
Definition group (k : cell) (keys vals : Series) : Series :=
  map snd (List.filter (λ kv, bool_decide (kv.1 = k)) (zip keys vals)).

(** [groupby(key)[val].sum()] *)
Definition groupby_sum (keys vals : Series) : list (cell * Q) :=
  map (λ k, (k, series_sum (group k keys vals))) (group_keys keys).

(** [groupby(key).agg({a: "count", b: "sum"})]: per group, the number of
    values of [a] that are not missing and the sum of [b]. *)
Definition groupby_count_sum (keys a b : Series) : list (cell * (nat * Q)) :=
  map (λ k, (k, (length (List.filter (λ c, negb (isna c)) (group k keys a)),
                 series_sum (group k keys b))))
      (group_keys keys).

(** [s.sort_values(ascending=False)] and [s.sort_index()] *)
Definition sort_values_desc (s : list (cell * Q)) : list (cell * Q) :=
  sort_by (λ x y, Qle_bool y.2 x.2) s.

Definition sort_index (s : list (cell * Q)) : list (cell * Q) :=
  sort_by (λ x y, cell_leb x.1 y.1) s.

(** [s.loc[k]] on a series with distinct labels *)
Definition loc_get {V} (k : cell) (s : list (cell * V)) : option V :=
  snd <$> List.find (λ kv, bool_decide (kv.1 = k)) s.

(** [a.sub(b, fill_value=fill)]: over the sorted union of the labels, with
    [fill] for the side a label is absent from. *)
Definition sub_fill (fill : Q) (a b : list (cell * Q)) : list (cell * Q) :=
  map (λ k, (k, (default fill (loc_get k a) - default fill (loc_get k b))%Q))
      (sort_by cell_leb (remove_dups (map fst a ++ map fst b))).

(** [col.value_counts()] *)
Definition value_counts (s : Series) : list (cell * nat) :=
  sort_by (λ x y, Nat.leb y.2 x.2)
    (map (λ k, (k, length (List.filter (λ c, bool_decide (c = k)) s)))
         (remove_dups (List.filter (λ c, negb (isna c)) s))).

(** [col.nunique()] *)
Definition nunique (s : Series) : nat :=
  length (remove_dups (List.filter (λ c, negb (isna c)) s)).

(** [col.min()] and [col.max()]: missing when nothing is present. *)
Definition cell_min (a b : cell) : cell :=
  if isna a then b else if isna b then a else if cell_leb a b then a else b.
Definition cell_max (a b : cell) : cell :=
  if isna a then b else if isna b then a else if cell_leb a b then b else a.
Definition series_min (s : Series) : cell := fold_right cell_min NaN s.
Definition series_max (s : Series) : cell := fold_right cell_max NaN s.

(** ** The store monad *)

(** [__init__] *)
Definition init (path : string) : TransactionProcessor :=
  {| csv_path := path; df := None; cleaned_df := None; analytics := None |}.

Definition raise {A} (e : exn) : M A := λ w, (Raise e, w).

(** [try: body except Exception as e: handler(e)] *)
Definition try_except {A} (body : M A) (handler : exn → M A) : M A := λ w,
  match body w with
  | (Ok a, w') => (Ok a, w')
  | (Raise e, w') => handler e w'
  end.

Definition lift {A} (r : result A) : M A := λ w, (r, w).

Definition get_self : M TransactionProcessor := λ w, (Ok (self w), w).

Definition set_self (f : TransactionProcessor → TransactionProcessor) : M unit :=
  λ w, (Ok tt, {| files := files w; heap := heap w; self := f (self w);
                  logged := logged w |}).

Definition emit (lv : log_level) (t : log_text) : M unit :=
  λ w, (Ok tt, {| files := files w; heap := heap w; self := self w;
                  logged := logged w ++ [(lv, t)] |}).

(** A new object. *)
Definition alloc (d : DataFrame) : M loc :=
  λ w, (Ok (length (heap w)),
        {| files := files w; heap := heap w ++ [d]; self := self w;
           logged := logged w |}).

(** The object a reference points to (every reference the program holds
    points to one). *)
Definition deref (l : loc) : M DataFrame :=
  λ w, (Ok (default (mkDataFrame [] []) (heap w !! l)), w).

(** A change of the object in place. *)
Definition mutate (l : loc) (f : DataFrame → DataFrame) : M unit :=
  λ w, (Ok tt, {| files := files w; heap := alter f l (heap w);
                  self := self w; logged := logged w |}).

(** [pd.read_csv(path)] *)
Definition read_csv (path : string) : M loc :=
  λ w, match files w !! path with
       | Some d => alloc d w
       | None => (Raise (FileNotFoundError path), w)
       end.

(** The frame calls, on references. *)
Definition df_len (l : loc) : M nat := d ← deref l; mret (len d).
Definition df_columns (l : loc) : M (list string) := d ← deref l; mret (columns d).
Definition df_getitem (l : loc) (c : string) : M Series :=
  d ← deref l; lift (getitem c d).
Definition df_setitem (l : loc) (c : string) (s : Series) : M unit :=
  mutate l (setitem c s).
Definition df_copy (l : loc) : M loc := d ← deref l; alloc d.
Definition df_boolean_index (l : loc) (mask : list bool) : M loc :=
  d ← deref l; alloc (boolean_index mask d).
Definition df_dropna (l : loc) (subset : list string) : M loc :=
  d ← deref l; d' ← lift (dropna subset d); alloc d'.
Definition df_reset_index (l : loc) : M loc :=
  d ← deref l; alloc (reset_index d).

(** [df.sort_values(c)] on a reference *)
Definition df_sort_values (l : loc) (c : string) : M loc :=
  d ← deref l; d' ← lift (sort_values c d); alloc d'.

(** ** The methods of [TransactionProcessor] *)

Definition REQUIRED_COLS : list string :=
  ["timestamp"; "ticker"; "action"; "quantity"; "price"; "trader_id"].

Definition when (b : bool) (m : M unit) : M unit := if b then m else mret tt.

(** [load_data]: the frame read is stored in [self.df] first, the columns
    are checked next; whatever is raised is logged and raised again. *)
Definition load_data : M loc :=
  try_except
    (me ← get_self;
     d ← read_csv (csv_path me);
     set_self (λ p, {| csv_path := csv_path p; df := Some d;
                       cleaned_df := cleaned_df p; analytics := analytics p |});;
     n ← df_len d;
     emit INFO (LoadedTransactions n);;
     cols ← df_columns d;
     let missing_cols :=
       List.filter (λ c, negb (bool_decide (c ∈ cols))) REQUIRED_COLS in
     match missing_cols with
     | [] => mret d
     | _ => raise (ValueError (MissingRequiredColumns missing_cols))
     end)
    (λ e, emit ERROR (ErrorLoadingData e);; raise e).

(** [clean_data].  The local variable [df] of the source is the reference
    [d]; it is rebound wherever the source rebinds it. *)
Definition clean_data : M loc :=
  me ← get_self;
  match df me with
  | None => raise (ValueError DataNotLoaded)
  | Some raw =>
    d ← df_copy raw;
    (* Parse timestamp *)
    ts ← df_getitem d "timestamp";
    df_setitem d "timestamp" (map to_datetime_format ts);;
    (* Standardize string fields early *)
    c ← df_getitem d "ticker";
    df_setitem d "ticker" (map (str_upper ∘ str_strip ∘ astype_str) c);;
    c ← df_getitem d "action";
    df_setitem d "action" (map (str_upper ∘ str_strip ∘ astype_str) c);;
    c ← df_getitem d "trader_id";
    df_setitem d "trader_id" (map (str_upper ∘ str_strip ∘ astype_str) c);;
    (* Coerce numeric fields *)
    c ← df_getitem d "quantity";
    df_setitem d "quantity" (map to_numeric c);;
    c ← df_getitem d "price";
    df_setitem d "price" (map to_numeric c);;
    (* Drop rows with missing critical fields (timestamp included) *)
    initial_count ← df_len d;
    d ← df_dropna d ["timestamp"; "ticker"; "action"; "quantity"; "price"];
    n ← df_len d;
    let dropped_missing := (initial_count - n)%nat in
    when (0 <? dropped_missing)%nat (emit WARNING (DroppedMissing dropped_missing));;
    (* Validate action values *)
    c ← df_getitem d "action";
    let valid_actions_mask := map (isin ["BUY"; "SELL"]) c in
    let invalid_actions := mask_sum (mask_not valid_actions_mask) in
    d ← (if (0 <? invalid_actions)%nat
         then emit WARNING (RemovedInvalidActions invalid_actions);;
              df_boolean_index d valid_actions_mask
         else mret d);
    (* Validate numeric constraints *)
    q ← df_getitem d "quantity";
    p ← df_getitem d "price";
    let nonpositive_mask := mask_or (map le_zero q) (map le_zero p) in
    let nonpositive_count := mask_sum nonpositive_mask in
    d ← (if (0 <? nonpositive_count)%nat
         then emit WARNING (RemovedNonPositive nonpositive_count);;
              df_boolean_index d (mask_not nonpositive_mask)
         else mret d);
    (* Derived columns *)
    q ← df_getitem d "quantity";
    p ← df_getitem d "price";
    df_setitem d "total_value" (zip_with cell_mul q p);;
    ts ← df_getitem d "timestamp";
    df_setitem d "date" (map dt_date ts);;
    (* Sort by timestamp *)
    sorted ← df_sort_values d "timestamp";
    d ← df_reset_index sorted;
    set_self (λ p, {| csv_path := csv_path p; df := df p;
                      cleaned_df := Some d; analytics := analytics p |});;
    n ← df_len d;
    emit INFO (DataCleaned n);;
    mret d
  end.

(** The aggregates of [calculate_analytics], from the cleaned frame. *)
Definition aggregate (d : DataFrame) : result Analytics :=
  (* Total volume traded per ticker *)
  ticker ← getitem "ticker" d;
  total_value ← getitem "total_value" d;
  let volume_by_ticker := sort_values_desc (groupby_sum ticker total_value) in
  (* Net position per ticker *)
  action ← getitem "action" d;
  let bought := boolean_index (map (λ c, bool_decide (c = Str "BUY")) action) d in
  bk ← getitem "ticker" bought;
  bq ← getitem "quantity" bought;
  let buys := groupby_sum bk bq in
  let sold := boolean_index (map (λ c, bool_decide (c = Str "SELL")) action) d in
  sk ← getitem "ticker" sold;
  sq ← getitem "quantity" sold;
  let sells := groupby_sum sk sq in
  let net_position := sort_values_desc (sub_fill 0%Q buys sells) in
  (* Most active traders *)
  trader_id ← getitem "trader_id" d;
  timestamp ← getitem "timestamp" d;
  let trader_activity :=
    sort_by (λ x y, Nat.leb y.2.1 x.2.1)
            (groupby_count_sum trader_id timestamp total_value) in
  (* Time-based analysis *)
  date ← getitem "date" d;
  let daily_volume := sort_index (groupby_sum date total_value) in
  (* Action distribution *)
  let action_counts := value_counts action in
  (* Summary statistics *)
  mret {| total_transactions := len d;
          total_volume := series_sum total_value;
          unique_tickers := nunique ticker;
          unique_traders := nunique trader_id;
          date_range := (series_min timestamp, series_max timestamp);
          volume_by_ticker := volume_by_ticker;
          net_position := net_position;
          trader_activity := trader_activity;
          daily_volume := daily_volume;
          action_counts := action_counts |}.

(** [calculate_analytics]: the only test is that [self.cleaned_df] is set. *)
Definition calculate_analytics : M Analytics :=
  me ← get_self;
  match cleaned_df me with
  | None => raise (ValueError DataNotCleaned)
  | Some d =>
    t ← deref d;
    a ← lift (aggregate t);
    set_self (λ p, {| csv_path := csv_path p; df := df p;
                      cleaned_df := cleaned_df p; analytics := Some a |});;
    emit INFO AnalyticsCalculated;;
    mret a
  end.

(** [get_transactions_by_ticker] *)
Definition get_transactions_by_ticker (ticker : string) : M loc :=
  me ← get_self;
  match cleaned_df me with
  | None => raise (ValueError DataNotCleaned)
  | Some d =>
    let t := upper (strip ticker) in
    c ← df_getitem d "ticker";
    sel ← df_boolean_index d (map (λ x, bool_decide (x = Str t)) c);
    df_copy sel
  end.

(** [pd.to_datetime(text, errors="raise")] *)
Definition to_datetime (text : string) : M Timestamp :=
  match parse_datetime text with
  | Some t => mret t
  | None => raise (DateParseError text)
  end.

(** [get_transactions_by_timerange] *)
Definition get_transactions_by_timerange (start_date end_date : string) : M loc :=
  me ← get_self;
  match cleaned_df me with
  | None => raise (ValueError DataNotCleaned)
  | Some d =>
    start ← to_datetime start_date;
    end_ ← to_datetime end_date;
    lo ← df_getitem d "timestamp";
    hi ← df_getitem d "timestamp";
    let mask := mask_and (map (time_ge start) lo) (map (time_le end_) hi) in
    sel ← df_boolean_index d mask;
    df_copy sel
  end.

(** [get_trader_transactions] *)
Definition get_trader_transactions (trader_id : string) : M loc :=
  me ← get_self;
  match cleaned_df me with
  | None => raise (ValueError DataNotCleaned)
  | Some d =>
    let tid := upper (strip trader_id) in
    c ← df_getitem d "trader_id";
    sel ← df_boolean_index d (map (λ x, bool_decide (x = Str tid)) c);
    df_copy sel
  end.

(** ** The cleaning steps, row by row

    What [clean_data] does to one row and to the list of rows, used to
    state and prove what it does to the table. *)

Definition set_col (c : string) (f : Row → cell) (r : Row) : Row :=
  <[c := f r]> r.

Definition on_row (f : Row → Row) (ir : nat * Row) : nat * Row := (ir.1, f ir.2).

(** Parsing, standardizing and coercing (the six column assignments). *)
Definition standardize (r : Row) : Row :=
  set_col "price" (to_numeric ∘ cell_at "price")
  (set_col "quantity" (to_numeric ∘ cell_at "quantity")
  (set_col "trader_id" (str_upper ∘ str_strip ∘ astype_str ∘ cell_at "trader_id")
  (set_col "action" (str_upper ∘ str_strip ∘ astype_str ∘ cell_at "action")
  (set_col "ticker" (str_upper ∘ str_strip ∘ astype_str ∘ cell_at "ticker")
  (set_col "timestamp" (to_datetime_format ∘ cell_at "timestamp") r))))).

(** The three tests a standardized row has to pass. *)
Definition no_missing (r : Row) : bool :=
  forallb (λ c, negb (isna (cell_at c r)))
          ["timestamp"; "ticker"; "action"; "quantity"; "price"].

Definition valid_action (r : Row) : bool :=
  isin ["BUY"; "SELL"] (cell_at "action" r).

Definition nonpositive (r : Row) : bool :=
  le_zero (cell_at "quantity" r) || le_zero (cell_at "price" r).

(** The derived columns. *)
Definition derive (r : Row) : Row :=
  set_col "date" (dt_date ∘ cell_at "timestamp")
  (set_col "total_value"
     (λ r, cell_mul (cell_at "quantity" r) (cell_at "price" r)) r).

Definition standardized (raw : DataFrame) : list (nat * Row) :=
  map (on_row standardize) (rows raw).

Definition present (raw : DataFrame) : list (nat * Row) :=
  List.filter (λ ir, no_missing ir.2) (standardized raw).

Definition actionable (raw : DataFrame) : list (nat * Row) :=
  List.filter (λ ir, valid_action ir.2) (present raw).

Definition kept (raw : DataFrame) : list (nat * Row) :=
  List.filter (λ ir, negb (nonpositive ir.2)) (actionable raw).

(** The frame [clean_data] sorts, with the index labels of the raw rows. *)
Definition derived (raw : DataFrame) : DataFrame :=
  {| columns := add_col "date" (add_col "total_value" (columns raw));
     rows := map (on_row derive) (kept raw) |}.

Definition sorted_frame (raw : DataFrame) : DataFrame :=
  {| columns := columns (derived raw);
     rows := sort_by (λ x y, cell_leb (cell_at "timestamp" x.2)
                                      (cell_at "timestamp" y.2))
                     (rows (derived raw)) |}.

(** The cleaned table of a raw table. *)
Definition cleaned (raw : DataFrame) : DataFrame :=
  reset_index (sorted_frame raw).

(** The counts [clean_data] computes and the records it logs. *)
Definition dropped_missing (raw : DataFrame) : nat :=
  (length (rows raw) - length (present raw))%nat.
Definition invalid_actions (raw : DataFrame) : nat :=
  length (List.filter (λ ir, negb (valid_action ir.2)) (present raw)).
Definition nonpositive_count (raw : DataFrame) : nat :=
  length (List.filter (λ ir, nonpositive ir.2) (actionable raw)).

Definition warn (n : nat) (t : nat → log_text) : list (log_level * log_text) :=
  if (0 <? n)%nat then [(WARNING, t n)] else [].

Definition clean_log (raw : DataFrame) : list (log_level * log_text) :=
  warn (dropped_missing raw) DroppedMissing
  ++ warn (invalid_actions raw) RemovedInvalidActions
  ++ warn (nonpositive_count raw) RemovedNonPositive
  ++ [(INFO, DataCleaned (length (kept raw)))].

(** ** Notions the statements use *)

(** The validity of a raw row in the words of the specification: the
    timestamp parses under the exact format, the action is BUY or SELL
    after trimming and upper-casing, quantity and price coerce to numbers
    strictly greater than zero.  Gives the parsed timestamp, the quantity
    and the price. *)
Definition valid_record (r : Row) : option (Timestamp * Q * Q) :=
  match to_datetime_format (cell_at "timestamp" r),
        (str_upper ∘ str_strip ∘ astype_str) (cell_at "action" r),
        to_numeric (cell_at "quantity" r),
        to_numeric (cell_at "price" r) with
  | Datetime t, Str a, Num q, Num p =>
    if bool_decide (a ∈ ["BUY"; "SELL"])
       && negb (Qle_bool q 0) && negb (Qle_bool p 0)
    then Some (t, q, p) else None
  | _, _, _, _ => None
  end.

(** The three tests of [clean_data] on a standardized row. *)
Definition passes (r : Row) : bool :=
  no_missing (standardize r) && valid_action (standardize r)
  && negb (nonpositive (standardize r)).

(** The cleaned form of a row. *)
Definition transaction (r : Row) : Row := derive (standardize r).

(** What every row of a cleaned table satisfies. *)
Definition text_ok (c : cell) : Prop :=
  ∃ s, c = Str s ∧ strip s = s ∧ upper s = s.

Definition transaction_ok (r : Row) : Prop :=
  (∃ t, cell_at "timestamp" r = Datetime t
        ∧ cell_at "date" r = Date (date_of t))
  ∧ text_ok (cell_at "ticker" r)
  ∧ text_ok (cell_at "trader_id" r)
  ∧ (cell_at "action" r = Str "BUY" ∨ cell_at "action" r = Str "SELL")
  ∧ ∃ q p, cell_at "quantity" r = Num q ∧ cell_at "price" r = Num p
           ∧ (0 < q)%Q ∧ (0 < p)%Q
           ∧ cell_at "total_value" r = Num (q * p).

(** The timestamps of a frame, in row order. *)
Definition timestamps (d : DataFrame) : list cell :=
  map (λ ir, cell_at "timestamp" ir.2) (rows d).

Definition index (d : DataFrame) : list nat := map fst (rows d).

Definition cleaned_ok (d : DataFrame) : Prop :=
  (∀ c, c ∈ REQUIRED_COLS ++ ["total_value"; "date"] → c ∈ columns d)
  ∧ Forall (λ ir, transaction_ok ir.2) (rows d)
  ∧ StronglySorted (λ a b, cell_leb a b = true) (timestamps d)
  ∧ index d = seq 0 (len d).

(** The six required columns are there. *)
Definition valid_schema (raw : DataFrame) : Prop :=
  ∀ c, c ∈ REQUIRED_COLS → c ∈ columns raw.

(** [self.df] is set and points to [raw]. *)
Definition loaded (w : World) (raw : DataFrame) : Prop :=
  ∃ l, df (self w) = Some l ∧ heap w !! l = Some raw.

(** [self.cleaned_df] is set and points to [t]. *)
Definition cleaned_at (w : World) (t : DataFrame) : Prop :=
  ∃ l, cleaned_df (self w) = Some l ∧ heap w !! l = Some t.

(** The frame a reference of the processor points to. *)
Definition frame_at (w : World) (l : loc) : DataFrame :=
  default (mkDataFrame [] []) (heap w !! l).

(** The entries of a frame that carry the index label [i]. *)
Definition entries_of (i : nat) (l : list (nat * Row)) : list (nat * Row) :=
  List.filter (λ x, bool_decide (x.1 = i)) l.

(** The required columns a frame lacks. *)
Definition missing_cols (d : DataFrame) : list string :=
  List.filter (λ c, negb (bool_decide (c ∈ columns d))) REQUIRED_COLS.

(** The world [load_data] leaves once the file was read: the frame is a
    new object, [self.df] points to it, the count is logged, and so is
    the error when columns are missing. *)
Definition after_load (w : World) (d : DataFrame) : World :=
  {| files := files w;
     heap := heap w ++ [d];
     self := {| csv_path := csv_path (self w); df := Some (length (heap w));
                cleaned_df := cleaned_df (self w);
                analytics := analytics (self w) |};
     logged := logged w ++ [(INFO, LoadedTransactions (len d))]
               ++ match missing_cols d with
                  | [] => []
                  | m => [(ERROR, ErrorLoadingData
                                    (ValueError (MissingRequiredColumns m)))]
                  end |}.

(** The column [c] of a frame that has it. *)
Definition column (c : string) (d : DataFrame) : Series :=
  map (λ ir, cell_at c ir.2) (rows d).

(** The rows of a frame with a given action. *)
Definition with_action (a : string) (d : DataFrame) : DataFrame :=
  {| columns := columns d;
     rows := List.filter (λ ir, bool_decide (cell_at "action" ir.2 = Str a))
                         (rows d) |}.

(** The values that go with the key [k] in a list of pairs. *)
Definition values_of (k : cell) (kvs : list (cell * cell)) : Series :=
  map snd (List.filter (λ kv, bool_decide (kv.1 = k)) kvs).

(** The quantities bought or sold of one ticker, summed. *)
Definition quantity_sum (a : string) (k : cell) (d : DataFrame) : Q :=
  series_sum
    (map (λ ir, cell_at "quantity" ir.2)
         (List.filter (λ ir, bool_decide (cell_at "action" ir.2 = Str a)
                             && bool_decide (cell_at "ticker" ir.2 = k))
                      (rows d))).

(** The world [calculate_analytics] leaves when it returns [a]. *)
Definition with_analytics (w : World) (a : Analytics) : World :=
  {| files := files w; heap := heap w;
     self := {| csv_path := csv_path (self w); df := df (self w);
                cleaned_df := cleaned_df (self w); analytics := Some a |};
     logged := logged w ++ [(INFO, AnalyticsCalculated)] |}.

(** The test of the mask: the timestamp is within the two bounds. *)
Definition in_range (s e : Timestamp) (ir : nat * Row) : bool :=
  time_ge s (cell_at "timestamp" ir.2) && time_le e (cell_at "timestamp" ir.2).

(** The frame the query returns. *)
Definition selection (s e : Timestamp) (t : DataFrame) : DataFrame :=
  {| columns := columns t; rows := List.filter (in_range s e) (rows t) |}.

(** ** A program logic for the store monad *)

(** [wp m w Q E]: run from [w], [m] returns a value and a world in [Q], or
    raises an exception with a world in [E]. *)
Definition wp {A} (m : M A) (w : World)
    (Q : A → World → Prop) (E : exn → World → Prop) : Prop :=
  match m w with
  | (Ok a, w') => Q a w'
  | (Raise e, w') => E e w'
  end.

(** [top w0 me lg l d w]: in [w], the reference [l] is the newest object and
    holds [d]; the objects of [w0] are all there, unchanged; the processor
    is [me] and the records [lg] were logged since [w0]. *)
Definition top (w0 : World) (me : TransactionProcessor)
    (lg : list (log_level * log_text)) (l : loc) (d : DataFrame) (w : World) : Prop :=
  ∃ hh, heap w = hh ++ [d] ∧ l = length hh ∧ heap w0 `prefix_of` hh
        ∧ files w = files w0 ∧ self w = me ∧ logged w = logged w0 ++ lg.

(** What holds when [clean_data], run from [w], returns [l'] and leaves
    [w']: the six columns were there, the newest object is the cleaned
    table and [self.cleaned_df] points to it; and what holds when it raises
    [e]: nothing but new objects was added, and [e] says that the table was
    not loaded or names a required column that is missing. *)
Definition clean_post (w : World) (l' : loc) (w' : World) : Prop :=
  ∃ l hh, df (self w) = Some l
    ∧ (∀ c, c ∈ REQUIRED_COLS → c ∈ columns (frame_at w l))
    ∧ heap w' = hh ++ [cleaned (frame_at w l)] ∧ l' = length hh
    ∧ heap w `prefix_of` hh
    ∧ files w' = files w
    ∧ self w' = {| csv_path := csv_path (self w); df := df (self w);
                   cleaned_df := Some l'; analytics := analytics (self w) |}
    ∧ logged w' = logged w ++ clean_log (frame_at w l).

Definition clean_exc (w : World) (e : exn) (w' : World) : Prop :=
  heap w `prefix_of` heap w' ∧ files w' = files w ∧ self w' = self w
  ∧ logged w' = logged w
  ∧ match df (self w) with
    | None => e = ValueError DataNotLoaded
    | Some l => ∃ c, e = KeyError c ∧ c ∈ REQUIRED_COLS
                     ∧ c ∉ columns (frame_at w l)
    end.

End Pipeline.

(** ** The summary and the callers of the processor

    [get_summary_stats] (the last method of [TransactionProcessor]) and the
    functions of [api.py] and [run_insights.py] that run the three stages
    on a file. *)

(** The dictionary [get_summary_stats] returns. *)
Module Summary.

Record stats : Type := mkStats {
  total_transactions : nat;
  total_volume : string;
  unique_tickers : nat;
  unique_traders : nat;
  date_range : string;
  top_ticker_by_volume : string;
  most_active_trader : string
}.

End Summary.

(** The texts Python builds for the summary.  What a number looks like
    under [f"{x:,.2f}"] and what [str] gives for a timestamp is decided by
    Python and pandas; the development is parametric in them too. *)
Class Formatting := {
  (** [f"{x:,.2f}"] *)
  format_money : Q → string;
  (** [str(x)] of a value that is not a text: a timestamp, [NaT], a
      number, a date. *)
  str_value : cell → string
}.

(** What a caller of [process_transactions] gets: a value, an exception of
    the processor, or the [AttributeError] of a method called on [None]. *)
Inductive outcome (A : Type) : Type :=
  | Returned (a : A)
  | Raised (e : exn)
  | AttributeError (obj attr : string).
#[global] Arguments Returned {A} a.
#[global] Arguments Raised {A} e.
#[global] Arguments AttributeError {A} obj attr.

Section Callers.
Context `{Pandas} `{Formatting}.

(** [str(x)]: a text is itself. *)
Definition py_str (c : cell) : string :=
  match c with Str s => s | _ => str_value c end.

(** The dictionary built from the analytics at the end of
    [get_summary_stats]. *)
Definition summarize (a : Analytics) : Summary.stats :=
  let volume_series := volume_by_ticker a in
  let trader_df := trader_activity a in
  let top_ticker :=
    match volume_series with
    | (k, _) :: _ => py_str k
    | [] => "N/A"
    end in
  let most_active_trader :=
    match trader_df with
    | (k, _) :: _ => py_str k
    | [] => "N/A"
    end in
  {| Summary.total_transactions := total_transactions a;
     Summary.total_volume := "$" +:+ format_money (total_volume a);
     Summary.unique_tickers := unique_tickers a;
     Summary.unique_traders := unique_traders a;
     Summary.date_range :=
       py_str (date_range a).1 +:+ " to " +:+ py_str (date_range a).2;
     Summary.top_ticker_by_volume := top_ticker;
     Summary.most_active_trader := most_active_trader |}.

(** [get_summary_stats]: the analytics are calculated only when
    [self.analytics] is the empty dictionary.  (Were it still empty
    afterwards, the first subscript would raise.) *)
Definition get_summary_stats : M Summary.stats :=
  me ← get_self;
  match analytics me with
  | None => calculate_analytics;; mret tt
  | Some _ => mret tt
  end;;
  me ← get_self;
  match analytics me with
  | Some a => mret (summarize a)
  | None => raise (KeyError "total_transactions")
  end.

(** [TransactionProcessor(csv_path)]: the processor a caller creates is
    the one the methods are then called on. *)
Definition new_processor (csv_path : string) : M unit :=
  set_self (λ _, init csv_path).

(** [build_analytics] of [run_insights.py] *)
Definition build_analytics (csv_path : string) : M (option Analytics) :=
  new_processor csv_path;;
  load_data;;
  clean_data;;
  calculate_analytics;;
  p ← get_self;
  mret (analytics p).

(** [process_transactions] of [api.py]: the three stages, then a copy of
    [processor.cleaned_df] and [processor.analytics]. *)
Definition process_transactions (csv_path : string)
    : World → outcome (loc * option Analytics) * World := λ w,
  match (new_processor csv_path;;
         load_data;;
         clean_data;;
         calculate_analytics;;
         get_self) w with
  | (Raise e, w') => (Raised e, w')
  | (Ok processor, w') =>
    match cleaned_df processor with
    | None => (AttributeError "NoneType" "copy", w')
    | Some d =>
      match df_copy d w' with
      | (Ok c, w'') => (Returned (c, analytics processor), w'')
      | (Raise e, w'') => (Raised e, w'')
      end
    end
  end.

(** ** Further notions the statements use *)

(** The rows of a frame whose column [c] holds [k]. *)
Definition rows_with (c : string) (k : cell) (d : DataFrame) : list (nat * Row) :=
  List.filter (λ ir, bool_decide (cell_at c ir.2 = k)) (rows d).

(** The [total_value] of those rows, summed. *)
Definition value_sum (c : string) (k : cell) (d : DataFrame) : Q :=
  series_sum (map (λ ir, cell_at "total_value" ir.2) (rows_with c k d)).

(** The frame a query by ticker or by trader returns: the rows whose
    column [c] holds the normalized argument. *)
Definition matching (c k : string) (t : DataFrame) : DataFrame :=
  {| columns := columns t; rows := rows_with c (Str (upper (strip k))) t |}.

(** The world a query leaves: the selection and its copy are new
    objects. *)
Definition with_selection (w : World) (sel : DataFrame) : World :=
  {| files := files w; heap := (heap w ++ [sel]) ++ [sel];
     self := self w; logged := logged w |}.

(** The world with a new processor on [path]. *)
Definition with_processor (w : World) (path : string) : World :=
  {| files := files w; heap := heap w; self := init path; logged := logged w |}.

End Callers.

(** ** A reference instance of the pandas calls

    Used to run the pipeline on concrete tables.  [strptime] accepts
    exactly the nineteen characters [YYYY-MM-DD HH:MM:SS] of a real date
    and time; [parse_datetime] accepts that and a bare [YYYY-MM-DD]
    (midnight); [parse_number] accepts signed decimal literals. *)
Module Reference.

Definition digit (a : ascii) : option Z :=
  let n := Z.of_N (N_of_ascii a) in
  if (48 <=? n) && (n <=? 57) then Some (n - 48) else None.

Fixpoint number_from (acc : Z) (l : list ascii) : option Z :=
  match l with
  | [] => Some acc
  | a :: l' => match digit a with
               | Some v => number_from (acc * 10 + v) l'
               | None => None
               end
  end.

Definition number (l : list ascii) : option Z :=
  match l with [] => None | _ => number_from 0 l end.

Definition is_leap (y : Z) : bool :=
  ((y mod 4 =? 0) && negb (y mod 100 =? 0)) || (y mod 400 =? 0).

Definition days_in_month (y m : Z) : Z :=
  if m =? 2 then (if is_leap y then 29 else 28)
  else if (m =? 4) || (m =? 6) || (m =? 9) || (m =? 11) then 30 else 31.

(** Days from 1970-01-01 to the given civil date. *)
Definition days_from_civil (y m d : Z) : Z :=
  let y' := if m <=? 2 then y - 1 else y in
  let era := y' `div` 400 in
  let yoe := y' - era * 400 in
  let doy := (153 * (if 2 <? m then m - 3 else m + 9) + 2) `div` 5 + d - 1 in
  let doe := yoe * 365 + yoe `div` 4 - yoe `div` 100 + doy in
  era * 146097 + doe - 719468.

Definition civil (y m d hh mm ss : Z) : option Timestamp :=
  if (1 <=? m) && (m <=? 12) && (1 <=? d) && (d <=? days_in_month y m)
     && (hh <=? 23) && (mm <=? 59) && (ss <=? 59)
  then
    let t := ((days_from_civil y m d * 86400 + hh * 3600 + mm * 60 + ss)
              * 1000000000) in
    if (- 2 ^ 63 <? t) && (t <? 2 ^ 63) then Some t else None
  else None.

Definition parse_date_chars (l : list ascii) : option (Z * Z * Z) :=
  match l with
  | [y1; y2; y3; y4; "-"; m1; m2; "-"; d1; d2]%char =>
    y ← number [y1; y2; y3; y4];
    m ← number [m1; m2];
    d ← number [d1; d2];
    Some (y, m, d)
  | _ => None
  end.

Definition parse_time_chars (l : list ascii) : option (Z * Z * Z) :=
  match l with
  | [h1; h2; ":"; m1; m2; ":"; s1; s2]%char =>
    hh ← number [h1; h2];
    mm ← number [m1; m2];
    ss ← number [s1; s2];
    Some (hh, mm, ss)
  | _ => None
  end.

Definition ref_strptime (s : string) : option Timestamp :=
  let l := list_ascii_of_string s in
  match drop 10 l with
  | " "%char :: tm =>
    '(y, m, d) ← parse_date_chars (take 10 l);
    '(hh, mm, ss) ← parse_time_chars tm;
    civil y m d hh mm ss
  | _ => None
  end.

Definition ref_parse_datetime (s : string) : option Timestamp :=
  let l := list_ascii_of_string (strip s) in
  match drop 10 l with
  | [] => '(y, m, d) ← parse_date_chars l; civil y m d 0 0 0
  | _ => ref_strptime (strip s)
  end.

Fixpoint split_dot (l : list ascii) : list ascii * option (list ascii) :=
  match l with
  | [] => ([], None)
  | "."%char :: l' => ([], Some l')
  | a :: l' => let '(i, f) := split_dot l' in (a :: i, f)
  end.

Definition parse_unsigned (l : list ascii) : option Q :=
  match split_dot l with
  | (i, None) => n ← number i; Some (inject_Z n)
  | (i, Some f) =>
    n ← number i;
    k ← number f;
    Some (Qred ((n * 10 ^ Z.of_nat (length f) + k)
                # Pos.pow 10 (Pos.of_nat (length f))))
  end.

Definition ref_parse_number (s : string) : option Q :=
  match list_ascii_of_string (strip s) with
  | "-"%char :: l => Qopp <$> parse_unsigned l
  | "+"%char :: l => parse_unsigned l
  | l => parse_unsigned l
  end.

(** Decimal digits of the fraction [r / d], at most [fuel] of them. *)
Fixpoint fraction_digits (fuel : nat) (r d : Z) : string :=
  match fuel with
  | O => ""
  | S fuel' =>
    if r =? 0 then ""
    else pretty (r * 10 `div` d) +:+ fraction_digits fuel' (r * 10 `mod` d) d
  end.

Definition ref_repr_number (q : Q) : string :=
  let n := Qnum q in
  let d := Z.pos (Qden q) in
  let a := Z.abs n in
  (if n <? 0 then "-" else "") +:+ pretty (a `div` d) +:+
  (if a `mod` d =? 0 then "" else "." +:+ fraction_digits 17 (a `mod` d) d).

Definition ref_sort_by {A} (leb : A → A → bool) (l : list A) : list A :=
  merge_sort (λ x y, leb x y = true) (H := λ x y, decide (leb x y = true)) l.

#[global] Instance pandas : Pandas := {|
  strptime := ref_strptime;
  parse_datetime := ref_parse_datetime;
  parse_number := ref_parse_number;
  repr_number := ref_repr_number;
  sort_by := @ref_sort_by
|}.

End Reference.

(** ** Sample tables *)

Definition record (ts tk ac q p tr : cell) : Row :=
  <["timestamp" := ts]> (<["ticker" := tk]> (<["action" := ac]>
  (<["quantity" := q]> (<["price" := p]> (<["trader_id" := tr]> ∅))))).

(** A file with valid and invalid rows. *)
Definition sample_raw : DataFrame :=
  {| columns := REQUIRED_COLS;
     rows :=
       [(0%nat, record (Str "2024-01-01 11:00:00") (Str "AAPL") (Str "SELL")
                       (Num 4) (Num 110) (Str "T1"));
        (1%nat, record (Str "2024-01-01 10:00:00") (Str " aapl ") (Str " buy ")
                       (Num 10) (Num 100) (Str " t1 "));
        (2%nat, record (Str "2024-02-01 10:00:00") (Str "MSFT") (Str "SELL")
                       (Num 5) (Num 200) (Str "T2"));
        (3%nat, record (Str "bad_time") (Str "AAPL") (Str "BUY")
                       (Num 10) (Num 100) (Str "T1"));
        (4%nat, record (Str "2024-01-01 10:00:00") (Str "AAPL") (Str "HOLD")
                       (Num 10) (Num 100) (Str "T1"));
        (5%nat, record (Str "2024-01-01 11:00:00") (Str "GOOG") (Str "BUY")
                       (Num 0) (Num 200) (Str "T2"))] |}.

(** A file whose rows are all invalid. *)
Definition rejected_raw : DataFrame :=
  {| columns := REQUIRED_COLS;
     rows :=
       [(0%nat, record (Str "bad_time") (Str "AAPL") (Str "BUY")
                       (Num 10) (Num 100) (Str "T1"));
        (1%nat, record (Str "2024-01-01 10:00:00") (Str "AAPL") (Str "HOLD")
                       (Num 10) (Num 100) (Str "T1"));
        (2%nat, record (Str "2024-01-01 11:00:00") (Str "MSFT") (Str "SELL")
                       (Num 0) (Num 200) (Str "T2"))] |}.

(** A file with a ticker of two spaces. *)
Definition blank_raw : DataFrame :=
  {| columns := REQUIRED_COLS;
     rows :=
       [(0%nat, record (Str "2024-01-01 10:00:00") (Str "  ") (Str "BUY")
                       (Num 10) (Num 100) (Str "T1"))] |}.

(** A file with two of the six columns. *)
Definition short_raw : DataFrame :=
  {| columns := ["timestamp"; "ticker"];
     rows := [(0%nat, <["timestamp" := Str "2024-01-01"]>
                      (<["ticker" := Str "AAPL"]> ∅))] |}.

(** A new processor on a file that holds [d]. *)
Definition fresh (d : DataFrame) : World :=
  {| files := {["data/sample_transactions.csv" := d]};
     heap := [];
     self := init "data/sample_transactions.csv";
     logged := [] |}.

(** The same after [load_data], and after [load_data] and [clean_data]. *)
Definition after_loading (d : DataFrame) : World := (load_data (fresh d)).2.

Definition after_cleaning (d : DataFrame) : World :=
  (clean_data (H := Reference.pandas) (after_loading d)).2.

(** The analytics of an empty table. *)
Definition empty_analytics : Analytics :=
  {| total_transactions := 0;
     total_volume := 0;
     unique_tickers := 0;
     unique_traders := 0;
     date_range := (NaN, NaN);
     volume_by_ticker := [];
     net_position := [];
     trader_activity := [];
     daily_volume := [];
     action_counts := [] |}.

(** ** A reference instance of the formatting

    Used to run [get_summary_stats] on concrete tables: amounts rounded
    half to even to two decimals with thousands separators, timestamps as
    [YYYY-MM-DD HH:MM:SS]. *)
Module ReferenceFormatting.

(** Commas between groups of three digits, from the right. *)
Fixpoint group3 (n : nat) (rev_digits : list ascii) : list ascii :=
  match rev_digits with
  | [] => []
  | a :: l =>
    match n with
    | O => ","%char :: a :: group3 2 l
    | S n' => a :: group3 n' l
    end
  end.

Definition with_commas (z : Z) : string :=
  string_of_list_ascii (rev (group3 3 (rev (list_ascii_of_string (pretty z))))).

Definition pad (width : nat) (z : Z) : string :=
  let s := pretty z in
  string_of_list_ascii (replicate (width - String.length s) "0"%char) +:+ s.

(** The nearest integer, ties to the even one. *)
Definition round_half_even (q : Q) : Z :=
  let d := Z.pos (Qden q) in
  let fl := Qnum q `div` d in
  let r := 2 * (Qnum q `mod` d) in
  if r <? d then fl
  else if d <? r then fl + 1
  else if Z.even fl then fl else fl + 1.

Definition ref_format_money (q : Q) : string :=
  let cents := round_half_even (q * 100) in
  let a := Z.abs cents in
  (if cents <? 0 then "-" else "") +:+ with_commas (a `div` 100)
  +:+ "." +:+ pad 2 (a `mod` 100).

(** The civil date of a day number. *)
Definition civil_of_days (z : Z) : Z * Z * Z :=
  let z := z + 719468 in
  let era := z `div` 146097 in
  let doe := z - era * 146097 in
  let yoe := (doe - doe `div` 1460 + doe `div` 36524 - doe `div` 146096) `div` 365 in
  let doy := doe - (365 * yoe + yoe `div` 4 - yoe `div` 100) in
  let mp := (5 * doy + 2) `div` 153 in
  let d := doy - (153 * mp + 2) `div` 5 + 1 in
  let m := if mp <? 10 then mp + 3 else mp - 9 in
  ((yoe + era * 400) + (if m <=? 2 then 1 else 0), m, d).

Definition str_date (z : Z) : string :=
  let '(y, m, d) := civil_of_days z in
  pad 4 y +:+ "-" +:+ pad 2 m +:+ "-" +:+ pad 2 d.

Definition str_timestamp (t : Timestamp) : string :=
  let s := t `div` 1000000000 in
  let ns := t `mod` 1000000000 in
  let sod := s `mod` 86400 in
  str_date (s `div` 86400) +:+ " " +:+ pad 2 (sod `div` 3600) +:+ ":"
  +:+ pad 2 ((sod `mod` 3600) `div` 60) +:+ ":" +:+ pad 2 (sod `mod` 60)
  +:+ (if ns =? 0 then ""
       else if ns `mod` 1000 =? 0 then "." +:+ pad 6 (ns `div` 1000)
       else "." +:+ pad 9 ns).

Definition ref_str_value (c : cell) : string :=
  match c with
  | NaN => "NaT"
  | Str s => s
  | Num q => Reference.ref_repr_number q
  | Datetime t => str_timestamp t
  | Date d => str_date d
  end.

#[global] Instance formatting : Formatting := {|
  format_money := ref_format_money;
  str_value := ref_str_value
|}.

End ReferenceFormatting.

(** ** Further sample tables *)

(** The sample after [calculate_analytics]. *)
Definition after_analytics (d : DataFrame) : World :=
  (calculate_analytics (H := Reference.pandas) (after_cleaning d)).2.

(** The analytics stored then. *)
Definition stored_analytics : Analytics :=
  default empty_analytics (analytics (self (after_analytics sample_raw))).

(** The sample loaded, and its file gone since. *)
Definition file_removed : World :=
  {| files := ∅;
     heap := heap (after_loading sample_raw);
     self := self (after_loading sample_raw);
     logged := logged (after_loading sample_raw) |}.

(** A world with no file, and a processor that has loaded nothing. *)
Definition no_file : World :=
  {| files := ∅; heap := [];
     self := init "data/sample_transactions.csv"; logged := [] |}.

(** A valid row whose ticker and trader are missing, with a column of its
    own, and the file that holds it. *)
Definition unnamed_row : Row :=
  <["note" := Str "as filed"]>
    (record (Str "2024-01-01 10:00:00") NaN (Str "buy")
            (Str "10") (Str "2.5") NaN).

Definition unnamed_raw : DataFrame :=
  {| columns := REQUIRED_COLS ++ ["note"]; rows := [(0%nat, unnamed_row)] |}.

(** The second row of the sample. *)
Definition sample_row : Row :=
  record (Str "2024-01-01 10:00:00") (Str " aapl ") (Str " buy ")
         (Num 10) (Num 100) (Str " t1 ").

(** * Proofs *)

(** ** The reference instance sorts *)

Lemma ref_sort_by_perm {A} (leb : A → A → bool) l : Reference.ref_sort_by leb l ≡ₚ l.
Proof. apply merge_sort_Permutation. Qed.

Lemma ref_sort_by_sorted {A} (leb : A → A → bool) l :
  (∀ x y, leb x y = true ∨ leb y x = true) →
  (∀ x y z, leb x y = true → leb y z = true → leb x z = true) →
  StronglySorted (λ x y, leb x y = true) (Reference.ref_sort_by leb l).
Proof.
  intros Htot Htrans. apply StronglySorted_merge_sort.
  - intros x y z. apply Htrans.
  - intros x y. apply Htot.
Qed.

#[export] Instance reference_laws : PandasLaws (H := Reference.pandas).
Proof.
  split; intros.
  - apply ref_sort_by_perm.
  - by apply ref_sort_by_sorted.
Qed.

(** ** Text *)

Lemma dropwhile_idemp {A} (p : A → bool) l :
  dropwhile p (dropwhile p l) = dropwhile p l.
Proof.
  induction l as [|a l IH]; simpl; [done|].
  destruct (p a) eqn:Hp; [done|]. simpl. by rewrite Hp.
Qed.

Lemma dropwhile_snoc_keep {A} (p : A → bool) l x :
  p x = false → dropwhile p (l ++ [x]) = dropwhile p l ++ [x].
Proof.
  intros Hx. induction l as [|a l IH]; simpl; [by rewrite Hx|].
  by destruct (p a).
Qed.

Lemma dropwhile_map {A} (p : A → bool) (f : A → A) l :
  (∀ a, p (f a) = p a) → dropwhile p (map f l) = map f (dropwhile p l).
Proof.
  intros Hp. induction l as [|a l IH]; simpl; [done|].
  rewrite Hp. by destruct (p a).
Qed.

Lemma dropwhile_head {A} (p : A → bool) l :
  match dropwhile p l with [] => True | a :: _ => p a = false end.
Proof.
  induction l as [|a l IH]; simpl; [done|].
  destruct (p a) eqn:Hp; [done|]. by simpl.
Qed.

Lemma strip_chars_idemp l : strip_chars (strip_chars l) = strip_chars l.
Proof.
  unfold strip_chars.
  pose proof (dropwhile_head isspace l) as Hhead.
  destruct (dropwhile isspace l) as [|a m] eqn:Hm; [done|].
  change (rev (a :: m)) with (rev m ++ [a]).
  rewrite (dropwhile_snoc_keep _ _ _ Hhead).
  rewrite rev_app_distr. cbn [rev app dropwhile]. rewrite Hhead.
  cbn [rev]. rewrite rev_involutive.
  rewrite (dropwhile_snoc_keep _ _ _ Hhead), dropwhile_idemp.
  by rewrite rev_app_distr.
Qed.

Lemma strip_idemp s : strip (strip s) = strip s.
Proof.
  unfold strip. by rewrite list_ascii_of_string_of_list_ascii, strip_chars_idemp.
Qed.

Lemma isspace_upper_char a : isspace (upper_char a) = isspace a.
Proof. by destruct a as [[] [] [] [] [] [] [] []]. Qed.

Lemma upper_char_idemp a : upper_char (upper_char a) = upper_char a.
Proof. by destruct a as [[] [] [] [] [] [] [] []]. Qed.

Lemma upper_idemp s : upper (upper s) = upper s.
Proof.
  unfold upper. rewrite list_ascii_of_string_of_list_ascii, map_map.
  f_equal. apply map_ext. intros a. apply upper_char_idemp.
Qed.

Lemma strip_upper s : strip (upper s) = upper (strip s).
Proof.
  unfold strip, upper, strip_chars.
  rewrite !list_ascii_of_string_of_list_ascii. f_equal.
  rewrite (dropwhile_map _ _ _ isspace_upper_char), <- map_rev.
  rewrite (dropwhile_map _ _ _ isspace_upper_char). by rewrite map_rev.
Qed.

(** A standardized text is trimmed and upper-cased. *)
Lemma upper_strip_trimmed s : strip (upper (strip s)) = upper (strip s).
Proof. by rewrite strip_upper, strip_idemp. Qed.

(** ** Columns and masks computed from the rows of the frame itself *)

Section Lists.
Context {A B C : Type}.

Lemma zip_with_map_same (f : A → B → C) (g : A → B) (l : list A) :
  zip_with f l (map g l) = map (λ x, f x (g x)) l.
Proof. induction l; simpl; by f_equal. Qed.

Lemma zip_with_map_map {D} (f : B → C → D) (g : A → B) (h : A → C) (l : list A) :
  zip_with f (map g l) (map h l) = map (λ x, f (g x) (h x)) l.
Proof. induction l; simpl; by f_equal. Qed.

Lemma filter_by_mask (p : A → bool) (l : list A) :
  map fst (List.filter snd (zip l (map p l))) = List.filter p l.
Proof.
  induction l as [|a l IH]; simpl; [done|].
  destruct (p a); simpl; by f_equal.
Qed.

Lemma filter_all (p : A → bool) (l : list A) :
  length (List.filter (λ x, negb (p x)) l) = 0%nat → List.filter p l = l.
Proof.
  induction l as [|a l IH]; simpl; [done|].
  destruct (p a); simpl; [|done]. intros. f_equal. by apply IH.
Qed.

Lemma filter_length_split (p : A → bool) (l : list A) :
  (length (List.filter p l)
   + length (List.filter (λ x, negb (p x)) l))%nat = length l.
Proof.
  induction l as [|a l IH]; simpl; [done|].
  destruct (p a); simpl; lia.
Qed.

End Lists.

Lemma mask_sum_not_map {A} (p : A → bool) (l : list A) :
  mask_sum (mask_not (map p l)) = length (List.filter (λ x, negb (p x)) l).
Proof.
  unfold mask_sum, mask_not. rewrite map_map.
  induction l as [|a l IH]; simpl; [done|].
  destruct (p a); simpl; by rewrite IH.
Qed.

Lemma mask_sum_map {A} (p : A → bool) (l : list A) :
  mask_sum (map p l) = length (List.filter p l).
Proof.
  unfold mask_sum.
  induction l as [|a l IH]; simpl; [done|].
  destruct (p a); simpl; by rewrite IH.
Qed.

Lemma elem_of_add_col c c' cols : c ∈ cols → c ∈ add_col c' cols.
Proof.
  unfold add_col. case_bool_decide; [done|]. intros. apply elem_of_app. by left.
Qed.

Lemma elem_of_add_col_same c cols : c ∈ add_col c cols.
Proof.
  unfold add_col. case_bool_decide; [done|]. apply elem_of_app. right.
  by apply list_elem_of_singleton.
Qed.

Lemma add_col_present c cols : c ∈ cols → add_col c cols = cols.
Proof. unfold add_col. intros. by rewrite bool_decide_true. Qed.

Lemma getitem_present c d :
  c ∈ columns d → getitem c d = Ok (map (λ ir, cell_at c ir.2) (rows d)).
Proof. unfold getitem. intros. by rewrite bool_decide_true. Qed.

Lemma getitem_absent c d : c ∉ columns d → getitem c d = Raise (KeyError c).
Proof. unfold getitem. intros. by rewrite bool_decide_false. Qed.

(** [df[c] = f(df[c'])] changes every row by [set_col]. *)
Lemma setitem_map c (f : Row → cell) d :
  setitem c (map (λ ir, f ir.2) (rows d)) d
  = {| columns := add_col c (columns d);
       rows := map (on_row (set_col c f)) (rows d) |}.
Proof. unfold setitem. by rewrite zip_with_map_same. Qed.

Lemma boolean_index_map (p : nat * Row → bool) d :
  boolean_index (map p (rows d)) d
  = {| columns := columns d; rows := List.filter p (rows d) |}.
Proof. unfold boolean_index. by rewrite filter_by_mask. Qed.

Lemma wp_ret {A} (a : A) w Q E : Q a w → wp (mret a) w Q E.
Proof. done. Qed.

Lemma wp_raise {A} e w (Q : A → World → Prop) E : E e w → wp (raise e) w Q E.
Proof. done. Qed.

Lemma wp_bind {A B} (m : M A) (f : A → M B) w Q E :
  wp m w (λ a w', wp (f a) w' Q E) E → wp (m ≫= f) w Q E.
Proof.
  unfold wp, mbind, M_bind. by destruct (m w) as [[a|e] w'].
Qed.

Lemma wp_mono {A} (m : M A) w (Q Q' : A → World → Prop) (E E' : exn → World → Prop) :
  wp m w Q E → (∀ a w', Q a w' → Q' a w') → (∀ e w', E e w' → E' e w') →
  wp m w Q' E'.
Proof.
  unfold wp. destruct (m w) as [[a|e] w']; auto.
Qed.

Lemma wp_run {A} (m : M A) w Q E :
  wp m w Q E →
  (∃ a w', m w = (Ok a, w') ∧ Q a w') ∨ (∃ e w', m w = (Raise e, w') ∧ E e w').
Proof.
  unfold wp. destruct (m w) as [[a|e] w']; eauto.
Qed.

Lemma top_lookup w0 me lg l d w : top w0 me lg l d w → heap w !! l = Some d.
Proof. intros (hh & -> & -> & _). apply list_lookup_middle. done. Qed.

Lemma top_prefix w0 me lg l d w : top w0 me lg l d w → heap w0 `prefix_of` heap w.
Proof.
  intros (hh & -> & _ & Hp & _). etrans; [done|]. by apply prefix_app_r.
Qed.

Section Logic.
Context {A : Type} (w0 : World) (me : TransactionProcessor).
Implicit Types (Q : A → World → Prop) (E : exn → World → Prop).

Lemma wp_df_len lg l d w (Q : nat → World → Prop) E :
  top w0 me lg l d w → Q (len d) w → wp (df_len l) w Q E.
Proof.
  intros Ht HQ. unfold wp, df_len, mbind, M_bind, deref. simpl.
  by rewrite (top_lookup _ _ _ _ _ _ Ht).
Qed.

Lemma wp_df_getitem lg l d w c (Q : Series → World → Prop) E :
  top w0 me lg l d w →
  (c ∈ columns d → Q (map (λ ir, cell_at c ir.2) (rows d)) w) →
  (c ∉ columns d → E (KeyError c) w) →
  wp (df_getitem l c) w Q E.
Proof.
  intros Ht HQ HE. unfold wp, df_getitem, mbind, M_bind, deref, lift. simpl.
  rewrite (top_lookup _ _ _ _ _ _ Ht). simpl.
  destruct (decide (c ∈ columns d)) as [Hc|Hc].
  - rewrite (getitem_present _ _ Hc). auto.
  - rewrite (getitem_absent _ _ Hc). auto.
Qed.

Lemma wp_df_setitem lg l d w c s (Q : unit → World → Prop) E :
  top w0 me lg l d w →
  (∀ w', top w0 me lg l (setitem c s d) w' → Q tt w') →
  wp (df_setitem l c s) w Q E.
Proof.
  intros (hh & Hh & -> & Hp & Hf & Hs & Hl) HQ.
  unfold wp, df_setitem, mutate. apply HQ. exists hh. simpl.
  split_and!; try done. rewrite Hh.
  rewrite alter_app_r_alt by done. by rewrite Nat.sub_diag.
Qed.

(** A call that builds a new frame from the current one. *)
Lemma wp_new (f : DataFrame → DataFrame) lg l d w (Q : loc → World → Prop) E :
  top w0 me lg l d w →
  (∀ l' w', top w0 me lg l' (f d) w' → Q l' w') →
  wp (d ← deref l; alloc (f d)) w Q E.
Proof.
  intros Ht HQ. pose proof (top_lookup _ _ _ _ _ _ Ht) as Hl.
  destruct Ht as (hh & Hh & -> & Hp & Hf & Hs & Hlg).
  unfold wp, mbind, M_bind, deref, alloc. simpl. rewrite Hl. simpl.
  apply HQ. exists (heap w). simpl. split_and!; try done.
  rewrite Hh. etrans; [done|]. by apply prefix_app_r.
Qed.

Lemma wp_new_result (f : DataFrame → result DataFrame) d' lg l d w
    (Q : loc → World → Prop) E :
  top w0 me lg l d w →
  f d = Ok d' →
  (∀ l' w', top w0 me lg l' d' w' → Q l' w') →
  wp (d ← deref l; d' ← lift (f d); alloc d') w Q E.
Proof.
  intros Ht Hf' HQ. pose proof (top_lookup _ _ _ _ _ _ Ht) as Hl.
  destruct Ht as (hh & Hh & -> & Hp & Hf & Hs & Hlg).
  unfold wp, mbind, M_bind, deref, alloc, lift. simpl. rewrite Hl. simpl.
  rewrite Hf'.
  apply HQ. exists (heap w). simpl. split_and!; try done.
  rewrite Hh. etrans; [done|]. by apply prefix_app_r.
Qed.

Lemma wp_emit lg l d w lv t (Q : unit → World → Prop) E :
  top w0 me lg l d w →
  (∀ w', top w0 me (lg ++ [(lv, t)]) l d w' → Q tt w') →
  wp (emit lv t) w Q E.
Proof.
  intros (hh & Hh & -> & Hp & Hf & Hs & Hl) HQ.
  unfold wp, emit. apply HQ. exists hh. simpl.
  split_and!; try done. by rewrite Hl, app_assoc.
Qed.

End Logic.

(** ** What [clean_data] does, in the program logic *)

Section Theory.
Context `{Pandas} `{!PandasLaws}.

Lemma wp_get_self w (Q : TransactionProcessor → World → Prop) E :
  Q (self w) w → wp get_self w Q E.
Proof. done. Qed.

Lemma wp_df_copy_start w l (Q : loc → World → Prop) E :
  (∀ l' w', top w (self w) [] l' (frame_at w l) w' → Q l' w') →
  wp (df_copy l) w Q E.
Proof.
  intros HQ. unfold wp, df_copy, mbind, M_bind, deref, alloc. simpl.
  apply HQ. exists (heap w). simpl. split_and!; try done.
  by rewrite app_nil_r.
Qed.

Lemma setitem_getitem c c' (g : cell → cell) cols rs :
  setitem c (map g (map (λ ir, cell_at c' ir.2) rs))
          {| columns := cols; rows := rs |}
  = {| columns := add_col c cols;
       rows := map (on_row (set_col c (g ∘ cell_at c'))) rs |}.
Proof.
  rewrite map_map.
  apply (setitem_map c (g ∘ cell_at c') {| columns := cols; rows := rs |}).
Qed.

Lemma setitem_map_lit c (f : Row → cell) cols rs :
  setitem c (map (λ ir, f ir.2) rs) {| columns := cols; rows := rs |}
  = {| columns := add_col c cols; rows := map (on_row (set_col c f)) rs |}.
Proof. apply (setitem_map c f {| columns := cols; rows := rs |}). Qed.

Lemma frame_eta d : d = {| columns := columns d; rows := rows d |}.
Proof. by destruct d. Qed.

Lemma warn_app n t lg (x := (WARNING, t n)) :
  (0 <? n)%nat = true → lg ++ [x] = lg ++ warn n t.
Proof. intros Hn. unfold warn. by rewrite Hn. Qed.

Lemma wp_when_warn w0 me lg l d w n t (Q : unit → World → Prop) E :
  top w0 me lg l d w →
  (∀ w', top w0 me (lg ++ warn n t) l d w' → Q tt w') →
  wp (when (0 <? n)%nat (emit WARNING (t n))) w Q E.
Proof.
  intros Ht HQ. unfold when, warn in *. destruct (0 <? n)%nat.
  - eapply wp_emit; [exact Ht|]. done.
  - apply wp_ret. apply HQ. by rewrite app_nil_r.
Qed.

Lemma wp_filter_if w0 me lg l d w n t mask (p : nat * Row → bool)
    (Q : loc → World → Prop) E :
  top w0 me lg l d w →
  mask = map p (rows d) →
  n = length (List.filter (λ x, negb (p x)) (rows d)) →
  (∀ l' w', top w0 me (lg ++ warn n t) l'
                {| columns := columns d; rows := List.filter p (rows d) |} w' →
            Q l' w') →
  wp (if (0 <? n)%nat
      then emit WARNING (t n);; df_boolean_index l mask
      else mret l) w Q E.
Proof.
  intros Ht -> Hn HQ. unfold warn in HQ. destruct (0 <? n)%nat eqn:Hpos.
  - apply wp_bind. eapply wp_emit; [exact Ht|]. intros w1 H1.
    eapply (wp_new _ _ (boolean_index (map p (rows d)))); [exact H1|].
    intros l' w'. rewrite boolean_index_map. apply HQ.
  - apply wp_ret. apply HQ. rewrite app_nil_r.
    apply Nat.ltb_ge in Hpos. rewrite filter_all by lia.
    by destruct d.
Qed.

Lemma wp_set_self w0 me lg l d w f (Q : unit → World → Prop) E :
  top w0 me lg l d w →
  (∀ w', top w0 (f me) lg l d w' → Q tt w') →
  wp (set_self f) w Q E.
Proof.
  intros (hh & Hh & -> & Hp & Hf & Hs & Hl) HQ.
  unfold wp, set_self. apply HQ. exists hh. simpl.
  split_and!; try done. by rewrite Hs.
Qed.

Lemma dropna_present subset d :
  (∀ c, c ∈ subset → c ∈ columns d) →
  dropna subset d
  = Ok {| columns := columns d;
          rows := List.filter
                    (λ ir, forallb (λ c, negb (isna (cell_at c ir.2))) subset)
                    (rows d) |}.
Proof.
  intros Hc. unfold dropna.
  replace (List.filter (λ c, negb (bool_decide (c ∈ columns d))) subset)
    with (@nil string); [done|].
  symmetry. induction subset as [|c s IH]; simpl; [done|].
  rewrite bool_decide_true by (apply Hc; left). simpl.
  apply IH. intros c' Hc'. apply Hc. by right.
Qed.

Lemma sort_values_present c d :
  c ∈ columns d →
  sort_values c d
  = Ok {| columns := columns d;
          rows := sort_by (λ x y, cell_leb (cell_at c x.2) (cell_at c y.2))
                          (rows d) |}.
Proof. intros Hc. unfold sort_values. by rewrite bool_decide_true. Qed.

Lemma top_exc w l d c l' w' :
  df (self w) = Some l →
  top w (self w) [] l' d w' →
  c ∈ REQUIRED_COLS → c ∉ columns (frame_at w l) →
  clean_exc w (KeyError c) w'.
Proof.
  intros Hdf Ht Hc Hn. pose proof (top_prefix _ _ _ _ _ _ Ht) as Hp.
  destruct Ht as (hh & Hh & -> & _ & Hf & Hs & Hl).
  unfold clean_exc. rewrite Hdf. rewrite app_nil_r in Hl. split_and!; try done.
  by exists c.
Qed.


(** One column assignment [df[c] = f(df[c])] of a required column. *)
Ltac assign_step H1 Hc :=
  apply wp_bind; eapply wp_df_getitem; [exact H1| |];
  [ intros Hc; cbn [columns] in Hc
  | let Hn := fresh in
    intros Hn; cbn [columns] in Hn; eapply top_exc; eauto;
    unfold REQUIRED_COLS; repeat constructor ];
  apply wp_bind; eapply wp_df_setitem; [exact H1|];
  let w' := fresh "w" in
  intros w'; clear H1; intros H1; cbn [rows columns] in H1;
  rewrite setitem_getitem, add_col_present in H1 by done;
  cbn [rows columns] in H1.

Lemma required_cols_all (cols : list string) :
  "timestamp" ∈ cols → "ticker" ∈ cols → "action" ∈ cols →
  "quantity" ∈ cols → "price" ∈ cols → "trader_id" ∈ cols →
  ∀ c, c ∈ REQUIRED_COLS → c ∈ cols.
Proof.
  intros ?????? c Hc. unfold REQUIRED_COLS in Hc.
  repeat (apply elem_of_cons in Hc as [->|Hc]; [done|]).
  by apply elem_of_nil in Hc.
Qed.

Lemma length_standardized raw : length (standardized raw) = length (rows raw).
Proof. unfold standardized. by rewrite length_map. Qed.

Lemma sorted_frame_perm raw : rows (sorted_frame raw) ≡ₚ rows (derived raw).
Proof. apply sort_by_perm. Qed.

Lemma rows_cleaned raw :
  rows (cleaned raw)
  = zip (seq 0 (length (kept raw))) (map snd (rows (sorted_frame raw))).
Proof.
  unfold cleaned, reset_index. cbn [rows]. do 2 f_equal.
  rewrite (Permutation_length (sorted_frame_perm raw)).
  cbn [derived rows]. by rewrite length_map.
Qed.

Lemma len_cleaned raw : len (cleaned raw) = length (kept raw).
Proof.
  unfold len. rewrite rows_cleaned, length_zip, length_seq, length_map.
  rewrite (Permutation_length (sorted_frame_perm raw)).
  cbn [derived rows]. rewrite length_map. lia.
Qed.

Lemma clean_data_spec w : wp clean_data w (clean_post w) (clean_exc w).
Proof.
  unfold clean_data. apply wp_bind, wp_get_self.
  destruct (df (self w)) as [l|] eqn:Hdf.
  2: { apply wp_raise. unfold clean_exc. by rewrite Hdf. }
  set (raw := frame_at w l).
  apply wp_bind, wp_df_copy_start. intros d w1 H1. fold raw in H1.
  rewrite (frame_eta raw) in H1.
  assign_step H1 Hc1. assign_step H1 Hc2. assign_step H1 Hc3.
  assign_step H1 Hc4. assign_step H1 Hc5. assign_step H1 Hc6.
  pose proof (required_cols_all _ Hc1 Hc2 Hc3 Hc5 Hc6 Hc4) as Hreq.
  rewrite !map_map in H1.
  change (map _ (rows raw)) with (standardized raw) in H1.
  (* dropna *)
  apply wp_bind. eapply wp_df_len; [exact H1|]. cbn [len rows].
  apply wp_bind. eapply wp_new_result; [exact H1| |].
  { apply dropna_present. cbn [columns]. apply Forall_forall.
    repeat (apply Forall_cons; split;
            [apply Hreq; unfold REQUIRED_COLS; repeat constructor|]).
    apply Forall_nil_2. }
  clear H1. intros d1 ? H1. cbn [rows columns] in H1.
  change (List.filter _ (standardized raw)) with (present raw) in H1.
  apply wp_bind. eapply wp_df_len; [exact H1|]. cbn [len rows].
  apply wp_bind. eapply wp_when_warn; [exact H1|].
  clear H1. intros ? H1. rewrite app_nil_l in H1. unfold len in H1. cbn [rows] in H1.
  rewrite length_standardized in H1.
  change (length (rows raw) - length (present raw))%nat
    with (dropped_missing raw) in H1.
  (* actions *)
  apply wp_bind. eapply wp_df_getitem; [exact H1| |].
  2: { intros []. cbn [columns]. apply Hreq. unfold REQUIRED_COLS.
       repeat constructor. }
  intros _. cbn [rows]. apply wp_bind. rewrite !map_map.
  eapply (wp_filter_if _ _ _ _ _ _ _ _ _ (λ ir, valid_action ir.2));
    [exact H1|done|by rewrite mask_sum_not_map|].
  clear H1. intros d2 ? H1. cbn [rows columns] in H1.
  change (List.filter (λ ir : nat * Row, valid_action ir.2) (present raw))
    with (actionable raw) in H1.
  rewrite mask_sum_not_map in H1.
  change (length (List.filter _ (present raw)))
    with (invalid_actions raw) in H1.
  (* quantity and price *)
  apply wp_bind. eapply wp_df_getitem; [exact H1| |].
  2: { intros []. cbn [columns]. apply Hreq. unfold REQUIRED_COLS.
       repeat constructor. }
  intros _. cbn [rows].
  apply wp_bind. eapply wp_df_getitem; [exact H1| |].
  2: { intros []. cbn [columns]. apply Hreq. unfold REQUIRED_COLS.
       repeat constructor. }
  intros _. cbn [rows].
  apply wp_bind. unfold mask_or, mask_not. rewrite !map_map, zip_with_map_map.
  rewrite map_map.
  eapply (wp_filter_if _ _ _ _ _ _ _ _ _ (λ ir, negb (nonpositive ir.2)));
    [exact H1|done| |].
  { rewrite mask_sum_map. cbn [rows]. f_equal. apply filter_ext.
    intros ir. by rewrite negb_involutive. }
  clear H1. intros d3 ? H1. cbn [rows columns] in H1.
  change (List.filter (λ ir : nat * Row, negb (nonpositive ir.2)) (actionable raw))
    with (kept raw) in H1.
  rewrite mask_sum_map in H1.
  change (length (List.filter _ (actionable raw)))
    with (nonpositive_count raw) in H1.
  (* derived columns *)
  apply wp_bind. eapply wp_df_getitem; [exact H1| |].
  2: { intros []. cbn [columns]. apply Hreq. unfold REQUIRED_COLS.
       repeat constructor. }
  intros _. cbn [rows].
  apply wp_bind. eapply wp_df_getitem; [exact H1| |].
  2: { intros []. cbn [columns]. apply Hreq. unfold REQUIRED_COLS.
       repeat constructor. }
  intros _. cbn [rows].
  apply wp_bind. eapply wp_df_setitem; [exact H1|].
  clear H1. intros ? H1. rewrite zip_with_map_map in H1.
  rewrite (setitem_map_lit "total_value"
             (λ r, cell_mul (cell_at "quantity" r) (cell_at "price" r))) in H1.
  apply wp_bind. eapply wp_df_getitem; [exact H1| |].
  2: { intros []. cbn [columns]. apply elem_of_add_col, Hreq.
       unfold REQUIRED_COLS. repeat constructor. }
  intros _. cbn [rows].
  apply wp_bind. eapply wp_df_setitem; [exact H1|].
  clear H1. intros ? H1. rewrite setitem_getitem, map_map in H1.
  change {| columns := _; rows := _ |} with (derived raw) in H1.
  (* sort and renumber *)
  apply wp_bind. eapply wp_new_result; [exact H1| |].
  { apply sort_values_present. cbn [columns derived].
    apply elem_of_add_col, elem_of_add_col, Hreq.
    unfold REQUIRED_COLS. repeat constructor. }
  clear H1. intros d4 ? H1.
  change {| columns := _; rows := _ |} with (sorted_frame raw) in H1.
  apply wp_bind. eapply wp_new; [exact H1|].
  clear H1. intros d5 ? H1.
  change (reset_index (sorted_frame raw)) with (cleaned raw) in H1.
  apply wp_bind. eapply wp_set_self; [exact H1|].
  clear H1. intros ? H1.
  apply wp_bind. eapply wp_df_len; [exact H1|].
  apply wp_bind. eapply wp_emit; [exact H1|].
  clear H1. intros ? H1. apply wp_ret.
  destruct H1 as (hh & Hh & -> & Hp & Hf & Hs & Hl).
  exists l, hh. split_and!; try done.
  rewrite Hl. f_equal. unfold clean_log. rewrite <- !app_assoc.
  by rewrite len_cleaned.
Qed.



End Theory.

(** ** The cleaning steps on one row *)

Section Rows.
Context `{Pandas} `{!PandasLaws}.

Lemma cell_at_set_col c f r : cell_at c (set_col c f r) = f r.
Proof. unfold cell_at, set_col. by rewrite lookup_insert_eq. Qed.

Lemma cell_at_set_col_ne c c' f r :
  c' ≠ c → cell_at c (set_col c' f r) = cell_at c r.
Proof. intros. unfold cell_at, set_col. by rewrite lookup_insert_ne. Qed.

Ltac cell_at_simpl :=
  repeat first
    [ progress unfold compose
    | rewrite cell_at_set_col
    | rewrite cell_at_set_col_ne by discriminate ].

Lemma standardize_timestamp r :
  cell_at "timestamp" (standardize r)
  = to_datetime_format (cell_at "timestamp" r).
Proof. unfold standardize. by cell_at_simpl. Qed.

Lemma standardize_ticker r :
  cell_at "ticker" (standardize r)
  = str_upper (str_strip (astype_str (cell_at "ticker" r))).
Proof. unfold standardize. by cell_at_simpl. Qed.

Lemma standardize_action r :
  cell_at "action" (standardize r)
  = str_upper (str_strip (astype_str (cell_at "action" r))).
Proof. unfold standardize. by cell_at_simpl. Qed.

Lemma standardize_trader_id r :
  cell_at "trader_id" (standardize r)
  = str_upper (str_strip (astype_str (cell_at "trader_id" r))).
Proof. unfold standardize. by cell_at_simpl. Qed.

Lemma standardize_quantity r :
  cell_at "quantity" (standardize r) = to_numeric (cell_at "quantity" r).
Proof. unfold standardize. by cell_at_simpl. Qed.

Lemma standardize_price r :
  cell_at "price" (standardize r) = to_numeric (cell_at "price" r).
Proof. unfold standardize. by cell_at_simpl. Qed.

Lemma derive_other c r :
  c ≠ "total_value" → c ≠ "date" → cell_at c (derive r) = cell_at c r.
Proof.
  intros. unfold derive. by rewrite !cell_at_set_col_ne by done.
Qed.

Lemma derive_total_value r :
  cell_at "total_value" (derive r)
  = cell_mul (cell_at "quantity" r) (cell_at "price" r).
Proof. unfold derive. by cell_at_simpl. Qed.

Lemma derive_date r :
  cell_at "date" (derive r) = dt_date (cell_at "timestamp" r).
Proof. unfold derive. by cell_at_simpl. Qed.

Lemma normalized_text c : ∃ s, str_upper (str_strip (astype_str c)) = Str s.
Proof. destruct c; simpl; eauto. Qed.

Lemma to_datetime_format_cases c :
  to_datetime_format c = NaN ∨ ∃ t, to_datetime_format c = Datetime t.
Proof.
  destruct c; simpl; eauto. destruct (strptime s); eauto.
Qed.

Lemma to_numeric_cases c :
  to_numeric c = NaN ∨ ∃ q, to_numeric c = Num q.
Proof.
  destruct c; simpl; eauto. destruct (parse_number s); eauto.
Qed.

(** A row passes the tests exactly when it is valid in the words of the
    specification. *)
Lemma passes_valid r : passes r = true ↔ is_Some (valid_record r).
Proof.
  unfold passes, no_missing, valid_action, nonpositive, valid_record, compose.
  cbn [forallb].
  rewrite standardize_timestamp, standardize_ticker, standardize_action,
    standardize_quantity, standardize_price.
  destruct (normalized_text (cell_at "ticker" r)) as [tk ->].
  destruct (normalized_text (cell_at "action" r)) as [a ->].
  destruct (to_datetime_format_cases (cell_at "timestamp" r)) as [->|[t ->]];
    [split; [done|by intros []]|].
  destruct (to_numeric_cases (cell_at "quantity" r)) as [->|[q ->]];
    [split; [done|by intros []]|].
  destruct (to_numeric_cases (cell_at "price" r)) as [->|[p ->]];
    [simpl; split; [done|by intros []]|].
  simpl. destruct (bool_decide (a ∈ ["BUY"; "SELL"])); simpl;
    [|split; [done|by intros []]].
  destruct (Qle_bool q 0); simpl; [split; [done|by intros []]|].
  destruct (Qle_bool p 0); simpl; [split; [done|by intros []]|].
  split; eauto.
Qed.

Lemma passes_transaction r t q p :
  valid_record r = Some (t, q, p) →
  cell_at "timestamp" (transaction r) = Datetime t
  ∧ cell_at "quantity" (transaction r) = Num q
  ∧ cell_at "price" (transaction r) = Num p
  ∧ cell_at "total_value" (transaction r) = Num (q * p)
  ∧ cell_at "date" (transaction r) = Date (date_of t)
  ∧ (0 < q)%Q ∧ (0 < p)%Q
  ∧ (cell_at "action" (transaction r) = Str "BUY"
     ∨ cell_at "action" (transaction r) = Str "SELL")
  ∧ text_ok (cell_at "ticker" (transaction r))
  ∧ text_ok (cell_at "trader_id" (transaction r)).
Proof.
  unfold valid_record, transaction, compose. intros Hv.
  rewrite derive_total_value, derive_date, !derive_other by discriminate.
  rewrite standardize_timestamp, standardize_ticker, standardize_action,
    standardize_quantity, standardize_price, standardize_trader_id.
  destruct (to_datetime_format (cell_at "timestamp" r)); try done.
  destruct (str_upper (str_strip (astype_str (cell_at "action" r)))) as [|a| | |];
    try done.
  destruct (to_numeric (cell_at "quantity" r)); try done.
  destruct (to_numeric (cell_at "price" r)); try done.
  destruct (bool_decide (a ∈ ["BUY"; "SELL"])) eqn:Ha; [|done].
  destruct (Qle_bool q0 0) eqn:Hq; [done|].
  destruct (Qle_bool q1 0) eqn:Hp; [done|].
  simpl in Hv. injection Hv as -> -> ->. simpl.
  apply bool_decide_eq_true in Ha.
  split_and!; try done.
  - apply Qnot_le_lt. intros Hle. apply Qle_bool_iff in Hle. congruence.
  - apply Qnot_le_lt. intros Hle. apply Qle_bool_iff in Hle. congruence.
  - apply elem_of_cons in Ha as [->|Ha]; [by left|].
    apply elem_of_cons in Ha as [->|Ha]; [by right|]. by apply elem_of_nil in Ha.
  - destruct (cell_at "ticker" r); simpl; eexists; split; try done;
      split; try apply upper_strip_trimmed; apply upper_idemp.
  - destruct (cell_at "trader_id" r); simpl; eexists; split; try done;
      split; try apply upper_strip_trimmed; apply upper_idemp.
Qed.

End Rows.

(** ** The cleaned table *)

Lemma filter_map_comm {A B} (p : B → bool) (f : A → B) l :
  List.filter p (map f l) = map f (List.filter (λ x, p (f x)) l).
Proof.
  induction l as [|a l IH]; simpl; [done|].
  destruct (p (f a)); simpl; by rewrite IH.
Qed.

Lemma filter_filter_and {A} (p q : A → bool) l :
  List.filter p (List.filter q l) = List.filter (λ x, q x && p x) l.
Proof.
  induction l as [|a l IH]; simpl; [done|].
  destruct (q a); simpl; [|done]. destruct (p a); simpl; by rewrite IH.
Qed.

Lemma cell_leb_total a b : cell_leb a b = true ∨ cell_leb b a = true.
Proof.
  destruct a, b; simpl; try (by left); try (by right).
  - destruct (String.leb_total s s0); auto.
  - destruct (Qlt_le_dec q0 q) as [Hlt|Hle].
    + right. apply Qle_bool_iff. by apply Qlt_le_weak.
    + left. by apply Qle_bool_iff.
  - destruct (Z.le_ge_cases t t0); [left|right]; by apply Z.leb_le.
  - destruct (Z.le_ge_cases d d0); [left|right]; by apply Z.leb_le.
Qed.

Lemma cell_leb_trans a b c :
  cell_leb a b = true → cell_leb b c = true → cell_leb a c = true.
Proof.
  destruct a, b, c; simpl; try done.
  - intros H1 H2. apply Is_true_true. apply Is_true_true in H1, H2.
    by etrans.
  - rewrite !Qle_bool_iff. apply Qle_trans.
  - rewrite !Z.leb_le. lia.
  - rewrite !Z.leb_le. lia.
Qed.

Section Tables.
Context `{Pandas} `{!PandasLaws}.

Lemma kept_rows raw :
  kept raw
  = map (on_row standardize) (List.filter (λ ir, passes ir.2) (rows raw)).
Proof.
  unfold kept, actionable, present, standardized.
  rewrite !filter_filter_and, filter_map_comm. f_equal.
  apply filter_ext. intros ir. unfold passes. cbn [on_row snd].
  by rewrite andb_assoc.
Qed.

Lemma derived_rows raw :
  rows (derived raw)
  = map (on_row transaction) (List.filter (λ ir, passes ir.2) (rows raw)).
Proof. cbn [derived rows]. by rewrite kept_rows, map_map. Qed.

Lemma sorted_frame_rows raw :
  rows (sorted_frame raw)
  ≡ₚ map (on_row transaction) (List.filter (λ ir, passes ir.2) (rows raw)).
Proof. rewrite <- derived_rows. apply sorted_frame_perm. Qed.

Lemma sorted_frame_sorted raw :
  StronglySorted (λ a b, cell_leb a b = true) (timestamps (sorted_frame raw)).
Proof.
  unfold timestamps, sorted_frame. cbn [rows].
  eapply (StronglySorted_fmap (λ ir : nat * Row, cell_at "timestamp" ir.2));
    [|apply sort_by_sorted]; [done|..].
  - intros x y. apply cell_leb_total.
  - intros x y z. apply cell_leb_trans.
Qed.

Lemma snd_rows_cleaned raw :
  map snd (rows (cleaned raw)) = map snd (rows (sorted_frame raw)).
Proof.
  unfold cleaned, reset_index. cbn [rows].
  apply snd_zip. by rewrite length_seq, length_map.
Qed.

Lemma index_cleaned raw : index (cleaned raw) = seq 0 (len (cleaned raw)).
Proof.
  unfold index, cleaned, reset_index, len. cbn [rows].
  rewrite length_zip, length_seq, length_map, Nat.min_id.
  apply fst_zip. by rewrite length_seq, length_map.
Qed.

Lemma timestamps_cleaned raw :
  timestamps (cleaned raw) = timestamps (sorted_frame raw).
Proof.
  unfold timestamps.
  rewrite <- (map_map snd (cell_at "timestamp")), snd_rows_cleaned.
  by rewrite map_map.
Qed.

Lemma transaction_ok_passes r : passes r = true → transaction_ok (transaction r).
Proof.
  intros Hp. apply passes_valid in Hp as [[[t q] p] Hv].
  destruct (passes_transaction _ _ _ _ Hv)
    as (Ht & Hq & Hpr & Htv & Hd & Hq0 & Hp0 & Ha & Htk & Htr).
  unfold transaction_ok. split_and!; eauto 10.
Qed.

Lemma columns_cleaned raw :
  columns (cleaned raw) = add_col "date" (add_col "total_value" (columns raw)).
Proof. done. Qed.

(** The table [clean_data] builds satisfies the invariant. *)
Lemma cleaned_is_ok raw : valid_schema raw → cleaned_ok (cleaned raw).
Proof.
  intros Hs. unfold cleaned_ok. split_and!.
  - intros c Hc. rewrite columns_cleaned.
    apply elem_of_app in Hc as [Hc|Hc].
    + by apply elem_of_add_col, elem_of_add_col, Hs.
    + apply elem_of_cons in Hc as [->|Hc].
      { apply elem_of_add_col, elem_of_add_col_same. }
      apply elem_of_cons in Hc as [->|Hc]; [apply elem_of_add_col_same|].
      by apply elem_of_nil in Hc.
  - apply Forall_forall. intros [i r] Hin.
    assert (r ∈ map snd (rows (cleaned raw))) as Hr.
    { apply list_elem_of_fmap. by exists (i, r). }
    rewrite snd_rows_cleaned in Hr.
    apply list_elem_of_fmap in Hr as ([j r'] & -> & Hr).
    rewrite sorted_frame_rows in Hr.
    apply list_elem_of_fmap in Hr as ([k r0] & [= -> ->] & Hr).
    apply list_elem_of_In, filter_In in Hr as [_ Hp].
    by apply transaction_ok_passes.
  - rewrite timestamps_cleaned. apply sorted_frame_sorted.
  - apply index_cleaned.
Qed.

End Tables.

(** ** [clean_data] *)

Section Clean.
Context `{Pandas} `{!PandasLaws}.

Lemma frame_at_lookup w l d : heap w !! l = Some d → frame_at w l = d.
Proof. unfold frame_at. by intros ->. Qed.

(** With the six columns there, [clean_data] returns; the world it leaves
    is the one it started from with new objects, the last of which is the
    cleaned table. *)
Lemma clean_data_ok w raw :
  loaded w raw → valid_schema raw →
  ∃ hh, heap w `prefix_of` hh ∧
    clean_data w
    = (Ok (length hh),
       {| files := files w;
          heap := hh ++ [cleaned raw];
          self := {| csv_path := csv_path (self w); df := df (self w);
                     cleaned_df := Some (length hh);
                     analytics := analytics (self w) |};
          logged := logged w ++ clean_log raw |}).
Proof.
  intros (l & Hdf & Hl) Hs.
  destruct (wp_run _ _ _ _ (clean_data_spec w))
    as [(l' & w' & Hrun & Hpost)|(e & w' & Hrun & Hexc)].
  - destruct Hpost as (l0 & hh & Hdf' & _ & Hh & -> & Hp & Hf & Hself & Hlog).
    rewrite Hdf in Hdf'. injection Hdf' as <-.
    rewrite (frame_at_lookup _ _ _ Hl) in Hh, Hlog.
    exists hh. split; [done|]. rewrite Hrun. f_equal.
    destruct w' as [f h s lg]. simpl in *. by subst.
  - destruct Hexc as (_ & _ & _ & _ & Hc). rewrite Hdf in Hc.
    destruct Hc as (c & _ & Hc & Hn).
    rewrite (frame_at_lookup _ _ _ Hl) in Hn. destruct Hn. by apply Hs.
Qed.

(** Whatever it returns or raises, [clean_data] leaves every object that
    was there as it was, and [self.df] pointing where it pointed. *)
Lemma clean_data_frame w :
  heap w `prefix_of` heap (clean_data w).2
  ∧ df (self (clean_data w).2) = df (self w)
  ∧ files (clean_data w).2 = files w.
Proof.
  destruct (wp_run _ _ _ _ (clean_data_spec w))
    as [(l' & w' & Hrun & Hpost)|(e & w' & Hrun & Hexc)]; rewrite Hrun; simpl.
  - destruct Hpost as (l0 & hh & Hdf' & _ & Hh & -> & Hp & Hf & Hself & Hlog).
    rewrite Hh, Hself. split_and!; try done.
    etrans; [done|]. by apply prefix_app_r.
  - destruct Hexc as (Hp & Hf & Hs & _). by rewrite Hs.
Qed.

Lemma filter_Permutation' {A} (p : A → bool) (l l' : list A) :
  l ≡ₚ l' → List.filter p l ≡ₚ List.filter p l'.
Proof.
  induction 1 as [|x l l' _ IH|x y l|l l' l'' _ IH1 _ IH2]; simpl.
  - done.
  - destruct (p x); [by constructor|done].
  - destruct (p x), (p y); try done. apply perm_swap.
  - by etrans.
Qed.

Lemma entries_of_fresh (f : Row → Row) (p : Row → bool) l i :
  i ∉ map fst l →
  entries_of i (map (on_row f) (List.filter (λ ir, p ir.2) l)) = [].
Proof.
  unfold entries_of. induction l as [|[j r] l IH]; simpl; [done|].
  intros Hi. apply not_elem_of_cons in Hi as [Hij Hi].
  destruct (p r); simpl; [|by apply IH].
  rewrite bool_decide_false by done. by apply IH.
Qed.

Lemma entries_of_row (f : Row → Row) (p : Row → bool) l i r :
  NoDup (map fst l) → (i, r) ∈ l →
  entries_of i (map (on_row f) (List.filter (λ ir, p ir.2) l))
  = if p r then [(i, f r)] else [].
Proof.
  induction l as [|[j r'] l IH]; simpl; intros Hnd Hin.
  { by apply elem_of_nil in Hin. }
  apply NoDup_cons in Hnd as [Hj Hnd].
  apply elem_of_cons in Hin as [[= <- <-]|Hin].
  - destruct (p r); simpl.
    + unfold entries_of. simpl. rewrite bool_decide_true by done.
      f_equal. by apply (entries_of_fresh f p).
    + by apply (entries_of_fresh f p).
  - assert (j ≠ i) as Hji.
    { intros ->. apply Hj. apply list_elem_of_fmap. by exists (i, r). }
    destruct (p r'); simpl; [|by apply IH].
    unfold entries_of. simpl. rewrite bool_decide_false by done.
    by apply IH.
Qed.



Lemma length_present raw :
  (length (present raw) + dropped_missing raw)%nat = length (rows raw).
Proof.
  unfold dropped_missing.
  assert (length (present raw) ≤ length (rows raw))%nat; [|lia].
  unfold present. rewrite <- (length_standardized raw). apply filter_length_le.
Qed.

Lemma length_actionable raw :
  (length (actionable raw) + invalid_actions raw)%nat = length (present raw).
Proof. apply filter_length_split. Qed.

Lemma length_kept raw :
  (length (kept raw) + nonpositive_count raw)%nat = length (actionable raw).
Proof.
  unfold kept, nonpositive_count.
  pose proof (filter_length_split (λ ir : nat * Row, negb (nonpositive ir.2))
                (actionable raw)) as Hsplit.
  rewrite (filter_ext (λ x : nat * Row, negb (negb (nonpositive x.2)))
                      (λ ir : nat * Row, nonpositive ir.2)) in Hsplit
    by (intros ir; by rewrite negb_involutive).
  exact Hsplit.
Qed.

(** C6: with the six columns there, [clean_data] returns whatever the rows
    hold; the rows left out are counted in the three warnings, and a table
    whose rows are all invalid is cleaned to the empty table. *)
Theorem clean_data_never_raises_on_rows w raw :
  loaded w raw → valid_schema raw →
  ∃ l' w' t,
    clean_data w = (Ok l', w')
    ∧ cleaned_df (self w') = Some l'
    ∧ heap w' !! l' = Some t
    ∧ logged w' = logged w ++ clean_log raw
    ∧ (len t + (dropped_missing raw + invalid_actions raw
                + nonpositive_count raw))%nat = len raw
    ∧ ((∀ ir, ir ∈ rows raw → valid_record ir.2 = None) → rows t = []).
Proof.
  intros Hl Hs. destruct (clean_data_ok w raw Hl Hs) as (hh & Hp & Hrun).
  eexists _, _, (cleaned raw). split; [exact Hrun|].
  cbn [self cleaned_df heap logged].
  split; [done|]. split; [apply list_lookup_middle; done|]. split; [done|].
  split.
  - rewrite len_cleaned. unfold len.
    pose proof (length_present raw). pose proof (length_actionable raw).
    pose proof (length_kept raw). lia.
  - intros Hnone. rewrite rows_cleaned, kept_rows.
    replace (List.filter (λ ir, passes ir.2) (rows raw)) with (@nil (nat * Row)).
    { done. }
    symmetry.
    induction (rows raw) as [|ir l IH]; simpl; [done|].
    destruct (passes ir.2) eqn:Hpass.
    + apply passes_valid in Hpass. rewrite Hnone in Hpass by left.
      by destruct Hpass.
    + apply IH. intros ir' Hin. apply Hnone. by right.
Qed.

(** C9: [clean_data] works on a copy.  Whatever it returns or raises, the
    object [self.df] points to, like every object that was there, is as it
    was and [self.df] still points to it; and when it returned, calling it
    again returns an equal table. *)
Theorem clean_data_leaves_raw_table w :
  df (self (clean_data w).2) = df (self w)
  ∧ (∀ l d, heap w !! l = Some d → heap (clean_data w).2 !! l = Some d)
  ∧ (∀ l1, (clean_data w).1 = Ok l1 →
     ∃ l2, (clean_data (clean_data w).2).1 = Ok l2
           ∧ heap (clean_data (clean_data w).2).2 !! l2
             = heap (clean_data w).2 !! l1).
Proof.
  destruct (clean_data_frame w) as (Hp & Hdf & Hf).
  split; [done|]. split.
  { intros l d Hl. by eapply prefix_lookup_Some. }
  intros l1 Hok.
  destruct (wp_run _ _ _ _ (clean_data_spec w))
    as [(l' & w' & Hrun & Hpost)|(e & w' & Hrun & Hexc)];
    rewrite Hrun in Hok |- *; simpl in Hok; [|done].
  injection Hok as ->.
  destruct Hpost as (l & hh & Hl & Hs & _).
  assert (∃ raw, heap w !! l = Some raw) as [raw Hraw].
  { unfold frame_at in Hs. destruct (heap w !! l) as [raw|]; [by eexists|].
    specialize (Hs "timestamp"). simpl in Hs.
    exfalso. eapply not_elem_of_nil. apply Hs. unfold REQUIRED_COLS. by left. }
  rewrite (frame_at_lookup _ _ _ Hraw) in Hs.
  assert (loaded w raw) as Hld by (by exists l).
  destruct (clean_data_ok w raw Hld Hs) as (hh1 & Hp1 & Hrun1).
  rewrite Hrun in Hrun1. injection Hrun1 as -> ->. simpl.
  assert (loaded {| files := files w; heap := hh1 ++ [cleaned raw];
                    self := {| csv_path := csv_path (self w); df := df (self w);
                               cleaned_df := Some (length hh1);
                               analytics := analytics (self w) |};
                    logged := logged w ++ clean_log raw |} raw) as Hld2.
  { exists l. simpl. split; [done|].
    eapply prefix_lookup_Some; [done|].
    etrans; [done|]. by apply prefix_app_r. }
  destruct (clean_data_ok _ raw Hld2 Hs) as (hh2 & Hp2 & Hrun2).
  rewrite Hrun2. simpl. exists (length hh2). split; [done|].
  rewrite !list_lookup_middle by done. done.
Qed.

End Clean.

(** ** [load_data] *)

Lemma load_data_read w d :
  files w !! csv_path (self w) = Some d →
  load_data w
  = (match missing_cols d with
     | [] => Ok (length (heap w))
     | m => Raise (ValueError (MissingRequiredColumns m))
     end, after_load w d).
Proof.
  intros Hf. unfold load_data, try_except, mbind, M_bind, get_self, read_csv.
  rewrite Hf. unfold alloc, set_self, df_len, df_columns, emit, mbind, M_bind,
    deref. cbn [heap self files logged csv_path].
  rewrite list_lookup_middle by done. cbn [default mret M_ret].
  cbn [heap self files logged csv_path].
  rewrite list_lookup_middle by done. cbn [default mret M_ret].
  unfold id, after_load. fold (missing_cols d).
  destruct (missing_cols d) as [|c m]; cbn.
  - done.
  - by rewrite <- app_assoc.
Qed.

Lemma load_data_no_file w :
  files w !! csv_path (self w) = None →
  load_data w
  = (Raise (FileNotFoundError (csv_path (self w))),
     {| files := files w; heap := heap w; self := self w;
        logged := logged w ++ [(ERROR, ErrorLoadingData
                                 (FileNotFoundError (csv_path (self w))))] |}).
Proof.
  intros Hf. unfold load_data, try_except, mbind, M_bind, get_self, read_csv.
  by rewrite Hf.
Qed.

Lemma missing_cols_nil d : missing_cols d = [] ↔ valid_schema d.
Proof.
  unfold missing_cols, valid_schema. split.
  - intros Hm c Hc. destruct (decide (c ∈ columns d)) as [|Hn]; [done|].
    assert (In c (List.filter (λ c, negb (bool_decide (c ∈ columns d)))
                    REQUIRED_COLS)) as Hin.
    { apply filter_In. split; [by apply list_elem_of_In|].
      by rewrite bool_decide_false. }
    rewrite Hm in Hin. destruct Hin.
  - intros Hs. induction REQUIRED_COLS as [|c l IH]; simpl; [done|].
    rewrite bool_decide_true by (apply Hs; left). simpl.
    apply IH. intros c' Hc'. apply Hs. by right.
Qed.

(** C4, as the code has it: when the file is read, [load_data] raises the
    error naming the missing columns exactly when one of the six is
    absent, without looking at any row, and raises it to the caller; the
    cleaned table and the analytics are untouched, and the frame that was
    read stays stored in [self.df]. *)
Theorem load_data_schema_error w d :
  files w !! csv_path (self w) = Some d →
  ∃ r w',
    load_data w = (r, w')
    ∧ (r = Raise (ValueError (MissingRequiredColumns (missing_cols d)))
       ↔ ∃ c, c ∈ REQUIRED_COLS ∧ c ∉ columns d)
    ∧ (r = Ok (length (heap w)) ↔ ∀ c, c ∈ REQUIRED_COLS → c ∈ columns d)
    ∧ (∀ d', columns d' = columns d →
         (load_data {| files := <[csv_path (self w) := d']> (files w);
                       heap := heap w; self := self w;
                       logged := logged w |}).1 = r)
    ∧ cleaned_df (self w') = cleaned_df (self w)
    ∧ analytics (self w') = analytics (self w)
    ∧ (∀ l x, heap w !! l = Some x → heap w' !! l = Some x)
    ∧ ∃ l, df (self w') = Some l ∧ heap w' !! l = Some d.
Proof.
  intros Hf. eexists _, _. split; [by apply load_data_read|].
  split_and!.
  - split.
    + intros Hr. destruct (missing_cols d) as [|c m] eqn:Hm; [done|].
      exists c. assert (In c (missing_cols d)) as Hin by (rewrite Hm; by left).
      apply filter_In in Hin as [Hin Hc]. split; [by apply list_elem_of_In|].
      intros Hc'. by rewrite bool_decide_true in Hc.
    + intros (c & Hc & Hn). destruct (missing_cols d) as [|c' m] eqn:Hm; [|done].
      apply missing_cols_nil in Hm. destruct Hn. by apply Hm.
  - rewrite <- (missing_cols_nil d). destruct (missing_cols d); split; done.
  - intros d' Hcols.
    rewrite (load_data_read _ d') by (simpl; apply lookup_insert_eq).
    simpl. unfold missing_cols. by rewrite Hcols.
  - done.
  - done.
  - intros l x Hl. simpl. by apply lookup_app_l_Some.
  - exists (length (heap w)). simpl. split; [done|].
    by apply list_lookup_middle.
Qed.

(** ** [calculate_analytics] *)

Section Analytics.
Context `{Pandas} `{!PandasLaws}.

Lemma getitem_Ok c d s : getitem c d = Ok s → s = column c d ∧ c ∈ columns d.
Proof.
  unfold getitem. case_bool_decide; [|done]. by intros [= <-].
Qed.

Lemma bind_Ok {A B} (m : result A) (f : A → result B) b :
  m ≫= f = Ok b → ∃ a, m = Ok a ∧ f a = Ok b.
Proof. destruct m as [a|e]; [|done]. intros. by exists a. Qed.

Lemma boolean_index_action a d :
  boolean_index (map (λ c, bool_decide (c = Str a)) (column "action" d)) d
  = with_action a d.
Proof.
  unfold column. rewrite map_map.
  apply (boolean_index_map (λ ir, bool_decide (cell_at "action" ir.2 = Str a))).
Qed.

(** The aggregates that the properties are about, when [aggregate]
    returns. *)
Lemma aggregate_fields d a :
  aggregate d = Ok a →
  total_transactions a = len d
  ∧ total_volume a = series_sum (column "total_value" d)
  ∧ volume_by_ticker a
    = sort_values_desc (groupby_sum (column "ticker" d) (column "total_value" d))
  ∧ net_position a
    = sort_values_desc
        (sub_fill 0%Q
           (groupby_sum (column "ticker" (with_action "BUY" d))
                        (column "quantity" (with_action "BUY" d)))
           (groupby_sum (column "ticker" (with_action "SELL" d))
                        (column "quantity" (with_action "SELL" d)))).
Proof.
  unfold aggregate. intros Ha.
  repeat match type of Ha with
  | _ ≫= _ = Ok _ =>
    let s := fresh "s" in let Hs := fresh "Hs" in
    apply bind_Ok in Ha as (s & Hs & Ha);
    apply getitem_Ok in Hs as [-> _]
  end.
  injection Ha as <-. cbn [total_transactions total_volume volume_by_ticker net_position].
  by rewrite !boolean_index_action.
Qed.

Lemma aggregate_Ok d :
  (∀ c, c ∈ REQUIRED_COLS ++ ["total_value"; "date"] → c ∈ columns d) →
  ∃ a, aggregate d = Ok a.
Proof.
  intros Hc. unfold aggregate.
  assert (∀ c d', columns d' = columns d →
            c ∈ REQUIRED_COLS ++ ["total_value"; "date"] →
            getitem c d' = Ok (column c d')) as Hget.
  { intros c d' Hd' Hin. apply getitem_present. rewrite Hd'. by apply Hc. }
  repeat (rewrite Hget; [cbn [mbind result_bind]|done|
                         unfold REQUIRED_COLS; cbn [app]; repeat constructor]).
  eauto.
Qed.

(** *** Sums *)

Lemma Qsum_perm l l' : l ≡ₚ l' → (Qsum l == Qsum l')%Q.
Proof.
  induction 1 as [|x l l' _ IH|x y l|l l' l'' _ IH1 _ IH2]; simpl.
  - reflexivity.
  - by rewrite IH.
  - ring.
  - by rewrite IH1.
Qed.

Lemma Qsum_map_ext {A} (f g : A → Q) l :
  (∀ x, f x == g x)%Q → (Qsum (map f l) == Qsum (map g l))%Q.
Proof.
  intros Hfg. induction l as [|a l IH]; simpl; [reflexivity|].
  by rewrite IH, Hfg.
Qed.

Lemma Qsum_map_plus {A} (f g : A → Q) l :
  (Qsum (map (λ x, f x + g x) l) == Qsum (map f l) + Qsum (map g l))%Q.
Proof.
  induction l as [|a l IH]; simpl; [ring|]. rewrite IH. ring.
Qed.

Lemma Qsum_map_zero {A} (l : list A) : (Qsum (map (λ _, 0) l) == 0)%Q.
Proof. induction l as [|a l IH]; simpl; [reflexivity|]. rewrite IH. ring. Qed.

(** Summing [x] at the one place where the key is [k0]. *)
Lemma Qsum_at_key (k0 : cell) (x : Q) ks :
  NoDup ks →
  (Qsum (map (λ k, if bool_decide (k0 = k) then x else 0) ks)
   == if bool_decide (k0 ∈ ks) then x else 0)%Q.
Proof.
  induction 1 as [|k ks Hk _ IH]; simpl; [reflexivity|].
  rewrite IH. destruct (decide (k0 = k)) as [->|Hne].
  - rewrite bool_decide_true by done.
    rewrite (bool_decide_false (k ∈ ks)) by done.
    rewrite bool_decide_true by left. ring.
  - rewrite bool_decide_false by done.
    destruct (decide (k0 ∈ ks)).
    + rewrite !bool_decide_true; [ring|by right|done].
    + rewrite !bool_decide_false; [ring| |done].
      intros [?|?]%elem_of_cons; done.
Qed.

(** The sums of the groups add up to the sum of everything, when every key
    is a group label. *)
Lemma Qsum_groups ks (kvs : list (cell * cell)) :
  NoDup ks → (∀ kv, kv ∈ kvs → kv.1 ∈ ks) →
  (Qsum (map (λ k, series_sum (values_of k kvs)) ks)
   == series_sum (map snd kvs))%Q.
Proof.
  intros Hnd. induction kvs as [|[k0 v0] kvs IH]; intros Hin.
  - unfold values_of, series_sum. simpl. apply Qsum_map_zero.
  - rewrite (Qsum_map_ext _
      (λ k, (if bool_decide (k0 = k) then num_of v0 else 0)
            + series_sum (values_of k kvs))%Q).
    2: { intros k. unfold values_of, series_sum. simpl.
         case_bool_decide; simpl; [reflexivity|ring]. }
    rewrite Qsum_map_plus, (Qsum_at_key _ _ _ Hnd), IH.
    + rewrite bool_decide_true by (apply (Hin (k0, v0)); left).
      unfold series_sum. simpl. reflexivity.
    + intros kv Hkv. apply Hin. by right.
Qed.

Lemma group_keys_perm keys :
  group_keys keys ≡ₚ remove_dups (List.filter (λ c, negb (isna c)) keys).
Proof. apply sort_by_perm. Qed.

(** [groupby(key)[val].sum()] keeps the total, when no key is missing. *)
Lemma groupby_sum_total keys vals :
  length keys = length vals → Forall (λ k, isna k = false) keys →
  (Qsum (map snd (groupby_sum keys vals)) == series_sum vals)%Q.
Proof.
  intros Hlen Hkeys. unfold groupby_sum. rewrite map_map. cbn [snd].
  rewrite (Qsum_perm _ _ (Permutation_map _ (group_keys_perm keys))).
  change (λ k, series_sum (group k keys vals))
    with (λ k, series_sum (values_of k (zip keys vals))).
  rewrite Qsum_groups.
  - rewrite snd_zip by lia. reflexivity.
  - apply NoDup_remove_dups.
  - intros [k v] Hin. apply elem_of_remove_dups, list_elem_of_In, filter_In.
    assert (k ∈ keys) as Hk by (by eapply elem_of_zip_l).
    split; [by apply list_elem_of_In|].
    rewrite Forall_forall in Hkeys. apply negb_true_iff. by apply Hkeys.
Qed.

(** *** Lookups in a labelled series *)

Lemma loc_get_labelled {V} (f : cell → V) ks l k :
  l ≡ₚ map (λ k, (k, f k)) ks →
  loc_get k l = if bool_decide (k ∈ ks) then Some (f k) else None.
Proof.
  intros Hl. unfold loc_get.
  destruct (List.find _ l) as [[k' v]|] eqn:Hfind; simpl.
  - apply find_some in Hfind as [Hin Hk].
    apply bool_decide_eq_true in Hk. simpl in Hk. subst k'.
    apply list_elem_of_In in Hin. rewrite Hl in Hin.
    apply list_elem_of_fmap in Hin as (k' & [= -> ->] & Hin).
    by rewrite bool_decide_true.
  - case_bool_decide as Hk; [|done]. exfalso.
    assert ((k, f k) ∈ l) as Hin.
    { rewrite Hl. apply list_elem_of_fmap. by exists k. }
    apply list_elem_of_In in Hin.
    pose proof (find_none _ _ Hfind _ Hin) as Hne. simpl in Hne.
    by rewrite bool_decide_true in Hne.
Qed.

Lemma group_columns {A} (f g : A → cell) k (l : list A) :
  group k (map f l) (map g l)
  = map g (List.filter (λ x, bool_decide (f x = k)) l).
Proof.
  unfold group. induction l as [|a l IH]; simpl; [done|].
  case_bool_decide; simpl; by rewrite IH.
Qed.

Lemma elem_of_group_keys k keys :
  k ∈ group_keys keys ↔ k ∈ keys ∧ isna k = false.
Proof.
  rewrite group_keys_perm, elem_of_remove_dups, list_elem_of_In, filter_In.
  rewrite <- list_elem_of_In, negb_true_iff. done.
Qed.

Lemma filter_none {A} (p : A → bool) l :
  (∀ x, x ∈ l → p x = false) → List.filter p l = [].
Proof.
  induction l as [|a l IH]; simpl; intros Hp; [done|].
  rewrite (Hp a) by left. apply IH. intros x Hx. apply Hp. by right.
Qed.

(** [fill_value=0]: the sum of a group that is not there is zero. *)
Lemma loc_get_groupby_sum keys vals k :
  isna k = false →
  default 0%Q (loc_get k (groupby_sum keys vals))
  = series_sum (group k keys vals).
Proof.
  intros Hk. unfold groupby_sum.
  rewrite (loc_get_labelled (λ k, series_sum (group k keys vals))
             (group_keys keys)) by done.
  case_bool_decide as Hin; [done|]. simpl.
  unfold group. rewrite filter_none; [done|].
  intros [k' v] Hkv. apply bool_decide_eq_false. simpl. intros ->.
  apply Hin, elem_of_group_keys. split; [|done]. by eapply elem_of_zip_l.
Qed.

Lemma group_with_action a k d :
  series_sum (group k (column "ticker" (with_action a d))
                      (column "quantity" (with_action a d)))
  = quantity_sum a k d.
Proof.
  unfold column, quantity_sum, with_action. cbn [rows].
  by rewrite group_columns, filter_filter_and.
Qed.

(** The entry of [net_position] for a key that is bought or sold. *)
Lemma net_position_entry d a k :
  aggregate d = Ok a → isna k = false →
  k ∈ column "ticker" (with_action "BUY" d)
    ∨ k ∈ column "ticker" (with_action "SELL" d) →
  loc_get k (net_position a)
  = Some (quantity_sum "BUY" k d - quantity_sum "SELL" k d)%Q.
Proof.
  intros Ha Hk Hin. destruct (aggregate_fields _ _ Ha) as (_ & _ & _ & ->).
  unfold sort_values_desc, sub_fill.
  set (buys := groupby_sum (column "ticker" (with_action "BUY" d)) _).
  set (sells := groupby_sum (column "ticker" (with_action "SELL" d)) _).
  rewrite (loc_get_labelled
             (λ k, (default 0 (loc_get k buys) - default 0 (loc_get k sells))%Q)
             (sort_by cell_leb (remove_dups (map fst buys ++ map fst sells))))
    by apply sort_by_perm.
  unfold buys, sells.
  rewrite !loc_get_groupby_sum, !group_with_action by done.
  rewrite bool_decide_true; [done|].
  rewrite sort_by_perm, elem_of_remove_dups, elem_of_app.
  unfold groupby_sum. rewrite !map_map. cbn [fst]. rewrite !map_id.
  rewrite !elem_of_group_keys. tauto.
Qed.

Lemma series_sum_nonneg (l : Series) :
  Forall (λ c, ∃ q, c = Num q ∧ (0 < q)%Q) l → (0 <= series_sum l)%Q.
Proof.
  unfold series_sum. induction 1 as [|c l (q & -> & Hq) _ IH]; simpl; lra.
Qed.

Lemma series_sum_pos (l : Series) :
  l ≠ [] → Forall (λ c, ∃ q, c = Num q ∧ (0 < q)%Q) l → (0 < series_sum l)%Q.
Proof.
  intros Hne Hall. destruct Hall as [|c l (q & -> & Hq) Hall]; [done|].
  pose proof (series_sum_nonneg l Hall) as Hl.
  unfold series_sum in *. simpl. lra.
Qed.

(** *** The method *)

Lemma calculate_analytics_none w :
  cleaned_df (self w) = None →
  calculate_analytics w = (Raise (ValueError DataNotCleaned), w).
Proof.
  intros Hc. unfold calculate_analytics, mbind, M_bind, get_self.
  by rewrite Hc.
Qed.

Lemma calculate_analytics_some w t :
  cleaned_at w t →
  calculate_analytics w
  = match aggregate t with
    | Ok a => (Ok a, with_analytics w a)
    | Raise e => (Raise e, w)
    end.
Proof.
  intros (l & Hc & Hl).
  unfold calculate_analytics, mbind, M_bind, get_self, deref, lift.
  rewrite Hc. cbn [heap]. rewrite Hl. cbn [default from_option id].
  by destruct (aggregate t).
Qed.

Lemma getitem_Raise c d e : getitem c d = Raise e → e = KeyError c.
Proof. unfold getitem. case_bool_decide; [done|]. by intros [= <-]. Qed.

Lemma aggregate_Raise d e : aggregate d = Raise e → ∃ c, e = KeyError c.
Proof.
  unfold aggregate. intros Ha.
  repeat match type of Ha with
  | getitem ?c ?d ≫= _ = Raise _ =>
    let Hg := fresh "Hg" in
    destruct (getitem c d) eqn:Hg;
      [cbn [mbind result_bind] in Ha
      |injection Ha as <-; apply getitem_Raise in Hg; eauto]
  end.
  done.
Qed.


Lemma cleaned_ok_ticker t :
  cleaned_ok t → Forall (λ k, isna k = false) (column "ticker" t).
Proof.
  intros (_ & Hrows & _). unfold column. apply Forall_fmap.
  eapply Forall_impl; [exact Hrows|].
  intros ir (_ & (s & Hs & _) & _). simpl. by rewrite Hs.
Qed.

(** C8: the volumes per ticker add up to the total volume, which is the
    sum of [total_value] over the rows. *)
Theorem volume_by_ticker_sums_to_total w t :
  cleaned_at w t → cleaned_ok t →
  ∃ a w',
    calculate_analytics w = (Ok a, w')
    ∧ (Qsum (map snd (volume_by_ticker a)) == total_volume a)%Q
    ∧ total_volume a
      = Qsum (map (λ ir, num_of (cell_at "total_value" ir.2)) (rows t)).
Proof.
  intros Hat Hok. rewrite (calculate_analytics_some _ _ Hat).
  destruct (aggregate_Ok t (proj1 Hok)) as [a Ha]. rewrite Ha.
  exists a, (with_analytics w a). split; [done|].
  destruct (aggregate_fields _ _ Ha) as (_ & -> & -> & _). split.
  - unfold sort_values_desc.
    rewrite (Qsum_perm _ _ (Permutation_map snd (sort_by_perm _ _))).
    apply groupby_sum_total.
    + unfold column. by rewrite !length_map.
    + by apply cleaned_ok_ticker.
  - unfold series_sum, column. by rewrite map_map.
Qed.

(** C5: for every ticker of a cleaned table, [net_position] has an entry,
    the BUY quantities minus the SELL quantities of that ticker; for a
    ticker that is only bought it is the quantity bought, and for one that
    is only sold it is below zero. *)
Theorem net_position_per_ticker w t :
  cleaned_at w t → cleaned_ok t →
  ∃ a w',
    calculate_analytics w = (Ok a, w')
    ∧ ∀ k, k ∈ column "ticker" t →
        ∃ v, loc_get k (net_position a) = Some v
          ∧ (v == quantity_sum "BUY" k t - quantity_sum "SELL" k t)%Q
          ∧ ((∀ ir, ir ∈ rows t → cell_at "ticker" ir.2 = k →
                    cell_at "action" ir.2 = Str "BUY") →
             (v == quantity_sum "BUY" k t)%Q)
          ∧ ((∀ ir, ir ∈ rows t → cell_at "ticker" ir.2 = k →
                    cell_at "action" ir.2 = Str "SELL") →
             (v < 0)%Q).
Proof.
  intros Hat Hok. rewrite (calculate_analytics_some _ _ Hat).
  destruct (aggregate_Ok t (proj1 Hok)) as [a Ha]. rewrite Ha.
  exists a, (with_analytics w a). split; [done|].
  intros k Hk. unfold column in Hk.
  apply list_elem_of_fmap in Hk as ([i r] & -> & Hin). simpl.
  destruct Hok as (_ & Hrows & _). rewrite Forall_forall in Hrows.
  pose proof (Hrows _ Hin) as (_ & (s & Hs & _) & _ & Hact & _). simpl in *.
  eexists. split.
  { apply (net_position_entry t a); [done|by rewrite Hs|].
    unfold column, with_action. cbn [rows].
    destruct Hact as [Hact|Hact]; [left|right];
      (apply list_elem_of_fmap; exists (i, r); split; [done|];
       apply list_elem_of_In, filter_In; split; [by apply list_elem_of_In|];
       by apply bool_decide_eq_true).  }
  split; [reflexivity|]. split.
  - intros Hbuy. unfold quantity_sum at 2.
    rewrite filter_none; [unfold series_sum; simpl; ring|].
    intros ir Hir. apply andb_false_iff.
    destruct (decide (cell_at "ticker" ir.2 = cell_at "ticker" r)) as [Heq|Hne].
    + left. apply bool_decide_eq_false. rewrite (Hbuy ir Hir Heq). done.
    + right. by apply bool_decide_eq_false.
  - intros Hsell. unfold quantity_sum at 1.
    rewrite filter_none.
    2: { intros ir Hir. apply andb_false_iff.
         destruct (decide (cell_at "ticker" ir.2 = cell_at "ticker" r))
           as [Heq|Hne].
         + left. apply bool_decide_eq_false. rewrite (Hsell ir Hir Heq). done.
         + right. by apply bool_decide_eq_false. }
    assert (0 < quantity_sum "SELL" (cell_at "ticker" r) t)%Q as Hpos.
    { unfold quantity_sum. apply series_sum_pos.
      - intros Hnil. apply fmap_nil_inv in Hnil.
        assert (In (i, r) []) as []. rewrite <- Hnil. apply filter_In.
        split; [by apply list_elem_of_In|].
        pose proof (Hsell (i, r) Hin eq_refl) as Hs'. simpl in *.
        rewrite Hs'. by rewrite !bool_decide_true.
      - apply Forall_fmap, Forall_forall. intros ir Hir.
        apply list_elem_of_In, filter_In in Hir as [Hir _].
        apply list_elem_of_In in Hir.
        destruct (Hrows _ Hir) as (_ & _ & _ & _ & q & p & Hq & _ & Hq0 & _).
        simpl. eauto. }
    unfold series_sum at 1. simpl. lra.
Qed.

End Analytics.

(** ** [get_transactions_by_timerange] *)

Lemma StronglySorted_map_filter {A B} (R : relation B) (f : A → B)
    (p : A → bool) l :
  StronglySorted R (map f l) → StronglySorted R (map f (List.filter p l)).
Proof.
  induction l as [|a l IH]; simpl; [done|].
  intros Hs. apply StronglySorted_inv in Hs as [Hs Ha].
  destruct (p a); simpl; [|by apply IH].
  constructor; [by apply IH|].
  apply Forall_forall. intros b Hb. rewrite Forall_forall in Ha. apply Ha.
  apply list_elem_of_fmap in Hb as (x & -> & Hx).
  apply list_elem_of_fmap. exists x. split; [done|].
  apply list_elem_of_In, filter_In in Hx as [Hx _]. by apply list_elem_of_In.
Qed.

Section Queries.
Context `{Pandas} `{!PandasLaws}.

Lemma timerange_unset w start_date end_date :
  cleaned_df (self w) = None →
  get_transactions_by_timerange start_date end_date w
  = (Raise (ValueError DataNotCleaned), w).
Proof.
  intros Hc. unfold get_transactions_by_timerange, mbind, M_bind, get_self.
  by rewrite Hc.
Qed.

Lemma timerange_bad_start w l start_date end_date :
  cleaned_df (self w) = Some l → parse_datetime start_date = None →
  get_transactions_by_timerange start_date end_date w
  = (Raise (DateParseError start_date), w).
Proof.
  intros Hc Hs.
  unfold get_transactions_by_timerange, mbind, M_bind, get_self, to_datetime.
  by rewrite Hc, Hs.
Qed.

Lemma timerange_bad_end w l start_date end_date s :
  cleaned_df (self w) = Some l →
  parse_datetime start_date = Some s → parse_datetime end_date = None →
  get_transactions_by_timerange start_date end_date w
  = (Raise (DateParseError end_date), w).
Proof.
  intros Hc Hs He.
  unfold get_transactions_by_timerange, mbind, M_bind, get_self, to_datetime.
  by rewrite Hc, Hs, He.
Qed.

Lemma timerange_run w t start_date end_date s e :
  cleaned_at w t → "timestamp" ∈ columns t →
  parse_datetime start_date = Some s → parse_datetime end_date = Some e →
  get_transactions_by_timerange start_date end_date w
  = (Ok (S (length (heap w))),
     {| files := files w;
        heap := (heap w ++ [selection s e t]) ++ [selection s e t];
        self := self w; logged := logged w |}).
Proof.
  intros (l & Hc & Hl) Hcol Hs He.
  unfold get_transactions_by_timerange, mbind, M_bind, get_self, to_datetime.
  rewrite Hc, Hs, He. cbn [mret M_ret].
  unfold df_getitem, df_boolean_index, df_copy, mbind, M_bind, deref, lift, alloc.
  cbn [heap]. rewrite Hl. cbn [default from_option id].
  rewrite (getitem_present _ _ Hcol).
  unfold mask_and. rewrite zip_with_map_map.
  rewrite map_map.
  change (map _ (rows t)) with (map (in_range s e) (rows t)).
  rewrite (boolean_index_map (in_range s e)).
  change {| columns := columns t; rows := List.filter (in_range s e) (rows t) |}
    with (selection s e t).
  cbn [heap files self logged].
  rewrite list_lookup_middle by done. cbn [default from_option id].
  rewrite length_app. simpl. do 2 f_equal. lia.
Qed.

Lemma cleaned_ok_timestamp t : cleaned_ok t → "timestamp" ∈ columns t.
Proof.
  intros (Hcols & _). apply Hcols. unfold REQUIRED_COLS. cbn [app]. by left.
Qed.

Lemma in_range_spec s e ir :
  in_range s e ir = true
  ↔ ∃ ts, cell_at "timestamp" ir.2 = Datetime ts ∧ s ≤ ts ≤ e.
Proof.
  unfold in_range, time_ge, time_le.
  destruct (cell_at "timestamp" ir.2) as [| | |ts|]; simpl;
    try (split; [done|by intros (? & ? & _)]).
  rewrite andb_true_iff, !Z.leb_le. split.
  - intros. by exists ts.
  - by intros (? & [= <-] & ?).
Qed.



End Queries.

(** * The properties on the sample tables *)

Lemma sample_loaded : loaded (after_loading sample_raw) sample_raw.
Proof. exists 0%nat. split; vm_compute; reflexivity. Qed.

Lemma sample_schema : valid_schema sample_raw.
Proof. intros c Hc. exact Hc. Qed.

Lemma sample_cleaned :
  cleaned_at (after_cleaning sample_raw) (cleaned sample_raw).
Proof. exists 6%nat. split; vm_compute; reflexivity. Qed.

Lemma sample_cleaned_ok : cleaned_ok (cleaned sample_raw).
Proof. apply cleaned_is_ok, sample_schema. Qed.

(** The cleaned sample: the three valid rows, by timestamp. *)
Example sample_cleaned_rows :
  map (λ ir, (ir.1, cell_at "ticker" ir.2, cell_at "action" ir.2,
              cell_at "total_value" ir.2))
      (rows (cleaned sample_raw))
  = [(0%nat, Str "AAPL", Str "BUY", Num 1000);
     (1%nat, Str "AAPL", Str "SELL", Num 440);
     (2%nat, Str "MSFT", Str "SELL", Num 1000)].
Proof. vm_compute. reflexivity. Qed.

Example sample_analytics :
  (a ← aggregate (cleaned sample_raw);
   mret (total_transactions a, volume_by_ticker a, net_position a))
  = Ok (3%nat,
        [(Str "AAPL", 1440%Q); (Str "MSFT", 1000%Q)],
        [(Str "AAPL", 6%Q); (Str "MSFT", (-5)%Q)]).
Proof. vm_compute. reflexivity. Qed.

(** The rows of January in the cleaned sample. *)
Example sample_january :
  map fst (List.filter (in_range 1704067200000000000 1706659200000000000)
                       (rows (cleaned sample_raw)))
  = [0%nat; 1%nat].
Proof. vm_compute. reflexivity. Qed.




(** [clean_data_never_raises_on_rows] on the file whose rows are all
    invalid. *)
Lemma clean_data_never_raises_on_rows_witness :
  loaded (after_loading rejected_raw) rejected_raw
  ∧ valid_schema rejected_raw
  ∧ ∃ l' w' t, clean_data (after_loading rejected_raw) = (Ok l', w')
               ∧ heap w' !! l' = Some t
               ∧ rows t = [].
Proof.
  assert (loaded (after_loading rejected_raw) rejected_raw) as H1
    by (exists 0%nat; split; vm_compute; reflexivity).
  assert (valid_schema rejected_raw) as H2 by (intros c Hc; exact Hc).
  repeat (split; [assumption|]).
  destruct (clean_data_never_raises_on_rows _ _ H1 H2)
    as (l' & w' & t & Hrun & _ & Ht & _ & _ & Hempty).
  exists l', w', t. refine (conj Hrun (conj Ht (Hempty _))).
  apply Forall_forall.
  repeat (apply Forall_cons; split; [vm_compute; reflexivity|]).
  apply Forall_nil_2.
Defined.

(** [clean_data_leaves_raw_table] on the sample. *)
Lemma clean_data_leaves_raw_table_witness :
  df (self (clean_data (after_loading sample_raw)).2) = Some 0%nat
  ∧ heap (clean_data (after_loading sample_raw)).2 !! 0%nat = Some sample_raw.
Proof.
  destruct (clean_data_leaves_raw_table (after_loading sample_raw))
    as (Hdf & Hheap & _).
  split.
  - exact Hdf.
  - apply Hheap. vm_compute. reflexivity.
Defined.

(** [load_data_schema_error] on the sample. *)
Lemma load_data_schema_error_witness :
  files (fresh sample_raw) !! csv_path (self (fresh sample_raw)) = Some sample_raw
  ∧ ∃ r w', load_data (fresh sample_raw) = (r, w')
            ∧ ∃ l, df (self w') = Some l ∧ heap w' !! l = Some sample_raw.
Proof.
  assert (files (fresh sample_raw) !! csv_path (self (fresh sample_raw))
          = Some sample_raw) as H1 by (vm_compute; reflexivity).
  split; [assumption|].
  destruct (load_data_schema_error _ _ H1)
    as (r & w' & Hrun & _ & _ & _ & _ & _ & _ & Hkept).
  exists r, w'. exact (conj Hrun Hkept).
Defined.

(** On the file with two of the six columns [load_data] raises, and
    [self.df] is left pointing to the frame it read. *)
Lemma load_data_keeps_frame_on_error :
  load_data (fresh short_raw)
  = (Raise (ValueError (MissingRequiredColumns
                          ["action"; "quantity"; "price"; "trader_id"])),
     after_loading short_raw)
  ∧ df (self (after_loading short_raw)) = Some 0%nat
  ∧ heap (after_loading short_raw) !! 0%nat = Some short_raw.
Proof. split_and!; vm_compute; reflexivity. Qed.



(** [volume_by_ticker_sums_to_total] on the sample. *)
Lemma volume_by_ticker_sums_to_total_witness :
  cleaned_at (after_cleaning sample_raw) (cleaned sample_raw)
  ∧ cleaned_ok (cleaned sample_raw)
  ∧ ∃ a w', calculate_analytics (after_cleaning sample_raw) = (Ok a, w')
            ∧ (Qsum (map snd (volume_by_ticker a)) == total_volume a)%Q.
Proof.
  assert (cleaned_at (after_cleaning sample_raw) (cleaned sample_raw)) as H1
    by (exists 6%nat; split; vm_compute; reflexivity).
  pose proof sample_cleaned_ok as H2.
  repeat (split; [assumption|]).
  destruct (volume_by_ticker_sums_to_total _ _ H1 H2)
    as (a & w' & Hrun & Hsum & _).
  exists a, w'. exact (conj Hrun Hsum).
Defined.

(** [net_position_per_ticker] on the sample. *)
Lemma net_position_per_ticker_witness :
  cleaned_at (after_cleaning sample_raw) (cleaned sample_raw)
  ∧ cleaned_ok (cleaned sample_raw)
  ∧ ∃ a w', calculate_analytics (after_cleaning sample_raw) = (Ok a, w')
            ∧ ∃ v, loc_get (Str "MSFT") (net_position a) = Some v.
Proof.
  assert (cleaned_at (after_cleaning sample_raw) (cleaned sample_raw)) as H1
    by (exists 6%nat; split; vm_compute; reflexivity).
  pose proof sample_cleaned_ok as H2.
  repeat (split; [assumption|]).
  destruct (net_position_per_ticker _ _ H1 H2) as (a & w' & Hrun & Hnet).
  exists a, w'. split; [exact Hrun|].
  destruct (Hnet (Str "MSFT")) as (v & Hv & _).
  { vm_compute. repeat constructor. }
  exists v. exact Hv.
Defined.



(** * Further properties of the code *)

(** ** Running the monad *)

Lemma bind_run_Ok {A B} (m : M A) (f : A → M B) w a w' :
  m w = (Ok a, w') → (m ≫= f) w = f a w'.
Proof. unfold mbind, M_bind. by intros ->. Qed.

Lemma bind_run_Raise {A B} (m : M A) (f : A → M B) w e w' :
  m w = (Raise e, w') → (m ≫= f) w = (Raise e, w').
Proof. unfold mbind, M_bind. by intros ->. Qed.

(** ** [load_data] and [clean_data]: errors *)

Section CleanErrors.
Context `{Pandas} `{!PandasLaws}.

Lemma clean_data_raises w e w' :
  clean_data w = (Raise e, w') → clean_exc w e w'.
Proof.
  intros Hrun.
  destruct (wp_run _ _ _ _ (clean_data_spec w))
    as [(l1 & w1 & Hrun1 & _)|(e1 & w1 & Hrun1 & Hexc)];
    rewrite Hrun in Hrun1; [done|].
  by injection Hrun1 as <- <-.
Qed.

Lemma clean_data_missing_column w raw :
  loaded w raw → ¬ valid_schema raw →
  ∃ c w', clean_data w = (Raise (KeyError c), w')
          ∧ c ∈ REQUIRED_COLS ∧ (c ∉ columns raw)
          ∧ self w' = self w ∧ logged w' = logged w.
Proof.
  intros (l & Hdf & Hl) Hbad.
  destruct (wp_run _ _ _ _ (clean_data_spec w))
    as [(l1 & w1 & Hrun1 & Hpost)|(e1 & w1 & Hrun1 & Hexc)].
  - destruct Hpost as (l0 & hh & Hdf' & Hcols & _).
    rewrite Hdf in Hdf'. injection Hdf' as <-.
    rewrite (frame_at_lookup _ _ _ Hl) in Hcols. by destruct Hbad.
  - destruct Hexc as (_ & _ & Hs & Hlg & Hc). rewrite Hdf in Hc.
    destruct Hc as (c & -> & Hc & Hn).
    rewrite (frame_at_lookup _ _ _ Hl) in Hn. by exists c, w1.
Qed.

(** X1: with no file at the path, [load_data] raises the error of
    [read_csv] after logging it, and nothing else changes.  A frame loaded
    earlier stays in [self.df]: [clean_data] called after the failed load
    still builds the cleaned table of that frame. *)
Theorem load_data_missing_file w :
  files w !! csv_path (self w) = None →
  ∃ w', load_data w = (Raise (FileNotFoundError (csv_path (self w))), w')
    ∧ self w' = self w ∧ heap w' = heap w ∧ files w' = files w
    ∧ logged w'
      = logged w ++ [(ERROR, ErrorLoadingData
                               (FileNotFoundError (csv_path (self w))))]
    ∧ ∀ raw, loaded w raw → valid_schema raw →
        ∃ l w2, clean_data w' = (Ok l, w2)
                ∧ cleaned_df (self w2) = Some l
                ∧ heap w2 !! l = Some (cleaned raw).
Proof.
  intros Hf. eexists. split; [by apply load_data_no_file|].
  split_and!; try done.
  intros raw (l & Hdf & Hl) Hs.
  match goal with |- ∃ _ _, clean_data ?w' = _ ∧ _ =>
    assert (loaded w' raw) as Hl' by (by exists l)
  end.
  destruct (clean_data_ok _ raw Hl' Hs) as (hh & Hp & Hrun).
  eexists _, _. split; [exact Hrun|]. cbn [self cleaned_df heap].
  split; [done|]. by apply list_lookup_middle.
Qed.

(** X2: the two ways [clean_data] fails.  Before any load it raises the
    "not loaded" error and changes nothing.  On a loaded frame that lacks
    one of the six columns it raises a [KeyError] naming a missing one.
    Whenever it raises, the processor and the log are as they were, so
    [self.cleaned_df] keeps the table of an earlier call. *)
Theorem clean_data_errors w :
  (df (self w) = None → clean_data w = (Raise (ValueError DataNotLoaded), w))
  ∧ (∀ raw, loaded w raw → ¬ valid_schema raw →
       ∃ c w', clean_data w = (Raise (KeyError c), w')
               ∧ c ∈ REQUIRED_COLS ∧ c ∉ columns raw)
  ∧ (∀ e w', clean_data w = (Raise e, w') →
       self w' = self w ∧ logged w' = logged w ∧ files w' = files w
       ∧ ∀ l d, heap w !! l = Some d → heap w' !! l = Some d).
Proof.
  split_and!.
  - intros Hdf. unfold clean_data, mbind, M_bind, get_self. by rewrite Hdf.
  - intros raw Hl Hbad.
    destruct (clean_data_missing_column w raw Hl Hbad)
      as (c & w' & Hrun & Hc & Hn & _).
    by exists c, w'.
  - intros e w' Hrun. apply clean_data_raises in Hrun.
    destruct Hrun as (Hp & Hf & Hs & Hlg & _). split_and!; try done.
    intros l d Hl. by eapply prefix_lookup_Some.
Qed.

Lemma elem_of_missing_cols c d :
  c ∈ missing_cols d ↔ c ∈ REQUIRED_COLS ∧ c ∉ columns d.
Proof.
  unfold missing_cols. rewrite list_elem_of_In, filter_In, <- list_elem_of_In.
  rewrite negb_true_iff, bool_decide_eq_false. done.
Qed.

(** X3: a file that lacks a required column.  [load_data] raises the
    schema error but has stored the frame, so a call of [clean_data] that
    follows does not raise "not loaded": it raises a [KeyError] for one of
    the missing columns, and leaves [self.cleaned_df] as it was. *)
Theorem clean_data_after_failed_load w d :
  files w !! csv_path (self w) = Some d → ¬ valid_schema d →
  ∃ w1 c w2,
    load_data w
    = (Raise (ValueError (MissingRequiredColumns (missing_cols d))), w1)
    ∧ clean_data w1 = (Raise (KeyError c), w2)
    ∧ c ∈ missing_cols d
    ∧ cleaned_df (self w2) = cleaned_df (self w).
Proof.
  intros Hf Hbad. pose proof (load_data_read w d Hf) as Hload.
  destruct (missing_cols d) as [|c0 m] eqn:Hm.
  { destruct Hbad. by apply missing_cols_nil. }
  assert (loaded (after_load w d) d) as Hl.
  { exists (length (heap w)). split; [done|]. simpl. by apply list_lookup_middle. }
  destruct (clean_data_missing_column _ d Hl Hbad)
    as (c & w2 & Hrun & Hc & Hn & Hs & _).
  exists (after_load w d), c, w2. split; [done|]. split; [done|]. split.
  - rewrite <- Hm. by apply elem_of_missing_cols.
  - by rewrite Hs.
Qed.

End CleanErrors.

(** ** [clean_data]: what becomes of the fields of a row *)

Section CleanRows.
Context `{Pandas} `{!PandasLaws}.

Lemma cleaned_has_transaction raw i r :
  (i, r) ∈ rows raw → passes r = true →
  transaction r ∈ map snd (rows (cleaned raw)).
Proof.
  intros Hin Hp. rewrite snd_rows_cleaned, sorted_frame_rows.
  apply list_elem_of_fmap. exists (i, transaction r). split; [done|].
  apply list_elem_of_fmap. exists (i, r). split; [done|].
  apply list_elem_of_In, filter_In. split; [by apply list_elem_of_In|done].
Qed.

Lemma cleaned_row_origin raw ir :
  ir ∈ rows (cleaned raw) →
  ∃ i r, (i, r) ∈ rows raw ∧ passes r = true ∧ ir.2 = transaction r.
Proof.
  intros Hin.
  assert (ir.2 ∈ map snd (rows (cleaned raw))) as Hr.
  { apply list_elem_of_fmap. by exists ir. }
  rewrite snd_rows_cleaned, sorted_frame_rows in Hr.
  apply list_elem_of_fmap in Hr as ([j r'] & Heq & Hr).
  apply list_elem_of_fmap in Hr as ([k r0] & [= -> ->] & Hr).
  apply list_elem_of_In, filter_In in Hr as [Hr Hp].
  exists k, r0. split; [by apply list_elem_of_In|]. done.
Qed.

Lemma transaction_other c r :
  c ∉ REQUIRED_COLS ++ ["total_value"; "date"] → transaction r !! c = r !! c.
Proof.
  intros Hc. unfold transaction, derive, standardize, set_col.
  repeat (rewrite lookup_insert_ne;
          [|intros <-; apply Hc; unfold REQUIRED_COLS; cbn [app];
            repeat first [by left|right]]).
  done.
Qed.


(** X5: the other columns of the file go through untouched.  The cleaned
    table has the columns of the file in their order, then [total_value] and
    [date] unless the file had columns of these names; and every row of it
    comes from a row of the file with which it agrees outside the eight
    columns [clean_data] writes. *)
Theorem clean_data_keeps_other_columns w raw :
  loaded w raw → valid_schema raw →
  ∃ l' w' t,
    clean_data w = (Ok l', w')
    ∧ heap w' !! l' = Some t
    ∧ columns t = add_col "date" (add_col "total_value" (columns raw))
    ∧ columns raw `prefix_of` columns t
    ∧ ∀ ir, ir ∈ rows t →
        ∃ i r, (i, r) ∈ rows raw
          ∧ ∀ c, c ∉ REQUIRED_COLS ++ ["total_value"; "date"] →
                 ir.2 !! c = r !! c.
Proof.
  intros Hl Hs. destruct (clean_data_ok w raw Hl Hs) as (hh & Hp & Hrun).
  eexists _, _, (cleaned raw). split; [exact Hrun|]. cbn [heap].
  split; [apply list_lookup_middle; done|].
  split; [apply columns_cleaned|]. split.
  - rewrite columns_cleaned. unfold add_col.
    repeat case_bool_decide; try done;
      repeat (etrans; [|apply prefix_app_r; reflexivity]); done.
  - intros ir Hin. destruct (cleaned_row_origin raw ir Hin) as (i & r & Hr & _ & ->).
    exists i, r. split; [done|]. intros c Hc. by apply transaction_other.
Qed.

End CleanRows.

(** ** The queries by ticker and by trader *)

(** The three calls both queries end with: a mask on one column, the rows
    it selects, a copy of them. *)
Lemma select_run w l t c v :
  heap w !! l = Some t → c ∈ columns t →
  (s ← df_getitem l c;
   sel ← df_boolean_index l (map (λ x, bool_decide (x = v)) s);
   df_copy sel) w
  = (Ok (S (length (heap w))),
     with_selection w {| columns := columns t; rows := rows_with c v t |}).
Proof.
  intros Hl Hc.
  unfold df_getitem, df_boolean_index, df_copy, mbind, M_bind, deref, lift, alloc.
  rewrite Hl. cbn [default from_option id].
  rewrite (getitem_present _ _ Hc), map_map.
  rewrite (boolean_index_map (λ ir, bool_decide (cell_at c ir.2 = v))).
  cbn [heap files self logged].
  rewrite list_lookup_middle by done. cbn [default from_option id].
  rewrite length_app. simpl. unfold with_selection, rows_with.
  do 2 f_equal. lia.
Qed.

Lemma with_selection_lookup w sel :
  heap (with_selection w sel) !! S (length (heap w)) = Some sel.
Proof.
  unfold with_selection. cbn [heap].
  apply list_lookup_middle. rewrite length_app. simpl. lia.
Qed.

Lemma with_selection_old w sel l d :
  heap w !! l = Some d → heap (with_selection w sel) !! l = Some d.
Proof.
  intros Hl. unfold with_selection. cbn [heap].
  by do 2 apply lookup_app_l_Some.
Qed.

Lemma get_transactions_by_ticker_run w t ticker :
  cleaned_at w t → "ticker" ∈ columns t →
  get_transactions_by_ticker ticker w
  = (Ok (S (length (heap w))), with_selection w (matching "ticker" ticker t)).
Proof.
  intros (l & Hc & Hl) Hcol.
  unfold get_transactions_by_ticker.
  rewrite (bind_run_Ok get_self _ w (self w) w) by done.
  rewrite Hc. by apply select_run.
Qed.

Lemma get_trader_transactions_run w t trader_id :
  cleaned_at w t → "trader_id" ∈ columns t →
  get_trader_transactions trader_id w
  = (Ok (S (length (heap w))), with_selection w (matching "trader_id" trader_id t)).
Proof.
  intros (l & Hc & Hl) Hcol.
  unfold get_trader_transactions.
  rewrite (bind_run_Ok get_self _ w (self w) w) by done.
  rewrite Hc. by apply select_run.
Qed.

Lemma cleaned_ok_column c t :
  cleaned_ok t → c ∈ REQUIRED_COLS ++ ["total_value"; "date"] → c ∈ columns t.
Proof. intros (Hcols & _). apply Hcols. Qed.

(** A selection of rows of a cleaned table is valid and in timestamp
    order. *)
Lemma rows_with_ok c v t :
  cleaned_ok t →
  Forall (λ ir, transaction_ok ir.2) (rows_with c v t)
  ∧ StronglySorted (λ a b, cell_leb a b = true)
      (map (λ ir, cell_at "timestamp" ir.2) (rows_with c v t)).
Proof.
  intros (_ & Hrows & Hsorted & _). split.
  - apply Forall_forall. intros ir Hin.
    rewrite Forall_forall in Hrows. apply Hrows.
    apply list_elem_of_In, filter_In in Hin as [Hin _]. by apply list_elem_of_In.
  - by apply StronglySorted_map_filter.
Qed.

(** X6: [get_transactions_by_ticker] on a cleaned table returns a new frame
    with the columns of the table and exactly its rows whose ticker is the
    argument trimmed and upper-cased, in the order and with the index
    labels they have in the table; these rows are valid and in timestamp
    order.  The processor, the log and every object that was there are as
    they were: the result is a copy. *)
Theorem get_transactions_by_ticker_rows w t ticker :
  cleaned_at w t → cleaned_ok t →
  ∃ l' w' sel,
    get_transactions_by_ticker ticker w = (Ok l', w')
    ∧ heap w' !! l' = Some sel
    ∧ columns sel = columns t
    ∧ rows sel = rows_with "ticker" (Str (upper (strip ticker))) t
    ∧ Forall (λ ir, transaction_ok ir.2) (rows sel)
    ∧ StronglySorted (λ a b, cell_leb a b = true) (timestamps sel)
    ∧ self w' = self w ∧ logged w' = logged w
    ∧ (∀ l d, heap w !! l = Some d → heap w' !! l = Some d)
    ∧ (length (heap w) ≤ l')%nat.
Proof.
  intros Hat Hok.
  eexists _, _, (matching "ticker" ticker t).
  split.
  { apply get_transactions_by_ticker_run; [done|].
    apply (cleaned_ok_column _ _ Hok). unfold REQUIRED_COLS. cbn [app].
    repeat first [by left|right]. }
  split; [apply with_selection_lookup|].
  destruct (rows_with_ok "ticker" (Str (upper (strip ticker))) t Hok) as [Hv Hs].
  split_and!; try done.
  - intros l d. apply with_selection_old.
  - lia.
Qed.

(** X7: [get_trader_transactions] on a cleaned table returns a new frame
    with exactly the rows whose trader is the argument trimmed and
    upper-cased, in the order and with the index labels they have in the
    table; the processor, the log and every object that was there are as
    they were. *)
Theorem get_trader_transactions_rows w t trader_id :
  cleaned_at w t → cleaned_ok t →
  ∃ l' w' sel,
    get_trader_transactions trader_id w = (Ok l', w')
    ∧ heap w' !! l' = Some sel
    ∧ columns sel = columns t
    ∧ rows sel = rows_with "trader_id" (Str (upper (strip trader_id))) t
    ∧ Forall (λ ir, transaction_ok ir.2) (rows sel)
    ∧ StronglySorted (λ a b, cell_leb a b = true) (timestamps sel)
    ∧ self w' = self w ∧ logged w' = logged w
    ∧ (∀ l d, heap w !! l = Some d → heap w' !! l = Some d)
    ∧ (length (heap w) ≤ l')%nat.
Proof.
  intros Hat Hok.
  eexists _, _, (matching "trader_id" trader_id t).
  split.
  { apply get_trader_transactions_run; [done|].
    apply (cleaned_ok_column _ _ Hok). unfold REQUIRED_COLS. cbn [app].
    repeat first [by left|right]. }
  split; [apply with_selection_lookup|].
  destruct (rows_with_ok "trader_id" (Str (upper (strip trader_id))) t Hok)
    as [Hv Hs].
  split_and!; try done.
  - intros l d. apply with_selection_old.
  - lia.
Qed.

(** X8: the two queries do not tell apart arguments that differ in case or
    in blanks around them: upper-casing or trimming the argument beforehand
    changes nothing, in any state. *)
Theorem queries_normalize_argument w k :
  get_transactions_by_ticker (upper k) w = get_transactions_by_ticker k w
  ∧ get_transactions_by_ticker (strip k) w = get_transactions_by_ticker k w
  ∧ get_trader_transactions (upper k) w = get_trader_transactions k w
  ∧ get_trader_transactions (strip k) w = get_trader_transactions k w
  ∧ ∀ k', upper (strip k') = upper (strip k) →
          get_transactions_by_ticker k' w = get_transactions_by_ticker k w
          ∧ get_trader_transactions k' w = get_trader_transactions k w.
Proof.
  unfold get_transactions_by_ticker, get_trader_transactions.
  rewrite strip_upper, upper_idemp, strip_idemp.
  split_and!; try done. by intros k' ->.
Qed.

(** X9: before [clean_data] has set [self.cleaned_df], each of the three
    queries raises the "not cleaned" error and changes nothing; the query
    by time range does so before it looks at its bounds, whether or not
    they parse. *)
Theorem queries_require_cleaned `{Pandas} w k start_date end_date :
  cleaned_df (self w) = None →
  get_transactions_by_ticker k w = (Raise (ValueError DataNotCleaned), w)
  ∧ get_trader_transactions k w = (Raise (ValueError DataNotCleaned), w)
  ∧ get_transactions_by_timerange start_date end_date w
    = (Raise (ValueError DataNotCleaned), w).
Proof.
  intros Hc. split_and!.
  - unfold get_transactions_by_ticker, mbind, M_bind, get_self. by rewrite Hc.
  - unfold get_trader_transactions, mbind, M_bind, get_self. by rewrite Hc.
  - by apply timerange_unset.
Qed.

Section CleanThenQuery.
Context `{Pandas} `{!PandasLaws}.

(** X10: cleaning and asking go together.  For a valid row of the file whose
    ticker is the text [s], the query by [s] as it stands in the file, run
    after [clean_data], returns a frame that holds the cleaned form of that
    row. *)
Theorem query_by_file_text_finds_row w raw i r s :
  loaded w raw → valid_schema raw →
  (i, r) ∈ rows raw → is_Some (valid_record r) →
  cell_at "ticker" r = Str s →
  ∃ l1 w1 l2 w2 sel,
    clean_data w = (Ok l1, w1)
    ∧ get_transactions_by_ticker s w1 = (Ok l2, w2)
    ∧ heap w2 !! l2 = Some sel
    ∧ transaction r ∈ map snd (rows sel).
Proof.
  intros Hl Hs Hin Hv Htk.
  destruct (clean_data_ok w raw Hl Hs) as (hh & Hp & Hrun).
  pose proof (cleaned_is_ok raw Hs) as Hok.
  eexists _, _, _, _, (matching "ticker" s (cleaned raw)).
  split; [exact Hrun|]. split.
  { apply get_transactions_by_ticker_run.
    - exists (length hh). cbn [self cleaned_df heap]. split; [done|].
      by apply list_lookup_middle.
    - apply (cleaned_ok_column _ _ Hok). unfold REQUIRED_COLS. cbn [app].
      repeat first [by left|right]. }
  split; [apply with_selection_lookup|].
  cbn [matching rows]. unfold rows_with.
  assert (passes r = true) as Hpass by (by apply passes_valid).
  pose proof (cleaned_has_transaction raw i r Hin Hpass) as Hmem.
  apply list_elem_of_fmap in Hmem as ([j r'] & Hr' & Hmem). simpl in Hr'. subst r'.
  apply list_elem_of_fmap. exists (j, transaction r). split; [done|].
  apply list_elem_of_In, filter_In. split; [by apply list_elem_of_In|].
  apply bool_decide_eq_true. cbn [snd]. unfold transaction.
  rewrite !derive_other by discriminate. rewrite standardize_ticker, Htk. done.
Qed.

End CleanThenQuery.

(** ** The other aggregates of [calculate_analytics] *)

(** *** Counting *)

Lemma sum_list_perm (l l' : list nat) : l ≡ₚ l' → sum_list l = sum_list l'.
Proof. induction 1; simpl; lia. Qed.

Lemma sum_list_map_plus {A} (f g : A → nat) l :
  sum_list (map (λ x, f x + g x)%nat l)
  = (sum_list (map f l) + sum_list (map g l))%nat.
Proof. induction l as [|a l IH]; simpl; [done|]. rewrite IH. lia. Qed.

Lemma sum_list_map_zero {A} (l : list A) : sum_list (map (λ _, 0%nat) l) = 0%nat.
Proof. induction l as [|a l IH]; simpl; [done|]. by rewrite IH. Qed.

Lemma sum_list_at_key (k0 : cell) ks :
  NoDup ks →
  sum_list (map (λ k, if bool_decide (k0 = k) then 1%nat else 0%nat) ks)
  = if bool_decide (k0 ∈ ks) then 1%nat else 0%nat.
Proof.
  induction 1 as [|k ks Hk _ IH]; simpl; [done|].
  rewrite IH. destruct (decide (k0 = k)) as [->|Hne].
  - rewrite bool_decide_true by done.
    rewrite (bool_decide_false (k ∈ ks)) by done.
    by rewrite bool_decide_true by left.
  - rewrite bool_decide_false by done.
    destruct (decide (k0 ∈ ks)).
    + rewrite !bool_decide_true; [done|by right|done].
    + rewrite !bool_decide_false; [done| |done].
      intros [?|?]%elem_of_cons; done.
Qed.

(** The sizes of the groups add up to the size of the whole, when every
    key is a group label. *)
Lemma count_groups ks (l : list cell) :
  NoDup ks → (∀ x, x ∈ l → x ∈ ks) →
  sum_list (map (λ k, length (List.filter (λ c, bool_decide (c = k)) l)) ks)
  = length l.
Proof.
  intros Hnd. induction l as [|x l IH]; intros Hin.
  - simpl. apply sum_list_map_zero.
  - transitivity
      (sum_list (map (λ k, (if bool_decide (x = k) then 1 else 0)
                           + length (List.filter (λ c, bool_decide (c = k)) l))%nat
                     ks)).
    { f_equal. apply map_ext. intros k. simpl. by case_bool_decide. }
    rewrite sum_list_map_plus, (sum_list_at_key _ _ Hnd), IH.
    + rewrite bool_decide_true by (apply Hin; left). done.
    + intros y Hy. apply Hin. by right.
Qed.

Lemma filter_present (l : Series) :
  Forall (λ k, isna k = false) l → List.filter (λ c, negb (isna c)) l = l.
Proof.
  induction 1 as [|c l Hc _ IH]; simpl; [done|]. by rewrite Hc, IH.
Qed.

Lemma count_rows_groups (f : nat * Row → cell) (l : list (nat * Row)) :
  Forall (λ k, isna k = false) (map f l) →
  sum_list (map (λ k, length (List.filter (λ x, bool_decide (f x = k)) l))
                (remove_dups (List.filter (λ c, negb (isna c)) (map f l))))
  = length l.
Proof.
  intros Hp. rewrite (filter_present _ Hp).
  rewrite <- (length_map f l).
  rewrite <- (count_groups (remove_dups (map f l)) (map f l)).
  - f_equal. apply map_ext. intros k.
    by rewrite filter_map_comm, length_map.
  - apply NoDup_remove_dups.
  - intros x. by rewrite elem_of_remove_dups.
Qed.

Lemma StronglySorted_weaken {A} (R R' : relation A) l :
  (∀ x y, R x y → R' x y) → StronglySorted R l → StronglySorted R' l.
Proof.
  intros HR. induction 1 as [|a l _ IH Ha]; constructor; [done|].
  eapply Forall_impl; [exact Ha|]. intros y. apply HR.
Qed.

(** *** Labelled series *)

Lemma labelled_elem {V} (f : cell → V) ks l k v :
  l ≡ₚ map (λ k, (k, f k)) ks → (k, v) ∈ l ↔ k ∈ ks ∧ v = f k.
Proof.
  intros ->. rewrite list_elem_of_fmap. split.
  - intros (k' & [= -> ->] & Hk). done.
  - intros [Hk ->]. by exists k.
Qed.

Lemma labelled_keys {V} (f : cell → V) ks l :
  l ≡ₚ map (λ k, (k, f k)) ks → map fst l ≡ₚ ks.
Proof. intros ->. rewrite map_map. simpl. by rewrite map_id. Qed.

Section Aggregates.
Context `{Pandas} `{!PandasLaws}.

Lemma group_keys_NoDup keys : NoDup (group_keys keys).
Proof. rewrite group_keys_perm. apply NoDup_remove_dups. Qed.

(** The other aggregates, when [aggregate] returns. *)
Lemma aggregate_other_fields d a :
  aggregate d = Ok a →
  trader_activity a
  = sort_by (λ x y, Nat.leb y.2.1 x.2.1)
      (groupby_count_sum (column "trader_id" d) (column "timestamp" d)
                         (column "total_value" d))
  ∧ daily_volume a
    = sort_index (groupby_sum (column "date" d) (column "total_value" d))
  ∧ action_counts a = value_counts (column "action" d)
  ∧ unique_tickers a = nunique (column "ticker" d)
  ∧ unique_traders a = nunique (column "trader_id" d)
  ∧ date_range a
    = (series_min (column "timestamp" d), series_max (column "timestamp" d)).
Proof.
  unfold aggregate. intros Ha.
  repeat match type of Ha with
  | _ ≫= _ = Ok _ =>
    let s := fresh "s" in let Hs := fresh "Hs" in
    apply bind_Ok in Ha as (s & Hs & Ha);
    apply getitem_Ok in Hs as [-> _]
  end.
  injection Ha as <-. done.
Qed.

(** The columns of a cleaned table hold no missing value. *)
Lemma cleaned_ok_present c t :
  cleaned_ok t → c ∈ REQUIRED_COLS ++ ["total_value"; "date"] →
  Forall (λ k, isna k = false) (column c t).
Proof.
  intros (_ & Hrows & _) Hc. unfold column. apply Forall_fmap.
  eapply Forall_impl; [exact Hrows|].
  intros ir ((ts & Hts & Hd) & (tk & Htk & _) & (tr & Htr & _) & Hact
             & q & p & Hq & Hp & _ & _ & Htv).
  simpl. unfold REQUIRED_COLS in Hc. cbn [app] in Hc.
  repeat (apply elem_of_cons in Hc as [->|Hc];
          [solve [rewrite ?Hts, ?Htk, ?Hq, ?Hp, ?Htr, ?Htv, ?Hd;
                  first [done|destruct Hact as [Ha|Ha]; by rewrite Ha]]|]).
  by apply elem_of_nil in Hc.
Qed.

Lemma calculate_analytics_ok w t :
  cleaned_at w t → cleaned_ok t →
  ∃ a, aggregate t = Ok a ∧ calculate_analytics w = (Ok a, with_analytics w a).
Proof.
  intros Hat Hok. rewrite (calculate_analytics_some _ _ Hat).
  destruct (aggregate_Ok t (proj1 Hok)) as [a Ha]. rewrite Ha. by exists a.
Qed.

End Aggregates.

Section Series.
Context `{Pandas} `{!PandasLaws}.

Lemma group_rows c c' k t :
  group k (column c t) (column c' t)
  = map (λ ir, cell_at c' ir.2) (rows_with c k t).
Proof. unfold column, rows_with. apply group_columns. Qed.

Lemma elem_of_present_keys k (keys : Series) :
  Forall (λ c, isna c = false) keys →
  k ∈ remove_dups (List.filter (λ c, negb (isna c)) keys) ↔ k ∈ keys.
Proof. intros Hp. by rewrite (filter_present _ Hp), elem_of_remove_dups. Qed.

Lemma elem_of_group_keys_present k (keys : Series) :
  Forall (λ c, isna c = false) keys → k ∈ group_keys keys ↔ k ∈ keys.
Proof.
  intros Hp. rewrite elem_of_group_keys. rewrite Forall_forall in Hp.
  split; [by intros [? _]|]. intros Hk. split; [done|by apply Hp].
Qed.

(** A sorted [groupby(c)["total_value"].sum()] of a cleaned table: one
    entry for each value of the column, the sum over its rows. *)
Lemma groupby_value_sum (leb : cell * Q → cell * Q → bool) c t :
  Forall (λ k, isna k = false) (column c t) →
  let s := sort_by leb (groupby_sum (column c t) (column "total_value" t)) in
  (∀ k v, (k, v) ∈ s ↔ k ∈ column c t ∧ v = value_sum c k t)
  ∧ NoDup (map fst s)
  ∧ (Qsum (map snd s) == series_sum (column "total_value" t))%Q.
Proof.
  intros Hp s.
  assert (s ≡ₚ map (λ k, (k, value_sum c k t)) (group_keys (column c t))) as Hs.
  { unfold s. rewrite sort_by_perm. unfold groupby_sum.
    erewrite map_ext; [done|]. intros k. cbn beta.
    by rewrite group_rows. }
  split_and!.
  - intros k v.
    by rewrite (labelled_elem _ _ _ _ _ Hs), (elem_of_group_keys_present _ _ Hp).
  - rewrite (labelled_keys _ _ _ Hs). apply group_keys_NoDup.
  - unfold s. rewrite (Qsum_perm _ _ (Permutation_map snd (sort_by_perm _ _))).
    apply groupby_sum_total; [|done]. unfold column. by rewrite !length_map.
Qed.

Lemma Qle_bool_total (x y : Q) : Qle_bool y x = true ∨ Qle_bool x y = true.
Proof.
  destruct (Qlt_le_dec x y) as [Hlt|Hle].
  - right. apply Qle_bool_iff. by apply Qlt_le_weak.
  - left. by apply Qle_bool_iff.
Qed.

Lemma sort_values_desc_sorted (s : list (cell * Q)) :
  StronglySorted (λ x y, (y.2 <= x.2)%Q) (sort_values_desc s).
Proof.
  unfold sort_values_desc.
  eapply StronglySorted_weaken; [|apply sort_by_sorted].
  - intros x y. cbn beta. apply Qle_bool_iff.
  - intros x y. apply Qle_bool_total.
  - intros x y z. rewrite !Qle_bool_iff. intros ? ?. by eapply Qle_trans.
Qed.

Lemma sort_by_count_sorted {V} (f : V → nat) (s : list V) :
  StronglySorted (λ x y, (f y ≤ f x)%nat)
                 (sort_by (λ x y, Nat.leb (f y) (f x)) s).
Proof.
  eapply StronglySorted_weaken; [|apply sort_by_sorted].
  - intros x y. cbn beta. apply Nat.leb_le.
  - intros x y. rewrite !Nat.leb_le. lia.
  - intros x y z. rewrite !Nat.leb_le. lia.
Qed.

(** X11: [action_counts] on a cleaned table.  The counts add up to
    [total_transactions]; there is one entry for each action that occurs,
    BUY or SELL, with the number of its rows; the entries are in descending
    order of the count. *)
Theorem action_counts_add_up w t :
  cleaned_at w t → cleaned_ok t →
  ∃ a w',
    calculate_analytics w = (Ok a, w')
    ∧ sum_list (map snd (action_counts a)) = total_transactions a
    ∧ (∀ k n, (k, n) ∈ action_counts a
              ↔ k ∈ column "action" t ∧ n = length (rows_with "action" k t))
    ∧ (∀ k, k ∈ map fst (action_counts a) → k = Str "BUY" ∨ k = Str "SELL")
    ∧ NoDup (map fst (action_counts a))
    ∧ StronglySorted (λ x y, (y.2 ≤ x.2)%nat) (action_counts a).
Proof.
  intros Hat Hok. destruct (calculate_analytics_ok w t Hat Hok) as (a & Ha & Hrun).
  exists a, (with_analytics w a). split; [exact Hrun|].
  destruct (aggregate_other_fields _ _ Ha) as (_ & _ & -> & _).
  destruct (aggregate_fields _ _ Ha) as (-> & _).
  assert (Forall (λ k, isna k = false) (column "action" t)) as Hp.
  { apply cleaned_ok_present; [done|]. unfold REQUIRED_COLS. cbn [app].
    repeat first [by left|right]. }
  set (ks := remove_dups (List.filter (λ c, negb (isna c)) (column "action" t))).
  assert (value_counts (column "action" t)
          ≡ₚ map (λ k, (k, length (rows_with "action" k t))) ks) as Hs.
  { unfold value_counts. rewrite sort_by_perm. fold ks.
    erewrite map_ext; [done|]. intros k. cbn beta. unfold column, rows_with.
    by rewrite filter_map_comm, length_map. }
  assert (∀ k, k ∈ ks ↔ k ∈ column "action" t) as Hks.
  { intros k. by apply elem_of_present_keys. }
  split_and!.
  - rewrite (sum_list_perm _ _ (Permutation_map snd Hs)), map_map. cbn [snd].
    unfold rows_with, len. apply (count_rows_groups (λ ir, cell_at "action" ir.2)).
    exact Hp.
  - intros k n. by rewrite (labelled_elem _ _ _ _ _ Hs), Hks.
  - intros k. rewrite (labelled_keys _ _ _ Hs), Hks. unfold column.
    intros ([i r] & -> & Hin)%list_elem_of_fmap.
    destruct Hok as (_ & Hrows & _). rewrite Forall_forall in Hrows.
    by destruct (Hrows _ Hin) as (_ & _ & _ & Hact & _).
  - rewrite (labelled_keys _ _ _ Hs). apply NoDup_remove_dups.
  - unfold value_counts. apply (sort_by_count_sorted snd).
Qed.

(** [trader_activity] before it is sorted: for each trader, the number of
    rows and the sum of their [total_value]. *)
Lemma trader_activity_perm (leb : _ → _ → bool) t :
  cleaned_ok t →
  sort_by leb (groupby_count_sum (column "trader_id" t) (column "timestamp" t)
                                 (column "total_value" t))
  ≡ₚ map (λ k, (k, (length (rows_with "trader_id" k t),
                    value_sum "trader_id" k t)))
         (group_keys (column "trader_id" t)).
Proof.
  intros Hok.
  assert (Forall (λ k, isna k = false) (column "timestamp" t)) as Hts.
  { apply cleaned_ok_present; [done|]. unfold REQUIRED_COLS. cbn [app].
    repeat first [by left|right]. }
  rewrite sort_by_perm. unfold groupby_count_sum.
  erewrite map_ext; [done|]. intros k. cbn beta.
  rewrite !group_rows. do 2 f_equal.
  rewrite filter_present, length_map; [done|].
  apply Forall_fmap, Forall_forall. intros ir Hin.
  unfold column in Hts. rewrite Forall_fmap, Forall_forall in Hts.
  apply Hts. apply list_elem_of_In, filter_In in Hin as [Hin _].
  by apply list_elem_of_In.
Qed.


(** X13: [daily_volume] on a cleaned table.  There is one entry for each
    calendar date that occurs, the sum of [total_value] over the rows of
    that date; the entries are in ascending order of the date and add up
    to [total_volume]. *)
Theorem daily_volume_totals w t :
  cleaned_at w t → cleaned_ok t →
  ∃ a w',
    calculate_analytics w = (Ok a, w')
    ∧ (Qsum (map snd (daily_volume a)) == total_volume a)%Q
    ∧ (∀ k v, (k, v) ∈ daily_volume a
              ↔ k ∈ column "date" t ∧ v = value_sum "date" k t)
    ∧ (∀ k, k ∈ map fst (daily_volume a) → ∃ d, k = Date d)
    ∧ NoDup (map fst (daily_volume a))
    ∧ StronglySorted (λ x y, cell_leb x y = true) (map fst (daily_volume a)).
Proof.
  intros Hat Hok. destruct (calculate_analytics_ok w t Hat Hok) as (a & Ha & Hrun).
  exists a, (with_analytics w a). split; [exact Hrun|].
  destruct (aggregate_other_fields _ _ Ha) as (_ & -> & _).
  destruct (aggregate_fields _ _ Ha) as (_ & -> & _).
  assert (Forall (λ k, isna k = false) (column "date" t)) as Hp.
  { apply cleaned_ok_present; [done|]. unfold REQUIRED_COLS. cbn [app].
    repeat first [by left|right]. }
  unfold sort_index.
  destruct (groupby_value_sum (λ x y, cell_leb x.1 y.1) "date" t Hp)
    as (Helem & Hnd & Hsum).
  split_and!; try done.
  - intros k ((k' & v) & -> & Hin)%list_elem_of_fmap. simpl.
    apply Helem in Hin as [Hin _]. unfold column in Hin.
    apply list_elem_of_fmap in Hin as ([i r] & -> & Hin).
    destruct Hok as (_ & Hrows & _). rewrite Forall_forall in Hrows.
    destruct (Hrows _ Hin) as ((ts & _ & Hd) & _). simpl in *. eauto.
  - apply (StronglySorted_fmap fst (λ x y, cell_leb x.1 y.1 = true)); [done|].
    apply sort_by_sorted.
    + intros x y. apply cell_leb_total.
    + intros x y z. apply cell_leb_trans.
Qed.

End Series.

Lemma length_remove_dups_le (l : Series) :
  (length (remove_dups l) ≤ length l)%nat.
Proof.
  induction l as [|x l IH]; simpl; [done|].
  destruct (decide_rel elem_of x l); simpl; lia.
Qed.

Section PerTicker.
Context `{Pandas} `{!PandasLaws}.

(** X14: [volume_by_ticker] on a cleaned table has one entry for each
    ticker, the sum of [total_value] over the rows of that ticker, in
    descending order of the sum; [unique_tickers] is the number of its
    entries and [unique_traders] that of [trader_activity], neither above
    the number of rows. *)
Theorem volume_by_ticker_order w t :
  cleaned_at w t → cleaned_ok t →
  ∃ a w',
    calculate_analytics w = (Ok a, w')
    ∧ (∀ k v, (k, v) ∈ volume_by_ticker a
              ↔ k ∈ column "ticker" t ∧ v = value_sum "ticker" k t)
    ∧ NoDup (map fst (volume_by_ticker a))
    ∧ StronglySorted (λ x y, (y.2 <= x.2)%Q) (volume_by_ticker a)
    ∧ length (volume_by_ticker a) = unique_tickers a
    ∧ length (trader_activity a) = unique_traders a
    ∧ (unique_tickers a ≤ total_transactions a)%nat
    ∧ (unique_traders a ≤ total_transactions a)%nat.
Proof.
  intros Hat Hok. destruct (calculate_analytics_ok w t Hat Hok) as (a & Ha & Hrun).
  exists a, (with_analytics w a). split; [exact Hrun|].
  destruct (aggregate_other_fields _ _ Ha) as (-> & _ & _ & -> & -> & _).
  destruct (aggregate_fields _ _ Ha) as (-> & _ & -> & _).
  assert (Forall (λ k, isna k = false) (column "ticker" t)) as Hp.
  { apply cleaned_ok_present; [done|]. unfold REQUIRED_COLS. cbn [app].
    repeat first [by left|right]. }
  unfold sort_values_desc.
  destruct (groupby_value_sum (λ x y, Qle_bool y.2 x.2) "ticker" t Hp)
    as (Helem & Hnd & _).
  split_and!; try done.
  - apply sort_values_desc_sorted.
  - rewrite (Permutation_length (sort_by_perm _ _)).
    unfold groupby_sum, nunique. rewrite length_map.
    by rewrite (Permutation_length (group_keys_perm _)).
  - rewrite (Permutation_length (sort_by_perm _ _)).
    unfold groupby_count_sum, nunique. rewrite length_map.
    by rewrite (Permutation_length (group_keys_perm _)).
  - unfold nunique, len, column.
    etrans; [apply length_remove_dups_le|].
    etrans; [apply filter_length_le|]. by rewrite length_map.
  - unfold nunique, len, column.
    etrans; [apply length_remove_dups_le|].
    etrans; [apply filter_length_le|]. by rewrite length_map.
Qed.

Lemma elem_of_column_with_action k a t :
  k ∈ column "ticker" (with_action a t)
  ↔ ∃ ir, ir ∈ rows t ∧ cell_at "action" ir.2 = Str a ∧ cell_at "ticker" ir.2 = k.
Proof.
  unfold column, with_action. cbn [rows]. rewrite list_elem_of_fmap. split.
  - intros (ir & -> & Hin). apply list_elem_of_In, filter_In in Hin as [Hin Ha].
    exists ir. split; [by apply list_elem_of_In|].
    by apply bool_decide_eq_true in Ha.
  - intros (ir & Hin & Ha & <-). exists ir. split; [done|].
    apply list_elem_of_In, filter_In. split; [by apply list_elem_of_In|].
    by apply bool_decide_eq_true.
Qed.

(** X15: [net_position] on a cleaned table has exactly one entry for each
    ticker of the table and none for any other label, in descending order
    of the net position. *)
Theorem net_position_labels w t :
  cleaned_at w t → cleaned_ok t →
  ∃ a w',
    calculate_analytics w = (Ok a, w')
    ∧ (∀ k, k ∈ map fst (net_position a) ↔ k ∈ column "ticker" t)
    ∧ NoDup (map fst (net_position a))
    ∧ length (net_position a) = unique_tickers a
    ∧ StronglySorted (λ x y, (y.2 <= x.2)%Q) (net_position a).
Proof.
  intros Hat Hok. destruct (calculate_analytics_ok w t Hat Hok) as (a & Ha & Hrun).
  exists a, (with_analytics w a). split; [exact Hrun|].
  destruct (aggregate_other_fields _ _ Ha) as (_ & _ & _ & -> & _).
  destruct (aggregate_fields _ _ Ha) as (_ & _ & _ & ->).
  assert (Forall (λ k, isna k = false) (column "ticker" t)) as Hp.
  { apply cleaned_ok_present; [done|]. unfold REQUIRED_COLS. cbn [app].
    repeat first [by left|right]. }
  set (buys := groupby_sum (column "ticker" (with_action "BUY" t)) _).
  set (sells := groupby_sum (column "ticker" (with_action "SELL" t)) _).
  set (keys := remove_dups (map fst buys ++ map fst sells)).
  assert (∀ k, k ∈ keys ↔ k ∈ column "ticker" t) as Hkeys.
  { intros k. unfold keys, buys, sells, groupby_sum.
    rewrite elem_of_remove_dups, elem_of_app, !map_map. cbn [fst].
    rewrite !map_id, !elem_of_group_keys, !elem_of_column_with_action.
    destruct Hok as (_ & Hrows & _). rewrite Forall_forall in Hrows.
    rewrite Forall_forall in Hp. split.
    - intros [[(ir & Hin & _ & <-) _]|[(ir & Hin & _ & <-) _]];
        apply list_elem_of_fmap; by exists ir.
    - intros Hk. pose proof (Hp _ Hk) as Hna.
      apply list_elem_of_fmap in Hk as (ir & -> & Hin).
      destruct (Hrows _ Hin) as (_ & _ & _ & [Hact|Hact] & _);
        [left|right]; (split; [by exists ir|done]). }
  assert (NoDup keys) as Hnd by apply NoDup_remove_dups.
  assert (sort_values_desc (sub_fill 0 buys sells)
          ≡ₚ map (λ k, (k, (default 0 (loc_get k buys)
                            - default 0 (loc_get k sells))%Q)) keys) as Hs.
  { unfold sort_values_desc, sub_fill. rewrite sort_by_perm.
    apply Permutation_map, sort_by_perm. }
  split_and!.
  - intros k. by rewrite (labelled_keys _ _ _ Hs).
  - by rewrite (labelled_keys _ _ _ Hs).
  - rewrite (Permutation_length Hs), length_map. unfold nunique.
    apply Permutation_length, NoDup_Permutation; [done|apply NoDup_remove_dups|].
    intros k. by rewrite Hkeys, elem_of_present_keys.
  - apply sort_values_desc_sorted.
Qed.

End PerTicker.

(** *** The first and the last timestamp *)

Lemma series_min_datetimes (l : list Timestamp) :
  l ≠ [] →
  ∃ lo, series_min (map Datetime l) = Datetime lo ∧ lo ∈ l ∧ ∀ x, x ∈ l → lo ≤ x.
Proof.
  induction l as [|x l IH]; [done|]. intros _. cbn [map series_min fold_right].
  destruct l as [|y l].
  - exists x. simpl. split; [done|]. split; [by left|].
    intros z Hz. apply list_elem_of_singleton in Hz. lia.
  - destruct IH as (lo & Hlo & Hin & Hle); [done|].
    fold (series_min (map Datetime (y :: l))). rewrite Hlo.
    unfold cell_min. cbn [isna cell_leb].
    destruct (x <=? lo) eqn:Hx.
    + apply Z.leb_le in Hx. exists x. split; [done|]. split; [by left|].
      intros z [->|Hz]%elem_of_cons; [lia|]. specialize (Hle z Hz). lia.
    + apply Z.leb_gt in Hx. exists lo. split; [done|]. split; [by right|].
      intros z [->|Hz]%elem_of_cons; [lia|]. by apply Hle.
Qed.

Lemma series_max_datetimes (l : list Timestamp) :
  l ≠ [] →
  ∃ hi, series_max (map Datetime l) = Datetime hi ∧ hi ∈ l ∧ ∀ x, x ∈ l → x ≤ hi.
Proof.
  induction l as [|x l IH]; [done|]. intros _. cbn [map series_max fold_right].
  destruct l as [|y l].
  - exists x. simpl. split; [done|]. split; [by left|].
    intros z Hz. apply list_elem_of_singleton in Hz. lia.
  - destruct IH as (hi & Hhi & Hin & Hle); [done|].
    fold (series_max (map Datetime (y :: l))). rewrite Hhi.
    unfold cell_max. cbn [isna cell_leb].
    destruct (x <=? hi) eqn:Hx.
    + apply Z.leb_le in Hx. exists hi. split; [done|]. split; [by right|].
      intros z [->|Hz]%elem_of_cons; [lia|]. by apply Hle.
    + apply Z.leb_gt in Hx. exists x. split; [done|]. split; [by left|].
      intros z [->|Hz]%elem_of_cons; [lia|]. specialize (Hle z Hz). lia.
Qed.

Lemma series_min_sorted (l : list Timestamp) :
  StronglySorted Z.le l →
  series_min (map Datetime l) = default NaN (head (map Datetime l)).
Proof.
  destruct l as [|x l]; [done|]. intros [_ Hx]%StronglySorted_inv.
  cbn [map series_min fold_right head default from_option id].
  fold (series_min (map Datetime l)).
  destruct l as [|y l]; [done|].
  destruct (series_min_datetimes (y :: l)) as (lo & -> & Hin & _); [done|].
  rewrite Forall_forall in Hx. specialize (Hx lo Hin).
  unfold cell_min. cbn [isna cell_leb]. by rewrite (proj2 (Z.leb_le _ _) Hx).
Qed.

Lemma series_max_sorted (l : list Timestamp) :
  StronglySorted Z.le l →
  series_max (map Datetime l) = default NaN (last (map Datetime l)).
Proof.
  induction l as [|x l IH]; [done|]. intros [Hs Hx]%StronglySorted_inv.
  destruct l as [|y l]; [done|]. specialize (IH Hs).
  destruct (series_max_datetimes (y :: l)) as (hi & Hhi & Hin & _); [done|].
  change (series_max (map Datetime (x :: y :: l)))
    with (cell_max (Datetime x) (series_max (map Datetime (y :: l)))).
  change (map Datetime (x :: y :: l))
    with (Datetime x :: Datetime y :: map Datetime l).
  rewrite last_cons_cons.
  change (Datetime y :: map Datetime l) with (map Datetime (y :: l)).
  rewrite <- IH, Hhi.
  rewrite Forall_forall in Hx. specialize (Hx hi Hin).
  unfold cell_max. cbn [isna cell_leb]. by rewrite (proj2 (Z.leb_le _ _) Hx).
Qed.

Lemma StronglySorted_map_inv {A B} (R : relation B) (f : A → B) l :
  StronglySorted R (map f l) → StronglySorted (λ x y, R (f x) (f y)) l.
Proof.
  induction l as [|a l IH]; simpl; [constructor|].
  intros [Hs Ha]%StronglySorted_inv. constructor; [by apply IH|].
  by rewrite Forall_fmap in Ha.
Qed.

(** The timestamp column of a cleaned table. *)
Lemma cleaned_ok_timestamps t :
  cleaned_ok t →
  ∃ ts, timestamps t = map Datetime ts ∧ StronglySorted Z.le ts.
Proof.
  intros (_ & Hrows & Hsorted & _).
  assert (∃ ts, timestamps t = map Datetime ts) as [ts Hts].
  { unfold timestamps. induction Hrows as [|ir l ((ts & Hts & _) & _) _ [tl IH]].
    - by exists [].
    - exists (ts :: tl). simpl. by rewrite Hts, IH. }
  exists ts. split; [done|]. rewrite Hts in Hsorted.
  apply StronglySorted_map_inv in Hsorted.
  eapply StronglySorted_weaken; [|exact Hsorted].
  intros x y. cbn. apply Z.leb_le.
Qed.

Section DateRange.
Context `{Pandas} `{!PandasLaws}.

(** X16: [date_range] on a cleaned table is the timestamp of its first row
    and that of its last row, the two missing values when the table is
    empty; every timestamp of the table lies between the two. *)
Theorem date_range_spans_table w t :
  cleaned_at w t → cleaned_ok t →
  ∃ a w',
    calculate_analytics w = (Ok a, w')
    ∧ date_range a = (default NaN (head (timestamps t)),
                      default NaN (last (timestamps t)))
    ∧ (rows t = [] → date_range a = (NaN, NaN))
    ∧ (rows t ≠ [] →
       ∃ lo hi, date_range a = (Datetime lo, Datetime hi)
         ∧ ∀ ir ts, ir ∈ rows t → cell_at "timestamp" ir.2 = Datetime ts →
                    lo ≤ ts ≤ hi).
Proof.
  intros Hat Hok. destruct (calculate_analytics_ok w t Hat Hok) as (a & Ha & Hrun).
  exists a, (with_analytics w a). split; [exact Hrun|].
  destruct (aggregate_other_fields _ _ Ha) as (_ & _ & _ & _ & _ & ->).
  destruct (cleaned_ok_timestamps t Hok) as (ts & Hts & Hsorted).
  change (column "timestamp" t) with (timestamps t). rewrite Hts.
  split_and!.
  - by rewrite series_min_sorted, series_max_sorted.
  - intros Hnil. unfold timestamps in Hts. rewrite Hnil in Hts.
    symmetry in Hts. apply fmap_nil_inv in Hts. by subst ts.
  - intros Hne. assert (ts ≠ []) as Hne'.
    { intros ->. unfold timestamps in Hts. apply fmap_nil_inv in Hts. done. }
    destruct (series_min_datetimes ts Hne') as (lo & -> & _ & Hlo).
    destruct (series_max_datetimes ts Hne') as (hi & -> & _ & Hhi).
    exists lo, hi. split; [done|]. intros ir x Hin Hx.
    assert (Datetime x ∈ timestamps t) as Hmem.
    { unfold timestamps. apply list_elem_of_fmap. by exists ir. }
    rewrite Hts in Hmem. apply list_elem_of_fmap in Hmem as (y & [= ->] & Hy).
    split; [by apply Hlo|by apply Hhi].
Qed.

End DateRange.

(** *** Calling it again *)

Lemma calculate_analytics_run `{Pandas} w l :
  cleaned_df (self w) = Some l →
  calculate_analytics w
  = match aggregate (frame_at w l) with
    | Ok a => (Ok a, with_analytics w a)
    | Raise e => (Raise e, w)
    end.
Proof.
  intros Hc.
  unfold calculate_analytics, mbind, M_bind, get_self, deref, lift, frame_at.
  rewrite Hc. by destruct (aggregate _).
Qed.

(** X17: [calculate_analytics] reads the cleaned table and writes only
    [self.analytics] and the log: the frames, [self.df] and
    [self.cleaned_df] are as they were, a call that raises changes nothing
    at all, and a second call gives what the first gave. *)
Theorem calculate_analytics_repeatable `{Pandas} w :
  heap (calculate_analytics w).2 = heap w
  ∧ files (calculate_analytics w).2 = files w
  ∧ df (self (calculate_analytics w).2) = df (self w)
  ∧ cleaned_df (self (calculate_analytics w).2) = cleaned_df (self w)
  ∧ (∀ e, (calculate_analytics w).1 = Raise e → (calculate_analytics w).2 = w)
  ∧ (calculate_analytics (calculate_analytics w).2).1 = (calculate_analytics w).1.
Proof.
  destruct (cleaned_df (self w)) as [l|] eqn:Hc.
  2: { rewrite (calculate_analytics_none w Hc). cbn [fst snd].
       by rewrite (calculate_analytics_none w Hc). }
  rewrite (calculate_analytics_run w l Hc).
  destruct (aggregate (frame_at w l)) as [a|e] eqn:Ha; cbn [fst snd].
  - split_and!; try done.
    rewrite (calculate_analytics_run (with_analytics w a) l) by done.
    change (frame_at (with_analytics w a) l) with (frame_at w l).
    by rewrite Ha.
  - split_and!; try done.
    by rewrite (calculate_analytics_run w l Hc), Ha.
Qed.

(** ** The sums are above zero *)

Section Positive.
Context `{Pandas} `{!PandasLaws}.

Lemma cleaned_ok_total_value t l :
  cleaned_ok t → (∀ ir, ir ∈ l → ir ∈ rows t) →
  Forall (λ c, ∃ q, c = Num q ∧ (0 < q)%Q)
         (map (λ ir : nat * Row, cell_at "total_value" ir.2) l).
Proof.
  intros (_ & Hrows & _) Hsub. rewrite Forall_forall in Hrows.
  apply Forall_fmap, Forall_forall. intros ir Hin.
  destruct (Hrows _ (Hsub _ Hin))
    as (_ & _ & _ & _ & q & p & _ & _ & Hq & Hp & Htv).
  exists (q * p)%Q. split; [done|]. by apply Qmult_lt_0_compat.
Qed.

Lemma value_sum_pos c k t :
  cleaned_ok t → k ∈ column c t → (0 < value_sum c k t)%Q.
Proof.
  intros Hok Hk. unfold value_sum. apply series_sum_pos.
  - unfold column in Hk. apply list_elem_of_fmap in Hk as (ir & -> & Hin).
    intros Hnil. apply fmap_nil_inv in Hnil.
    assert (ir ∈ rows_with c (cell_at c ir.2) t) as Hmem.
    { unfold rows_with. apply list_elem_of_In, filter_In.
      split; [by apply list_elem_of_In|]. by apply bool_decide_eq_true. }
    rewrite Hnil in Hmem. by apply elem_of_nil in Hmem.
  - apply (cleaned_ok_total_value t); [done|]. intros ir Hin. unfold rows_with in Hin.
    apply list_elem_of_In, filter_In in Hin as [Hin _]. by apply list_elem_of_In.
Qed.


End Positive.

(** ** [get_summary_stats] *)

Section SummaryStats.
Context `{Pandas} `{!PandasLaws} `{Formatting}.

Lemma get_summary_stats_cached w a :
  analytics (self w) = Some a → get_summary_stats w = (Ok (summarize a), w).
Proof.
  intros Ha. unfold get_summary_stats.
  rewrite (bind_run_Ok get_self _ w (self w) w) by done. rewrite Ha.
  rewrite (bind_run_Ok (mret tt) _ w tt w) by done.
  rewrite (bind_run_Ok get_self _ w (self w) w) by done. by rewrite Ha.
Qed.

Lemma get_summary_stats_fresh w :
  analytics (self w) = None →
  get_summary_stats w
  = match calculate_analytics w with
    | (Ok _, w') =>
      (match analytics (self w') with
       | Some a => Ok (summarize a)
       | None => Raise (KeyError "total_transactions")
       end, w')
    | (Raise e, w') => (Raise e, w')
    end.
Proof.
  intros Ha. unfold get_summary_stats.
  rewrite (bind_run_Ok get_self _ w (self w) w) by done. rewrite Ha.
  destruct (calculate_analytics w) as [[a|e] w'] eqn:Hrun.
  - rewrite (bind_run_Ok (calculate_analytics;; mret tt) _ w tt w')
      by (by rewrite (bind_run_Ok _ _ _ _ _ Hrun)).
    rewrite (bind_run_Ok get_self _ w' (self w') w') by done.
    by destruct (analytics (self w')).
  - rewrite (bind_run_Raise (calculate_analytics;; mret tt) _ w e w'); [done|].
    by rewrite (bind_run_Raise _ _ _ _ _ Hrun).
Qed.

Lemma clean_data_analytics w :
  analytics (self (clean_data w).2) = analytics (self w).
Proof.
  destruct (wp_run _ _ _ _ (clean_data_spec w))
    as [(l' & w' & Hrun & Hpost)|(e & w' & Hrun & Hexc)]; rewrite Hrun; simpl.
  - destruct Hpost as (l0 & hh & _ & _ & _ & _ & _ & _ & Hself & _).
    by rewrite Hself.
  - destruct Hexc as (_ & _ & Hs & _). by rewrite Hs.
Qed.

Lemma load_data_analytics w :
  analytics (self (load_data w).2) = analytics (self w).
Proof.
  destruct (files w !! csv_path (self w)) as [d|] eqn:Hf.
  - by rewrite (load_data_read w d Hf).
  - by rewrite (load_data_no_file w Hf).
Qed.

(** X19: once analytics are stored, [get_summary_stats] does not calculate
    again: it returns the summary of what is stored and changes nothing.
    Neither [load_data] nor [clean_data] touches [self.analytics], so after
    either has replaced its table the summary is still the one of the
    analytics stored before. *)
Theorem get_summary_stats_keeps_cache w a :
  analytics (self w) = Some a →
  get_summary_stats w = (Ok (summarize a), w)
  ∧ get_summary_stats (clean_data w).2 = (Ok (summarize a), (clean_data w).2)
  ∧ get_summary_stats (load_data w).2 = (Ok (summarize a), (load_data w).2).
Proof.
  intros Ha. split_and!.
  - by apply get_summary_stats_cached.
  - apply get_summary_stats_cached. by rewrite clean_data_analytics.
  - apply get_summary_stats_cached. by rewrite load_data_analytics.
Qed.

Lemma head_sorted_max {A} (R : relation A) x l y :
  StronglySorted R (x :: l) → (∀ z, R z z) → y ∈ x :: l → R x y.
Proof.
  intros [_ Hx]%StronglySorted_inv Hrefl [->|Hy]%elem_of_cons; [done|].
  rewrite Forall_forall in Hx. by apply Hx.
Qed.

Lemma cleaned_ok_text c t k :
  cleaned_ok t → c = "ticker" ∨ c = "trader_id" →
  k ∈ column c t → ∃ s, k = Str s.
Proof.
  intros (_ & Hrows & _) Hc Hk. unfold column in Hk.
  apply list_elem_of_fmap in Hk as (ir & -> & Hin).
  rewrite Forall_forall in Hrows.
  destruct (Hrows _ Hin) as (_ & (tk & Htk & _) & (tr & Htr & _) & _).
  destruct Hc as [-> | ->]; eauto.
Qed.

(** X20: with nothing stored, [get_summary_stats] on a cleaned table
    calculates the analytics, stores them and summarizes them.  On an empty
    table the top ticker and the most active trader are "N/A"; otherwise
    the top ticker is a ticker of the table whose summed [total_value] no
    other ticker exceeds, and the most active trader a trader of the table
    with no fewer rows than any other. *)
Theorem get_summary_stats_top w t :
  cleaned_at w t → cleaned_ok t → analytics (self w) = None →
  ∃ s a,
    get_summary_stats w = (Ok s, with_analytics w a)
    ∧ s = summarize a
    ∧ Summary.total_transactions s = len t
    ∧ (rows t = [] →
       Summary.top_ticker_by_volume s = "N/A"
       ∧ Summary.most_active_trader s = "N/A")
    ∧ (rows t ≠ [] →
       Str (Summary.top_ticker_by_volume s) ∈ column "ticker" t
       ∧ (∀ k, k ∈ column "ticker" t →
               (value_sum "ticker" k t
                <= value_sum "ticker" (Str (Summary.top_ticker_by_volume s)) t)%Q)
       ∧ Str (Summary.most_active_trader s) ∈ column "trader_id" t
       ∧ (∀ k, k ∈ column "trader_id" t →
               (length (rows_with "trader_id" k t)
                ≤ length (rows_with "trader_id"
                            (Str (Summary.most_active_trader s)) t))%nat)).
Proof.
  intros Hat Hok Hnone.
  destruct (calculate_analytics_ok w t Hat Hok) as (a & Ha & Hrun).
  exists (summarize a), a.
  split. { rewrite (get_summary_stats_fresh w Hnone), Hrun. done. }
  split; [done|].
  destruct (aggregate_fields _ _ Ha) as (Hn & _ & Hvol & _).
  destruct (aggregate_other_fields _ _ Ha) as (Htr & _).
  split; [exact Hn|].
  assert (∀ c, c ∈ REQUIRED_COLS ++ ["total_value"; "date"] →
               Forall (λ k, isna k = false) (column c t)) as Hpres.
  { intros c. by apply cleaned_ok_present. }
  assert (Forall (λ k, isna k = false) (column "ticker" t)) as Hptk.
  { apply Hpres. unfold REQUIRED_COLS. cbn [app]. repeat first [by left|right]. }
  assert (Forall (λ k, isna k = false) (column "trader_id" t)) as Hptr.
  { apply Hpres. unfold REQUIRED_COLS. cbn [app]. repeat first [by left|right]. }
  destruct (groupby_value_sum (λ x y, Qle_bool y.2 x.2) "ticker" t Hptk)
    as (Hvelem & _ & _).
  pose proof (sort_values_desc_sorted
                (groupby_sum (column "ticker" t) (column "total_value" t)))
    as Hvsorted.
  fold (sort_values_desc (groupby_sum (column "ticker" t)
                                      (column "total_value" t))) in Hvelem.
  rewrite <- Hvol in Hvelem, Hvsorted.
  pose proof (trader_activity_perm (λ x y, Nat.leb y.2.1 x.2.1) t Hok) as Htperm.
  pose proof (sort_by_count_sorted (λ x : cell * (nat * Q), x.2.1)
                (groupby_count_sum (column "trader_id" t) (column "timestamp" t)
                                   (column "total_value" t))) as Htsorted.
  cbn beta in Htsorted. rewrite <- Htr in Htperm, Htsorted.
  assert (∀ k n v, (k, (n, v)) ∈ trader_activity a
                   ↔ k ∈ column "trader_id" t
                     ∧ n = length (rows_with "trader_id" k t)
                     ∧ v = value_sum "trader_id" k t) as Htelem.
  { intros k n v.
    rewrite (labelled_elem _ _ _ _ _ Htperm), (elem_of_group_keys_present _ _ Hptr).
    split; [by intros [? [= -> ->]]|by intros (? & -> & ->)]. }
  unfold summarize. cbn [Summary.top_ticker_by_volume Summary.most_active_trader].
  split.
  - intros Hnil.
    assert (∀ c, column c t = []) as Hcol by (intros c; unfold column; by rewrite Hnil).
    split.
    + destruct (volume_by_ticker a) as [|[k v] l]; [done|].
      assert ((k, v) ∈ (k, v) :: l) as Hin by left.
      apply Hvelem in Hin as [Hin _]. rewrite Hcol in Hin.
      by apply elem_of_nil in Hin.
    + destruct (trader_activity a) as [|[k [n v]] l]; [done|].
      assert ((k, (n, v)) ∈ (k, (n, v)) :: l) as Hin by left.
      apply Htelem in Hin as [Hin _]. rewrite Hcol in Hin.
      by apply elem_of_nil in Hin.
  - intros Hne.
    destruct (rows t) as [|ir0 rest] eqn:Hrows; [done|].
    assert (cell_at "ticker" ir0.2 ∈ column "ticker" t) as Hk0.
    { unfold column. rewrite Hrows. by left. }
    assert (cell_at "trader_id" ir0.2 ∈ column "trader_id" t) as Ht0.
    { unfold column. rewrite Hrows. by left. }
    split_and!.
    + destruct (volume_by_ticker a) as [|[k v] l] eqn:Hv.
      { exfalso. eapply not_elem_of_nil. apply Hvelem. eauto. }
      assert ((k, v) ∈ (k, v) :: l) as Hin by left.
      apply Hvelem in Hin as [Hin _].
      destruct (cleaned_ok_text "ticker" t k Hok) as [s ->]; auto.
    + intros k' Hk'.
      destruct (volume_by_ticker a) as [|[k v] l] eqn:Hv.
      { exfalso. eapply not_elem_of_nil. apply Hvelem. eauto. }
      assert ((k, v) ∈ (k, v) :: l) as Hin by left.
      apply Hvelem in Hin as [Hin Hval].
      destruct (cleaned_ok_text "ticker" t k Hok) as [s ->]; auto.
      cbn [py_str]. rewrite <- Hval.
      assert ((k', value_sum "ticker" k' t) ∈ (Str s, v) :: l) as Hin'
        by (by apply Hvelem).
      apply (head_sorted_max _ _ _ _ Hvsorted) in Hin'; [done|].
      intros z. apply Qle_refl.
    + destruct (trader_activity a) as [|[k [n v]] l] eqn:Hv.
      { exfalso. eapply not_elem_of_nil. apply Htelem. eauto. }
      assert ((k, (n, v)) ∈ (k, (n, v)) :: l) as Hin by left.
      apply Htelem in Hin as [Hin _].
      destruct (cleaned_ok_text "trader_id" t k Hok) as [s ->]; auto.
    + intros k' Hk'.
      destruct (trader_activity a) as [|[k [n v]] l] eqn:Hv.
      { exfalso. eapply not_elem_of_nil. apply Htelem. eauto. }
      assert ((k, (n, v)) ∈ (k, (n, v)) :: l) as Hin by left.
      apply Htelem in Hin as (Hin & Hcount & _).
      destruct (cleaned_ok_text "trader_id" t k Hok) as [s ->]; auto.
      cbn [py_str]. rewrite <- Hcount.
      assert ((k', (length (rows_with "trader_id" k' t),
                    value_sum "trader_id" k' t)) ∈ (Str s, (n, v)) :: l) as Hin'
        by (by apply Htelem).
      apply (head_sorted_max _ _ _ _ Htsorted) in Hin'; [done|].
      intros z. cbn. lia.
Qed.

End SummaryStats.

(** ** The callers: the three stages on a file *)

Section Stages.
Context `{Pandas} `{!PandasLaws}.

(** The number of rows of the cleaned table is the number of valid rows of
    the file. *)
Lemma len_cleaned_valid raw :
  len (cleaned raw)
  = length (List.filter (λ ir, bool_decide (is_Some (valid_record ir.2)))
                        (rows raw)).
Proof.
  rewrite len_cleaned, kept_rows, length_map. f_equal.
  apply filter_ext. intros ir.
  destruct (passes ir.2) eqn:Hp.
  - symmetry. apply bool_decide_eq_true. by apply passes_valid.
  - symmetry. apply bool_decide_eq_false. intros Hv.
    apply passes_valid in Hv. congruence.
Qed.

(** The three stages in a row, on a new processor, followed by [k]. *)
Lemma stages_run {B} (k : Analytics → M B) path w :
  match files w !! path with
  | None =>
    ∃ w', (new_processor path;; load_data;; clean_data;;
           calculate_analytics ≫= k) w
          = (Raise (FileNotFoundError path), w')
  | Some d =>
    match missing_cols d with
    | [] =>
      ∃ a hh,
        aggregate (cleaned d) = Ok a
        ∧ (heap w ++ [d]) `prefix_of` hh
        ∧ (new_processor path;; load_data;; clean_data;;
           calculate_analytics ≫= k) w
          = k a
             {| files := files w;
                heap := hh ++ [cleaned d];
                self := {| csv_path := path; df := Some (length (heap w));
                           cleaned_df := Some (length hh);
                           analytics := Some a |};
                logged := ((logged w ++ [(INFO, LoadedTransactions (len d))])
                           ++ clean_log d) ++ [(INFO, AnalyticsCalculated)] |}
    | m =>
      ∃ w', (new_processor path;; load_data;; clean_data;;
             calculate_analytics ≫= k) w
            = (Raise (ValueError (MissingRequiredColumns m)), w')
    end
  end.
Proof.
  set (w0 := with_processor w path).
  assert (new_processor path w = (Ok tt, w0)) as Hnew by done.
  destruct (files w !! path) as [d|] eqn:Hf.
  2: { eexists. rewrite (bind_run_Ok _ _ _ _ _ Hnew).
       by rewrite (bind_run_Raise load_data _ w0 _ _ (load_data_no_file w0 Hf)). }
  pose proof (load_data_read w0 d Hf) as Hload.
  destruct (missing_cols d) as [|c m] eqn:Hm.
  2: { eexists. rewrite (bind_run_Ok _ _ _ _ _ Hnew).
       by rewrite (bind_run_Raise load_data _ w0 _ _ Hload). }
  apply missing_cols_nil in Hm.
  assert (loaded (after_load w0 d) d) as Hl.
  { exists (length (heap w)). split; [done|]. simpl. by apply list_lookup_middle. }
  destruct (clean_data_ok _ d Hl Hm) as (hh & Hp & Hclean).
  pose proof (cleaned_is_ok d Hm) as Hok.
  destruct (aggregate_Ok (cleaned d) (proj1 Hok)) as [a Ha].
  exists a, hh. split; [done|]. split; [done|].
  rewrite (bind_run_Ok _ _ _ _ _ Hnew).
  rewrite (bind_run_Ok load_data _ w0 _ _ Hload).
  rewrite (bind_run_Ok clean_data _ _ _ _ Hclean).
  erewrite (bind_run_Ok calculate_analytics).
  2: { rewrite (calculate_analytics_some _ (cleaned d)).
       - rewrite Ha. reflexivity.
       - exists (length hh). cbn [self cleaned_df heap]. split; [done|].
         by apply list_lookup_middle. }
  unfold with_analytics, after_load.
  cbn [files heap self logged csv_path df cleaned_df analytics].
  rewrite (proj2 (missing_cols_nil d) Hm). by rewrite app_nil_r.
Qed.



End Stages.

(** ** Which results are shared with the processor *)

Lemma df_setitem_last l c s w hh d :
  heap w = hh ++ [d] → l = length hh →
  heap (df_setitem l c s w).2 = hh ++ [setitem c s d].
Proof.
  intros Hh ->. unfold df_setitem, mutate. cbn [snd heap]. rewrite Hh.
  rewrite alter_app_r_alt by done. by rewrite Nat.sub_diag.
Qed.

Lemma df_setitem_other l l' c s w :
  l ≠ l' → heap (df_setitem l c s w).2 !! l' = heap w !! l'.
Proof.
  intros Hne. unfold df_setitem, mutate. cbn [snd heap].
  by apply list_lookup_alter_ne.
Qed.

Section Sharing.
Context `{Pandas} `{!PandasLaws}.

(** X23: [load_data] and [clean_data] return the very frame the processor
    keeps, the three queries return a copy.  An assignment to a column made
    through the result of [load_data] or [clean_data] changes the table
    [self.df] or [self.cleaned_df] points to; made through the result of a
    query, it leaves the cleaned table as it was. *)
Theorem returned_frames_shared_or_copied w c :
  (∀ d, files w !! csv_path (self w) = Some d → valid_schema d →
     ∃ l w1, load_data w = (Ok l, w1)
             ∧ df (self w1) = Some l
             ∧ ∀ s, length s = len d →
                    loaded (df_setitem l c s w1).2 (setitem c s d))
  ∧ (∀ raw, loaded w raw → valid_schema raw →
     ∃ l w1 t, clean_data w = (Ok l, w1)
               ∧ cleaned_df (self w1) = Some l
               ∧ heap w1 !! l = Some t
               ∧ ∀ s, length s = len t →
                      cleaned_at (df_setitem l c s w1).2 (setitem c s t))
  ∧ (∀ t k, cleaned_at w t → cleaned_ok t →
     ∃ l w1, get_transactions_by_ticker k w = (Ok l, w1)
             ∧ cleaned_df (self w1) ≠ Some l
             ∧ ∀ s, cleaned_at (df_setitem l c s w1).2 t)
  ∧ (∀ t k, cleaned_at w t → cleaned_ok t →
     ∃ l w1, get_trader_transactions k w = (Ok l, w1)
             ∧ cleaned_df (self w1) ≠ Some l
             ∧ ∀ s, cleaned_at (df_setitem l c s w1).2 t)
  ∧ (∀ t start_date end_date, cleaned_at w t → cleaned_ok t →
     is_Some (parse_datetime start_date) → is_Some (parse_datetime end_date) →
     ∃ l w1, get_transactions_by_timerange start_date end_date w = (Ok l, w1)
             ∧ cleaned_df (self w1) ≠ Some l
             ∧ ∀ s, cleaned_at (df_setitem l c s w1).2 t).
Proof.
  split_and!.
  - intros d Hf Hs. pose proof (load_data_read w d Hf) as Hrun.
    rewrite (proj2 (missing_cols_nil d) Hs) in Hrun.
    eexists _, _. split; [exact Hrun|]. split; [done|]. intros s _.
    exists (length (heap w)). split; [done|].
    rewrite (df_setitem_last _ _ _ _ (heap w) d) by done.
    by apply list_lookup_middle.
  - intros raw Hl Hs. destruct (clean_data_ok w raw Hl Hs) as (hh & Hp & Hrun).
    eexists _, _, (cleaned raw). split; [exact Hrun|]. cbn [heap].
    split; [done|]. split; [by apply list_lookup_middle|]. intros s _.
    exists (length hh). split; [done|].
    rewrite (df_setitem_last _ _ _ _ hh (cleaned raw)) by done.
    by apply list_lookup_middle.
  - intros t k Hat Hok. eexists _, _. split.
    { apply get_transactions_by_ticker_run; [done|].
      apply (cleaned_ok_column _ _ Hok). unfold REQUIRED_COLS. cbn [app].
      repeat first [by left|right]. }
    destruct Hat as (l & Hc & Hl). pose proof (lookup_lt_Some _ _ _ Hl) as Hlt.
    split.
    { cbn [with_selection self]. rewrite Hc. intros [= ->]. lia. }
    intros s. exists l. split; [done|].
    rewrite df_setitem_other by lia. by apply with_selection_old.
  - intros t k Hat Hok. eexists _, _. split.
    { apply get_trader_transactions_run; [done|].
      apply (cleaned_ok_column _ _ Hok). unfold REQUIRED_COLS. cbn [app].
      repeat first [by left|right]. }
    destruct Hat as (l & Hc & Hl). pose proof (lookup_lt_Some _ _ _ Hl) as Hlt.
    split.
    { cbn [with_selection self]. rewrite Hc. intros [= ->]. lia. }
    intros s. exists l. split; [done|].
    rewrite df_setitem_other by lia. by apply with_selection_old.
  - intros t sd ed Hat Hok [s Hs] [e He]. eexists _, _. split.
    { apply (timerange_run w t sd ed s e); [done| |done..].
      by apply cleaned_ok_timestamp. }
    destruct Hat as (l & Hc & Hl). pose proof (lookup_lt_Some _ _ _ Hl) as Hlt.
    split.
    { cbn [self]. rewrite Hc. intros [= ->]. lia. }
    intros s'. exists l. split; [done|].
    rewrite df_setitem_other by lia. cbn [heap]. by do 2 apply lookup_app_l_Some.
Qed.

End Sharing.

(** * The further properties on the sample tables *)

Lemma short_schema : ¬ valid_schema short_raw.
Proof.
  intros Hs.
  assert ("action" ∈ columns short_raw) as Hin.
  { apply Hs. unfold REQUIRED_COLS. repeat first [by left|right]. }
  revert Hin. apply (bool_decide_unpack _). vm_compute. exact I.
Qed.

Lemma short_loaded : loaded (after_loading short_raw) short_raw.
Proof. exists 0%nat. split; vm_compute; reflexivity. Qed.

Lemma unnamed_loaded : loaded (after_loading unnamed_raw) unnamed_raw.
Proof. exists 0%nat. split; vm_compute; reflexivity. Qed.

Lemma unnamed_schema : valid_schema unnamed_raw.
Proof. intros c Hc. apply elem_of_app. by left. Qed.

(** The summary of the cleaned sample. *)
Example sample_summary :
  (get_summary_stats (after_cleaning sample_raw)).1
  = Ok {| Summary.total_transactions := 3;
          Summary.total_volume := "$2,440.00";
          Summary.unique_tickers := 2;
          Summary.unique_traders := 2;
          Summary.date_range := "2024-01-01 10:00:00 to 2024-02-01 10:00:00";
          Summary.top_ticker_by_volume := "AAPL";
          Summary.most_active_trader := "T1" |}.
Proof. vm_compute. reflexivity. Qed.

(** The other aggregates of the cleaned sample. *)
Example sample_other_aggregates :
  (a ← aggregate (cleaned sample_raw);
   mret (trader_activity a, daily_volume a, action_counts a, date_range a))
  = Ok ([(Str "T1", (2%nat, 1440%Q)); (Str "T2", (1%nat, 1000%Q))],
        [(Date 19723, 1440%Q); (Date 19754, 1000%Q)],
        [(Str "SELL", 2%nat); (Str "BUY", 1%nat)],
        (Datetime 1704103200000000000, Datetime 1706781600000000000)).
Proof. vm_compute. reflexivity. Qed.

(** [load_data_missing_file] on the sample whose file is gone. *)
Lemma load_data_missing_file_witness :
  files file_removed !! csv_path (self file_removed) = None
  ∧ loaded file_removed sample_raw
  ∧ ∃ w' l w2,
      load_data file_removed
      = (Raise (FileNotFoundError "data/sample_transactions.csv"), w')
      ∧ clean_data w' = (Ok l, w2)
      ∧ heap w2 !! l = Some (cleaned sample_raw).
Proof.
  assert (files file_removed !! csv_path (self file_removed) = None) as H1
    by (vm_compute; reflexivity).
  assert (loaded file_removed sample_raw) as H2
    by (exists 0%nat; split; vm_compute; reflexivity).
  repeat (split; [assumption|]).
  destruct (load_data_missing_file file_removed H1)
    as (w' & Hrun & _ & _ & _ & _ & Hclean).
  destruct (Hclean sample_raw H2 sample_schema) as (l & w2 & Hrun2 & _ & Ht).
  exists w', l, w2. exact (conj Hrun (conj Hrun2 Ht)).
Defined.

(** [clean_data_errors] before a load, and on the file with two of the six
    columns. *)
Lemma clean_data_errors_witness :
  clean_data no_file = (Raise (ValueError DataNotLoaded), no_file)
  ∧ ∃ c w', clean_data (after_loading short_raw) = (Raise (KeyError c), w').
Proof.
  split.
  - apply (clean_data_errors no_file). vm_compute. reflexivity.
  - destruct (clean_data_errors (after_loading short_raw)) as (_ & Hcol & _).
    destruct (Hcol short_raw short_loaded short_schema) as (c & w' & Hrun & _).
    exists c, w'. exact Hrun.
Defined.

(** [clean_data_after_failed_load] on the file with two of the six
    columns. *)
Lemma clean_data_after_failed_load_witness :
  files (fresh short_raw) !! csv_path (self (fresh short_raw)) = Some short_raw
  ∧ ¬ valid_schema short_raw
  ∧ ∃ w1 c w2,
      load_data (fresh short_raw)
      = (Raise (ValueError (MissingRequiredColumns (missing_cols short_raw))), w1)
      ∧ clean_data w1 = (Raise (KeyError c), w2).
Proof.
  assert (files (fresh short_raw) !! csv_path (self (fresh short_raw))
          = Some short_raw) as H1 by (vm_compute; reflexivity).
  split; [exact H1|]. split; [exact short_schema|].
  destruct (clean_data_after_failed_load _ _ H1 short_schema)
    as (w1 & c & w2 & Hload & Hclean & _).
  exists w1, c, w2. exact (conj Hload Hclean).
Defined.


(** [clean_data_keeps_other_columns] on the same file, which has a column
    of its own. *)
Lemma clean_data_keeps_other_columns_witness :
  loaded (after_loading unnamed_raw) unnamed_raw
  ∧ valid_schema unnamed_raw
  ∧ ∃ l' w' t, clean_data (after_loading unnamed_raw) = (Ok l', w')
               ∧ heap w' !! l' = Some t
               ∧ columns t = REQUIRED_COLS ++ ["note"; "total_value"; "date"].
Proof.
  pose proof unnamed_loaded as H1. pose proof unnamed_schema as H2.
  repeat (split; [assumption|]).
  destruct (clean_data_keeps_other_columns _ _ H1 H2)
    as (l' & w' & t & Hrun & Ht & Hcols & _).
  exists l', w', t. exact (conj Hrun (conj Ht Hcols)).
Defined.

(** [get_transactions_by_ticker_rows] on the sample. *)
Lemma get_transactions_by_ticker_rows_witness :
  cleaned_at (after_cleaning sample_raw) (cleaned sample_raw)
  ∧ cleaned_ok (cleaned sample_raw)
  ∧ ∃ l' w' sel,
      get_transactions_by_ticker " aapl " (after_cleaning sample_raw) = (Ok l', w')
      ∧ heap w' !! l' = Some sel
      ∧ rows sel = rows_with "ticker" (Str (upper (strip " aapl ")))
                             (cleaned sample_raw).
Proof.
  pose proof sample_cleaned as H1. pose proof sample_cleaned_ok as H2.
  repeat (split; [assumption|]).
  destruct (get_transactions_by_ticker_rows _ _ " aapl " H1 H2)
    as (l' & w' & sel & Hrun & Hsel & _ & Hrows & _).
  exists l', w', sel. exact (conj Hrun (conj Hsel Hrows)).
Defined.

(** [get_trader_transactions_rows] on the sample. *)
Lemma get_trader_transactions_rows_witness :
  cleaned_at (after_cleaning sample_raw) (cleaned sample_raw)
  ∧ cleaned_ok (cleaned sample_raw)
  ∧ ∃ l' w' sel,
      get_trader_transactions "t2" (after_cleaning sample_raw) = (Ok l', w')
      ∧ heap w' !! l' = Some sel
      ∧ rows sel = rows_with "trader_id" (Str (upper (strip "t2")))
                             (cleaned sample_raw).
Proof.
  pose proof sample_cleaned as H1. pose proof sample_cleaned_ok as H2.
  repeat (split; [assumption|]).
  destruct (get_trader_transactions_rows _ _ "t2" H1 H2)
    as (l' & w' & sel & Hrun & Hsel & _ & Hrows & _).
  exists l', w', sel. exact (conj Hrun (conj Hsel Hrows)).
Defined.

(** The two queries on the sample: the rows they return. *)
Example sample_queries :
  map fst (rows_with "ticker" (Str (upper (strip " aapl "))) (cleaned sample_raw))
  = [0%nat; 1%nat]
  ∧ map fst (rows_with "trader_id" (Str (upper (strip "t2"))) (cleaned sample_raw))
    = [2%nat].
Proof. split; vm_compute; reflexivity. Qed.

(** [queries_require_cleaned] on the sample, loaded and not cleaned. *)
Lemma queries_require_cleaned_witness :
  cleaned_df (self (after_loading sample_raw)) = None
  ∧ get_transactions_by_timerange "not a date" "2024-01-31"
      (after_loading sample_raw)
    = (Raise (ValueError DataNotCleaned), after_loading sample_raw).
Proof.
  assert (cleaned_df (self (after_loading sample_raw)) = None) as H1
    by (vm_compute; reflexivity).
  split; [exact H1|].
  destruct (queries_require_cleaned (after_loading sample_raw) "AAPL"
              "not a date" "2024-01-31" H1) as (_ & _ & Hrange).
  exact Hrange.
Defined.

(** [query_by_file_text_finds_row] on the second row of the sample. *)
Lemma query_by_file_text_finds_row_witness :
  loaded (after_loading sample_raw) sample_raw
  ∧ valid_schema sample_raw
  ∧ (1%nat, sample_row) ∈ rows sample_raw
  ∧ is_Some (valid_record sample_row)
  ∧ cell_at "ticker" sample_row = Str " aapl "
  ∧ ∃ l1 w1 l2 w2 sel,
      clean_data (after_loading sample_raw) = (Ok l1, w1)
      ∧ get_transactions_by_ticker " aapl " w1 = (Ok l2, w2)
      ∧ heap w2 !! l2 = Some sel
      ∧ transaction sample_row ∈ map snd (rows sel).
Proof.
  pose proof sample_loaded as H1. pose proof sample_schema as H2.
  assert ((1%nat, sample_row) ∈ rows sample_raw) as H3 by (right; left).
  assert (is_Some (valid_record sample_row)) as H4
    by (vm_compute; eexists; reflexivity).
  assert (cell_at "ticker" sample_row = Str " aapl ") as H5
    by (vm_compute; reflexivity).
  repeat (split; [assumption|]).
  exact (query_by_file_text_finds_row _ _ _ _ _ H1 H2 H3 H4 H5).
Defined.

(** [action_counts_add_up] on the sample. *)
Lemma action_counts_add_up_witness :
  cleaned_at (after_cleaning sample_raw) (cleaned sample_raw)
  ∧ cleaned_ok (cleaned sample_raw)
  ∧ ∃ a w', calculate_analytics (after_cleaning sample_raw) = (Ok a, w')
            ∧ sum_list (map snd (action_counts a)) = total_transactions a.
Proof.
  pose proof sample_cleaned as H1. pose proof sample_cleaned_ok as H2.
  repeat (split; [assumption|]).
  destruct (action_counts_add_up _ _ H1 H2) as (a & w' & Hrun & Hsum & _).
  exists a, w'. exact (conj Hrun Hsum).
Defined.


(** [daily_volume_totals] on the sample. *)
Lemma daily_volume_totals_witness :
  cleaned_at (after_cleaning sample_raw) (cleaned sample_raw)
  ∧ cleaned_ok (cleaned sample_raw)
  ∧ ∃ a w', calculate_analytics (after_cleaning sample_raw) = (Ok a, w')
            ∧ (Qsum (map snd (daily_volume a)) == total_volume a)%Q.
Proof.
  pose proof sample_cleaned as H1. pose proof sample_cleaned_ok as H2.
  repeat (split; [assumption|]).
  destruct (daily_volume_totals _ _ H1 H2) as (a & w' & Hrun & Hsum & _).
  exists a, w'. exact (conj Hrun Hsum).
Defined.

(** [volume_by_ticker_order] on the sample. *)
Lemma volume_by_ticker_order_witness :
  cleaned_at (after_cleaning sample_raw) (cleaned sample_raw)
  ∧ cleaned_ok (cleaned sample_raw)
  ∧ ∃ a w', calculate_analytics (after_cleaning sample_raw) = (Ok a, w')
            ∧ length (volume_by_ticker a) = unique_tickers a.
Proof.
  pose proof sample_cleaned as H1. pose proof sample_cleaned_ok as H2.
  repeat (split; [assumption|]).
  destruct (volume_by_ticker_order _ _ H1 H2)
    as (a & w' & Hrun & _ & _ & _ & Hlen & _).
  exists a, w'. exact (conj Hrun Hlen).
Defined.

(** [net_position_labels] on the sample. *)
Lemma net_position_labels_witness :
  cleaned_at (after_cleaning sample_raw) (cleaned sample_raw)
  ∧ cleaned_ok (cleaned sample_raw)
  ∧ ∃ a w', calculate_analytics (after_cleaning sample_raw) = (Ok a, w')
            ∧ length (net_position a) = unique_tickers a.
Proof.
  pose proof sample_cleaned as H1. pose proof sample_cleaned_ok as H2.
  repeat (split; [assumption|]).
  destruct (net_position_labels _ _ H1 H2) as (a & w' & Hrun & _ & _ & Hlen & _).
  exists a, w'. exact (conj Hrun Hlen).
Defined.

(** [date_range_spans_table] on the sample. *)
Lemma date_range_spans_table_witness :
  cleaned_at (after_cleaning sample_raw) (cleaned sample_raw)
  ∧ cleaned_ok (cleaned sample_raw)
  ∧ ∃ a w', calculate_analytics (after_cleaning sample_raw) = (Ok a, w')
            ∧ date_range a
              = (default NaN (head (timestamps (cleaned sample_raw))),
                 default NaN (last (timestamps (cleaned sample_raw)))).
Proof.
  pose proof sample_cleaned as H1. pose proof sample_cleaned_ok as H2.
  repeat (split; [assumption|]).
  destruct (date_range_spans_table _ _ H1 H2) as (a & w' & Hrun & Hrange & _).
  exists a, w'. exact (conj Hrun Hrange).
Defined.

(** [get_summary_stats_keeps_cache] on the sample with its analytics
    stored. *)
Lemma get_summary_stats_keeps_cache_witness :
  analytics (self (after_analytics sample_raw)) = Some stored_analytics
  ∧ get_summary_stats (after_analytics sample_raw)
    = (Ok (summarize stored_analytics), after_analytics sample_raw).
Proof.
  assert (analytics (self (after_analytics sample_raw)) = Some stored_analytics)
    as H1 by (vm_compute; reflexivity).
  split; [exact H1|].
  destruct (get_summary_stats_keeps_cache (after_analytics sample_raw)
              stored_analytics H1) as (Hrun & _).
  exact Hrun.
Defined.

(** [get_summary_stats_top] on the cleaned sample. *)
Lemma get_summary_stats_top_witness :
  cleaned_at (after_cleaning sample_raw) (cleaned sample_raw)
  ∧ cleaned_ok (cleaned sample_raw)
  ∧ analytics (self (after_cleaning sample_raw)) = None
  ∧ ∃ s a, get_summary_stats (after_cleaning sample_raw)
           = (Ok s, with_analytics (after_cleaning sample_raw) a)
           ∧ Summary.total_transactions s = len (cleaned sample_raw).
Proof.
  pose proof sample_cleaned as H1. pose proof sample_cleaned_ok as H2.
  assert (analytics (self (after_cleaning sample_raw)) = None) as H3
    by (vm_compute; reflexivity).
  repeat (split; [assumption|]).
  destruct (get_summary_stats_top _ _ H1 H2 H3) as (s & a & Hrun & _ & Hn & _).
  exists s, a. exact (conj Hrun Hn).
Defined.




(** [returned_frames_shared_or_copied] on the sample: [clean_data] returns
    the reference it has stored. *)
Lemma returned_frames_shared_or_copied_witness :
  loaded (after_loading sample_raw) sample_raw
  ∧ valid_schema sample_raw
  ∧ ∃ l w1, clean_data (after_loading sample_raw) = (Ok l, w1)
            ∧ cleaned_df (self w1) = Some l.
Proof.
  pose proof sample_loaded as H1. pose proof sample_schema as H2.
  repeat (split; [assumption|]).
  destruct (returned_frames_shared_or_copied (after_loading sample_raw) "ticker")
    as (_ & Hclean & _).
  destruct (Hclean sample_raw H1 H2) as (l & w1 & t & Hrun & Hself & _).
  exists l, w1. exact (conj Hrun Hself).
Defined.
